(** * lm83: a shallow embedding of the LM83 hardware-monitoring driver

    The development follows [kernel/chips/lm83.c].  The driver talks to
    the rest of the kernel (SMBus transfers, the I2C core, the sysctl
    registry, the allocator, the clock) through calls whose code is not
    part of the driver; they are gathered in a [kernel] record of
    oracles.  Every such call is recorded, together with the value it
    returned, in a chronological history of [event]s, and an oracle may
    answer differently at different histories.  Driver functions are
    written in a small state monad over that history. *)

From Stdlib Require Import ZArith Lia Bool List String.
From stdpp Require Import base list.
Import ListNotations.

Local Open Scope Z_scope.

(** ** Registers and conversions *)

Definition LM83_REG_R_MAN_ID       : Z := 0xFE.
Definition LM83_REG_R_CONFIG       : Z := 0x03.
Definition LM83_REG_W_CONFIG       : Z := 0x09.
Definition LM83_REG_R_STATUS1      : Z := 0x02.
Definition LM83_REG_R_STATUS2      : Z := 0x35.
Definition LM83_REG_R_LOCAL_TEMP   : Z := 0x00.
Definition LM83_REG_R_LOCAL_HIGH   : Z := 0x05.
Definition LM83_REG_W_LOCAL_HIGH   : Z := 0x0B.
Definition LM83_REG_R_REMOTE1_TEMP : Z := 0x30.
Definition LM83_REG_R_REMOTE1_HIGH : Z := 0x38.
Definition LM83_REG_W_REMOTE1_HIGH : Z := 0x50.
Definition LM83_REG_R_REMOTE2_TEMP : Z := 0x01.
Definition LM83_REG_R_REMOTE2_HIGH : Z := 0x07.
Definition LM83_REG_W_REMOTE2_HIGH : Z := 0x0D.
Definition LM83_REG_R_REMOTE3_TEMP : Z := 0x31.
Definition LM83_REG_R_REMOTE3_HIGH : Z := 0x3A.
Definition LM83_REG_W_REMOTE3_HIGH : Z := 0x52.

(** [#define TEMP_FROM_REG(val) (val > 127 ? val-256 : val)] *)
Definition TEMP_FROM_REG (val : Z) : Z :=
  if val >? 127 then val - 256 else val.

(** [#define TEMP_TO_REG(val) (val < 0 ? val+256 : val)] *)
Definition TEMP_TO_REG (val : Z) : Z :=
  if val <? 0 then val + 256 else val.

Definition LM83_INIT_HIGH : Z := 127.

(** Conversion of an [int] or [long] to [u8] (and to [unsigned char]):
    the value modulo 256. *)
Definition to_u8 (v : Z) : Z := v mod 256.

(** An [int] has 32 bits on every platform the driver is built for. *)
Definition INT_MIN : Z := -2147483648.
Definition INT_MAX : Z := 2147483647.

(** Conversion to [int], with two's complement wrap-around: what the
    compiled driver leaves in an [int] that is incremented past
    [INT_MAX]. *)
Definition to_int (v : Z) : Z := (v + 2 ^ 31) mod 2 ^ 32 - 2 ^ 31.

(** ** Client data *)

(** [struct lm83_data].  [update_lock] is the count of the semaphore;
    the [u8] fields hold values in 0..255 once the driver has stored
    into them. *)
Record lm83_data := mk_lm83_data {
  sysctl_id    : Z;
  update_lock  : Z;
  valid        : Z;
  last_updated : Z;
  local_temp   : Z;
  local_high   : Z;
  remote1_temp : Z;
  remote1_high : Z;
  remote2_temp : Z;
  remote2_high : Z;
  remote3_temp : Z;
  remote3_high : Z
}.

(** The fields of [struct i2c_client] the driver touches, with the
    [lm83_data] that is allocated right behind it in the same block.
    The [driver] pointer always designates [lm83_driver] and is left
    out. *)
Record i2c_client := mk_i2c_client {
  name    : string;
  id      : Z;
  flags   : Z;
  addr    : Z;
  adapter : Z;
  data    : lm83_data
}.

Definition set_sysctl_id (v : Z) (d : lm83_data) : lm83_data :=
  mk_lm83_data v (update_lock d) (valid d) (last_updated d)
    (local_temp d) (local_high d) (remote1_temp d) (remote1_high d)
    (remote2_temp d) (remote2_high d) (remote3_temp d) (remote3_high d).
Definition set_update_lock (v : Z) (d : lm83_data) : lm83_data :=
  mk_lm83_data (sysctl_id d) v (valid d) (last_updated d)
    (local_temp d) (local_high d) (remote1_temp d) (remote1_high d)
    (remote2_temp d) (remote2_high d) (remote3_temp d) (remote3_high d).
Definition set_valid (v : Z) (d : lm83_data) : lm83_data :=
  mk_lm83_data (sysctl_id d) (update_lock d) v (last_updated d)
    (local_temp d) (local_high d) (remote1_temp d) (remote1_high d)
    (remote2_temp d) (remote2_high d) (remote3_temp d) (remote3_high d).
Definition set_last_updated (v : Z) (d : lm83_data) : lm83_data :=
  mk_lm83_data (sysctl_id d) (update_lock d) (valid d) v
    (local_temp d) (local_high d) (remote1_temp d) (remote1_high d)
    (remote2_temp d) (remote2_high d) (remote3_temp d) (remote3_high d).
Definition set_local_temp (v : Z) (d : lm83_data) : lm83_data :=
  mk_lm83_data (sysctl_id d) (update_lock d) (valid d) (last_updated d)
    v (local_high d) (remote1_temp d) (remote1_high d)
    (remote2_temp d) (remote2_high d) (remote3_temp d) (remote3_high d).
Definition set_local_high (v : Z) (d : lm83_data) : lm83_data :=
  mk_lm83_data (sysctl_id d) (update_lock d) (valid d) (last_updated d)
    (local_temp d) v (remote1_temp d) (remote1_high d)
    (remote2_temp d) (remote2_high d) (remote3_temp d) (remote3_high d).
Definition set_remote1_temp (v : Z) (d : lm83_data) : lm83_data :=
  mk_lm83_data (sysctl_id d) (update_lock d) (valid d) (last_updated d)
    (local_temp d) (local_high d) v (remote1_high d)
    (remote2_temp d) (remote2_high d) (remote3_temp d) (remote3_high d).
Definition set_remote1_high (v : Z) (d : lm83_data) : lm83_data :=
  mk_lm83_data (sysctl_id d) (update_lock d) (valid d) (last_updated d)
    (local_temp d) (local_high d) (remote1_temp d) v
    (remote2_temp d) (remote2_high d) (remote3_temp d) (remote3_high d).
Definition set_remote2_temp (v : Z) (d : lm83_data) : lm83_data :=
  mk_lm83_data (sysctl_id d) (update_lock d) (valid d) (last_updated d)
    (local_temp d) (local_high d) (remote1_temp d) (remote1_high d)
    v (remote2_high d) (remote3_temp d) (remote3_high d).
Definition set_remote2_high (v : Z) (d : lm83_data) : lm83_data :=
  mk_lm83_data (sysctl_id d) (update_lock d) (valid d) (last_updated d)
    (local_temp d) (local_high d) (remote1_temp d) (remote1_high d)
    (remote2_temp d) v (remote3_temp d) (remote3_high d).
Definition set_remote3_temp (v : Z) (d : lm83_data) : lm83_data :=
  mk_lm83_data (sysctl_id d) (update_lock d) (valid d) (last_updated d)
    (local_temp d) (local_high d) (remote1_temp d) (remote1_high d)
    (remote2_temp d) (remote2_high d) v (remote3_high d).
Definition set_remote3_high (v : Z) (d : lm83_data) : lm83_data :=
  mk_lm83_data (sysctl_id d) (update_lock d) (valid d) (last_updated d)
    (local_temp d) (local_high d) (remote1_temp d) (remote1_high d)
    (remote2_temp d) (remote2_high d) (remote3_temp d) v.

(** [client->data-> ... = ...]: a store into the data behind a client. *)
Definition with_data (f : lm83_data -> lm83_data) (c : i2c_client) : i2c_client :=
  mk_i2c_client (name c) (id c) (flags c) (addr c) (adapter c) (f (data c)).

Definition set_name (v : string) (c : i2c_client) : i2c_client :=
  mk_i2c_client v (id c) (flags c) (addr c) (adapter c) (data c).
Definition set_id (v : Z) (c : i2c_client) : i2c_client :=
  mk_i2c_client (name c) v (flags c) (addr c) (adapter c) (data c).

(** ** The kernel around the driver *)

(** One call out of the driver, with what it returned. *)
Inductive event :=
| EvCheckFunctionality (adapter result : Z)
| EvKmalloc (ok : bool)
| EvKfree (addr : Z)
| EvDown (addr : Z)
| EvUp (addr : Z)
| EvSmbusRead (addr reg result : Z)
| EvSmbusWrite (addr reg value result : Z)
| EvAttachClient (addr result : Z)
| EvDetachClient (addr result : Z)
| EvRegisterEntry (addr result : Z)
| EvDeregisterEntry (id : Z)
| EvPrintk (msg : string).

(** What the driver takes from kernel headers and from the rest of the
    kernel.  The constants are build parameters ([HZ], the width of
    [unsigned long], the value of [ENOMEM], the value [lm83] of the
    [chips] enumeration that [SENSORS_INSMOD_1(lm83)] declares, whether
    [DEBUG] is defined); the functions are the answers of the kernel to
    the driver's calls, given the history so far.  [kmalloc] answers
    with the contents of the fresh block, which are indeterminate, or
    with [None] for a null pointer. *)
Record kernel := mk_kernel {
  HZ            : Z;
  BITS_PER_LONG : Z;
  ENOMEM        : Z;
  lm83          : Z;
  DEBUG         : bool;
  jiffies       : list event -> Z;
  i2c_is_isa_adapter        : Z -> Z;
  i2c_check_functionality   : list event -> Z -> Z;
  kmalloc                   : list event -> option i2c_client;
  i2c_smbus_read_byte_data  : list event -> Z -> Z -> Z;
  i2c_smbus_write_byte_data : list event -> Z -> Z -> Z -> Z;
  i2c_attach_client         : list event -> Z -> Z;
  i2c_detach_client         : list event -> Z -> Z;
  i2c_register_entry        : list event -> Z -> Z
}.

(** Conversion to [unsigned long]. *)
Definition to_ulong (k : kernel) (v : Z) : Z := v mod 2 ^ BITS_PER_LONG k.

(** The mutable world of the driver outside the clients: the history
    of calls and the driver's [static int lm83_id]. *)
Record world := mk_world {
  hist    : list event;
  lm83_id : Z
}.

Definition K (A : Type) : Type := world -> A * world.

Definition ret {A} (a : A) : K A := fun w => (a, w).

Definition bind {A B} (m : K A) (f : A -> K B) : K B :=
  fun w => let (a, w') := m w in f a w'.

Notation "x <- m ;; f" := (bind m (fun x => f))
  (at level 100, m at next level, right associativity).
Notation "m ;;; f" := (bind m (fun _ => f))
  (at level 100, right associativity).

(** A call into the kernel: the answer is computed from the history
    before the call, and the call is appended to the history. *)
Definition call {A} (answer : list event -> A) (ev : A -> event) : K A :=
  fun w => let a := answer (hist w) in
           (a, mk_world (hist w ++ [ev a]) (lm83_id w)).

Definition emit (ev : event) : K unit := call (fun _ => tt) (fun _ => ev).

(** [printk]: the call is recorded with its format string as the
    source writes it, escape sequences and conversions unexpanded. *)
Definition printk (msg : string) : K unit := emit (EvPrintk msg).

(** [#ifdef DEBUG printk(...) #endif] *)
Definition debug_printk (k : kernel) (msg : string) : K unit :=
  if DEBUG k then printk msg else ret tt.

(** Reading the volatile [jiffies]; no call is made. *)
Definition read_jiffies (k : kernel) : K Z :=
  fun w => (to_ulong k (jiffies k (hist w)), w).

(** [lm83_id++] on the [static int lm83_id]: the value before the
    increment is the result. *)
Definition next_lm83_id : K Z :=
  fun w => (lm83_id w, mk_world (hist w) (to_int (lm83_id w + 1))).

(** ** The driver *)

Section Driver.

Variable k : kernel.

(** [lm83_read_value]: the [int] that [i2c_smbus_read_byte_data]
    returns, a byte or a negative value when the transfer failed. *)
Definition lm83_read_value (client : i2c_client) (reg : Z) : K Z :=
  call (fun h => i2c_smbus_read_byte_data k h (addr client) reg)
       (EvSmbusRead (addr client) reg).

(** [lm83_write_value]; the parameter [value] is a [u8]. *)
Definition lm83_write_value (client : i2c_client) (reg value : Z) : K Z :=
  call (fun h => i2c_smbus_write_byte_data k h (addr client) reg (to_u8 value))
       (EvSmbusWrite (addr client) reg (to_u8 value)).

(** [down(&data->update_lock)] and [up(&data->update_lock)].  The
    model is sequential: a [down] that would have to wait is outside
    it. *)
Definition down (client : i2c_client) : K i2c_client :=
  emit (EvDown (addr client)) ;;;
  ret (with_data (fun d => set_update_lock (update_lock d - 1) d) client).

Definition up (client : i2c_client) : K i2c_client :=
  emit (EvUp (addr client)) ;;;
  ret (with_data (fun d => set_update_lock (update_lock d + 1) d) client).

Definition lm83_init_client (client : i2c_client) : K unit :=
  lm83_write_value client LM83_REG_W_LOCAL_HIGH (TEMP_TO_REG LM83_INIT_HIGH) ;;;
  lm83_write_value client LM83_REG_W_REMOTE1_HIGH (TEMP_TO_REG LM83_INIT_HIGH) ;;;
  lm83_write_value client LM83_REG_W_REMOTE2_HIGH (TEMP_TO_REG LM83_INIT_HIGH) ;;;
  lm83_write_value client LM83_REG_W_REMOTE3_HIGH (TEMP_TO_REG LM83_INIT_HIGH) ;;;
  ret tt.

(** The places where [lm83_detect] leaves: its three early [return]s,
    its five [goto]s and its final [return 0]. *)
Inductive exit_path :=
| ExitIsaAdapter
| ExitNoFunctionality
| ExitNoMemory
| ExitDetectionFailed
| ExitUnsupported
| ExitUnknownKind
| ExitAttachFailed
| ExitRegisterFailed
| ExitAttached.

(** What a call of [lm83_detect] leaves behind: the value returned,
    the place it returned from, and the client block if it is still
    allocated. *)
Record detect_result := mk_detect_result {
  ret_code   : Z;
  exit       : exit_path;
  new_client : option i2c_client
}.

(** [ERROR1: kfree(new_client); return err;] *)
Definition ERROR1 (client : i2c_client) (err : Z) (e : exit_path)
  : K detect_result :=
  emit (EvKfree (addr client)) ;;;
  ret (mk_detect_result err e None).

(** [ERROR2: i2c_detach_client(new_client);] falling into [ERROR1]. *)
Definition ERROR2 (client : i2c_client) (err : Z) (e : exit_path)
  : K detect_result :=
  call (fun h => i2c_detach_client k h (addr client))
       (EvDetachClient (addr client)) ;;;
  ERROR1 client err e.

(** The condition of the detection step, with the short circuit of
    [||]: a register is read only if the masks before it were clear. *)
Definition detection_failed (client : i2c_client) : K bool :=
  status1 <- lm83_read_value client LM83_REG_R_STATUS1 ;;
  if negb (Z.land status1 0xA8 =? 0x00) then ret true else
  status2 <- lm83_read_value client LM83_REG_R_STATUS2 ;;
  if negb (Z.land status2 0x48 =? 0x00) then ret true else
  config <- lm83_read_value client LM83_REG_R_CONFIG ;;
  ret (negb (Z.land config 0x41 =? 0x00)).

(** The identification step: the new value of [kind]. *)
Definition identification (client : i2c_client) (kind : Z) : K Z :=
  if kind <=? 0 then
    v <- lm83_read_value client LM83_REG_R_MAN_ID ;;
    let man_id := to_u8 v in
    ret (if man_id =? 0x01 then lm83 k else kind)
  else ret kind.

Definition lm83_detect (adapter address flags kind : Z) : K detect_result :=
  if DEBUG k && negb (i2c_is_isa_adapter k adapter =? 0) then
    printk "lm83.o: Called for an ISA bus adapter, aborting.\n" ;;;
    ret (mk_detect_result 0 ExitIsaAdapter None)
  else
  func <- call (fun h => i2c_check_functionality k h adapter)
               (EvCheckFunctionality adapter) ;;
  if func =? 0 then
    debug_printk k "lm83.o: I2C bus doesn't support byte read mode, skipping.\n" ;;;
    ret (mk_detect_result 0 ExitNoFunctionality None)
  else
  block <- call (kmalloc k)
                (fun b => EvKmalloc (match b with Some _ => true | None => false end)) ;;
  match block with
  | None =>
    printk "lm83.o: Out of memory in lm83_detect (new_client).\n" ;;;
    ret (mk_detect_result (- ENOMEM k) ExitNoMemory None)
  | Some block =>
    let new_client :=
      mk_i2c_client (name block) (id block) 0 address adapter (data block) in
    failed <- (if kind <? 0 then detection_failed new_client else ret false) ;;
    if (failed : bool) then
      debug_printk k "lm83.o: LM83 detection failed at 0x%02x.\n" ;;;
      ERROR1 new_client 0 ExitDetectionFailed
    else
    kind <- identification new_client kind ;;
    if kind <=? 0 then
      printk "lm83.o: Unsupported chip.\n" ;;;
      ERROR1 new_client 0 ExitUnsupported
    else
    if negb (kind =? lm83 k) then
      printk "lm83.o: Unknown kind %d.\n" ;;;
      ERROR1 new_client 0 ExitUnknownKind
    else
    let type_name := "lm83"%string in
    let client_name := "LM83 chip"%string in
    n <- next_lm83_id ;;
    let new_client := set_name client_name new_client in
    let new_client := set_id n new_client in
    let new_client := with_data (set_valid 0) new_client in
    let new_client := with_data (set_update_lock 1) new_client in
    err <- call (fun h => i2c_attach_client k h (addr new_client))
                (EvAttachClient (addr new_client)) ;;
    if negb (err =? 0) then
      debug_printk k "lm83.o: Failed attaching client.\n" ;;;
      ERROR1 new_client err ExitAttachFailed
    else
    err <- call (fun h => i2c_register_entry k h (addr new_client))
                (EvRegisterEntry (addr new_client)) ;;
    if err <? 0 then
      debug_printk k "lm83.o: Failed registering directory entry.\n" ;;;
      ERROR2 new_client err ExitRegisterFailed
    else
    let new_client := with_data (set_sysctl_id err) new_client in
    lm83_init_client new_client ;;;
    ret (mk_detect_result 0 ExitAttached (Some new_client))
  end.

(** [lm83_detach_client]: the value returned and the client if its
    block was not freed. *)
Definition lm83_detach_client (client : i2c_client) : K (Z * option i2c_client) :=
  emit (EvDeregisterEntry (sysctl_id (data client))) ;;;
  err <- call (fun h => i2c_detach_client k h (addr client))
              (EvDetachClient (addr client)) ;;
  if negb (err =? 0) then
    printk "lm83.o: Client deregistration failed, client not detached.\n" ;;;
    ret (err, Some client)
  else
  emit (EvKfree (addr client)) ;;;
  ret (0, None).

(** The condition under which [lm83_update_client] reads the chip, at
    the value [now] of [jiffies]; the subtraction is on
    [unsigned long], to which [HZ + HZ / 2] is converted. *)
Definition update_needed (now : Z) (d : lm83_data) : bool :=
  (to_ulong k (now - last_updated d) >? to_ulong k (HZ k + HZ k ÷ 2))
  || (now <? last_updated d)
  || (valid d =? 0).

(** [lm83_update_client].  The two reads of [jiffies] in its condition
    are made with no call in between and see the same value [now]. *)
Definition lm83_update_client (client : i2c_client) : K i2c_client :=
  client <- down client ;;
  now <- read_jiffies k ;;
  client <-
    (if update_needed now (data client) then
       debug_printk k "lm83.o: Updating LM83 data.\n" ;;;
       v <- lm83_read_value client LM83_REG_R_LOCAL_TEMP ;;
       let client := with_data (set_local_temp (to_u8 v)) client in
       v <- lm83_read_value client LM83_REG_R_REMOTE1_TEMP ;;
       let client := with_data (set_remote1_temp (to_u8 v)) client in
       v <- lm83_read_value client LM83_REG_R_REMOTE2_TEMP ;;
       let client := with_data (set_remote2_temp (to_u8 v)) client in
       v <- lm83_read_value client LM83_REG_R_REMOTE3_TEMP ;;
       let client := with_data (set_remote3_temp (to_u8 v)) client in
       now <- read_jiffies k ;;
       let client := with_data (set_last_updated now) client in
       ret (with_data (set_valid 1) client)
     else ret client) ;;
  up client.

(** The operation codes of [i2c-proc.h], three distinct constants; any
    other code passes the three tests of a callback and does nothing. *)
Inductive operation :=
| SENSORS_PROC_REAL_INFO
| SENSORS_PROC_REAL_READ
| SENSORS_PROC_REAL_WRITE
| SENSORS_PROC_OTHER (code : Z).

(** [results[i]] in the caller's buffer, a list of [long]; the buffer
    is larger than what the callbacks use, and an index beyond the list
    reads as 0 and is not stored to. *)
Definition results_get (results : list Z) (i : nat) : Z :=
  default 0 (results !! i).

(** What a callback leaves: the client, [*nrels_mag] and [results]. *)
Record proc_out := mk_proc_out {
  out_client    : i2c_client;
  out_nrels_mag : Z;
  out_results   : list Z
}.

Definition lm83_local_temp (client : i2c_client) (op : operation)
    (ctl_name nrels_mag : Z) (results : list Z) : K proc_out :=
  match op with
  | SENSORS_PROC_REAL_INFO => ret (mk_proc_out client 0 results)
  | SENSORS_PROC_REAL_READ =>
    client <- lm83_update_client client ;;
    let results := <[0%nat := TEMP_FROM_REG (local_temp (data client))]> results in
    let results := <[1%nat := TEMP_FROM_REG (local_high (data client))]> results in
    ret (mk_proc_out client 2 results)
  | SENSORS_PROC_REAL_WRITE =>
    if nrels_mag >=? 1 then
      let client :=
        with_data (set_local_high (to_u8 (TEMP_TO_REG (results_get results 0))))
                  client in
      lm83_write_value client LM83_REG_W_LOCAL_HIGH (local_high (data client)) ;;;
      ret (mk_proc_out client nrels_mag results)
    else ret (mk_proc_out client nrels_mag results)
  | SENSORS_PROC_OTHER _ => ret (mk_proc_out client nrels_mag results)
  end.

Definition lm83_remote1_temp (client : i2c_client) (op : operation)
    (ctl_name nrels_mag : Z) (results : list Z) : K proc_out :=
  match op with
  | SENSORS_PROC_REAL_INFO => ret (mk_proc_out client 0 results)
  | SENSORS_PROC_REAL_READ =>
    client <- lm83_update_client client ;;
    let results := <[0%nat := TEMP_FROM_REG (remote1_temp (data client))]> results in
    let results := <[1%nat := TEMP_FROM_REG (remote1_high (data client))]> results in
    ret (mk_proc_out client 2 results)
  | SENSORS_PROC_REAL_WRITE =>
    if nrels_mag >=? 1 then
      let client :=
        with_data (set_remote1_high (to_u8 (TEMP_TO_REG (results_get results 0))))
                  client in
      lm83_write_value client LM83_REG_W_REMOTE1_HIGH (remote1_high (data client)) ;;;
      ret (mk_proc_out client nrels_mag results)
    else ret (mk_proc_out client nrels_mag results)
  | SENSORS_PROC_OTHER _ => ret (mk_proc_out client nrels_mag results)
  end.

Definition lm83_remote2_temp (client : i2c_client) (op : operation)
    (ctl_name nrels_mag : Z) (results : list Z) : K proc_out :=
  match op with
  | SENSORS_PROC_REAL_INFO => ret (mk_proc_out client 0 results)
  | SENSORS_PROC_REAL_READ =>
    client <- lm83_update_client client ;;
    let results := <[0%nat := TEMP_FROM_REG (remote2_temp (data client))]> results in
    let results := <[1%nat := TEMP_FROM_REG (remote2_high (data client))]> results in
    ret (mk_proc_out client 2 results)
  | SENSORS_PROC_REAL_WRITE =>
    if nrels_mag >=? 1 then
      let client :=
        with_data (set_remote2_high (to_u8 (TEMP_TO_REG (results_get results 0))))
                  client in
      lm83_write_value client LM83_REG_W_REMOTE2_HIGH (remote2_high (data client)) ;;;
      ret (mk_proc_out client nrels_mag results)
    else ret (mk_proc_out client nrels_mag results)
  | SENSORS_PROC_OTHER _ => ret (mk_proc_out client nrels_mag results)
  end.

Definition lm83_remote3_temp (client : i2c_client) (op : operation)
    (ctl_name nrels_mag : Z) (results : list Z) : K proc_out :=
  match op with
  | SENSORS_PROC_REAL_INFO => ret (mk_proc_out client 0 results)
  | SENSORS_PROC_REAL_READ =>
    client <- lm83_update_client client ;;
    let results := <[0%nat := TEMP_FROM_REG (remote3_temp (data client))]> results in
    let results := <[1%nat := TEMP_FROM_REG (remote3_high (data client))]> results in
    ret (mk_proc_out client 2 results)
  | SENSORS_PROC_REAL_WRITE =>
    if nrels_mag >=? 1 then
      let client :=
        with_data (set_remote3_high (to_u8 (TEMP_TO_REG (results_get results 0))))
                  client in
      lm83_write_value client LM83_REG_W_REMOTE3_HIGH (remote3_high (data client)) ;;;
      ret (mk_proc_out client nrels_mag results)
    else ret (mk_proc_out client nrels_mag results)
  | SENSORS_PROC_OTHER _ => ret (mk_proc_out client nrels_mag results)
  end.

(** The four entries of [lm83_dir_table_template]. *)
Inductive channel := local | remote1 | remote2 | remote3.

Definition LM83_SYSCTL (ch : channel) : Z :=
  match ch with
  | local => 1200 | remote1 => 1201 | remote2 => 1202 | remote3 => 1203
  end.

Definition procname (ch : channel) : string :=
  match ch with
  | local => "temp1" | remote1 => "temp2"
  | remote2 => "temp3" | remote3 => "temp4"
  end.

Definition callback (ch : channel)
  : i2c_client -> operation -> Z -> Z -> list Z -> K proc_out :=
  match ch with
  | local => lm83_local_temp
  | remote1 => lm83_remote1_temp
  | remote2 => lm83_remote2_temp
  | remote3 => lm83_remote3_temp
  end.

End Driver.

(** The cached reading and the cached limit of a channel, and the
    registers of the channel, as its callback uses them. *)
Definition cached_temp (ch : channel) (d : lm83_data) : Z :=
  match ch with
  | local => local_temp d | remote1 => remote1_temp d
  | remote2 => remote2_temp d | remote3 => remote3_temp d
  end.

Definition cached_high (ch : channel) (d : lm83_data) : Z :=
  match ch with
  | local => local_high d | remote1 => remote1_high d
  | remote2 => remote2_high d | remote3 => remote3_high d
  end.

Definition LM83_REG_W_HIGH (ch : channel) : Z :=
  match ch with
  | local => LM83_REG_W_LOCAL_HIGH | remote1 => LM83_REG_W_REMOTE1_HIGH
  | remote2 => LM83_REG_W_REMOTE2_HIGH | remote3 => LM83_REG_W_REMOTE3_HIGH
  end.


(** ** Reading histories *)

(** The calls made between two worlds. *)
Definition events_since (w w' : world) : list event :=
  drop (length (hist w)) (hist w').

(** The registers read over SMBus, in order. *)
Fixpoint smbus_reads (evs : list event) : list Z :=
  match evs with
  | [] => []
  | EvSmbusRead _ reg _ :: evs => reg :: smbus_reads evs
  | _ :: evs => smbus_reads evs
  end.

(** The registers written over SMBus with the bytes sent, in order. *)
Fixpoint smbus_writes (evs : list event) : list (Z * Z) :=
  match evs with
  | [] => []
  | EvSmbusWrite _ reg value _ :: evs => (reg, value) :: smbus_writes evs
  | _ :: evs => smbus_writes evs
  end.

(** The calls on the semaphore, in order. *)
Fixpoint semaphore_calls (evs : list event) : list event :=
  match evs with
  | [] => []
  | EvDown a :: evs => EvDown a :: semaphore_calls evs
  | EvUp a :: evs => EvUp a :: semaphore_calls evs
  | _ :: evs => semaphore_calls evs
  end.

(** The events of a [printk] under [DEBUG]. *)
Definition debug_events (k : kernel) (msg : string) : list event :=
  if DEBUG k then [EvPrintk msg] else [].

(** The value of [jiffies] that [lm83_update_client], entered in world
    [w], compares the cache with: the clock is read once the semaphore
    is taken. *)
Definition now_at (k : kernel) (client : i2c_client) (w : world) : Z :=
  to_ulong k (jiffies k (hist w ++ [EvDown (addr client)])).

(** The cache is stale at time [now]: never filled, older than one and
    a half seconds ([HZ] ticks of [jiffies] make one second), or dated
    after [now]. *)
Definition stale (k : kernel) (now : Z) (d : lm83_data) : Prop :=
  valid d = 0 \/ 2 * (now - last_updated d) > 3 * HZ k \/ now < last_updated d.

(** Build parameters that make sense: [HZ + HZ / 2] is a non-negative
    [int] that fits [unsigned long]. *)
Definition sane_clock (k : kernel) : Prop :=
  0 <= BITS_PER_LONG k /\ 0 <= HZ k /\ HZ k + HZ k ÷ 2 < 2 ^ BITS_PER_LONG k.

(** The four cached readings and the four cached limits. *)
Definition readings (d : lm83_data) : list Z :=
  [local_temp d; remote1_temp d; remote2_temp d; remote3_temp d].

Definition limits (d : lm83_data) : list Z :=
  [local_high d; remote1_high d; remote2_high d; remote3_high d].

(** ** The runs of [lm83_detect] *)

(** The calls of the detection step and the value of its condition. *)
Inductive detection_run (a : Z) : list event -> bool -> Prop :=
| detection_status1 (s1 : Z) :
    Z.land s1 0xA8 <> 0 ->
    detection_run a [EvSmbusRead a LM83_REG_R_STATUS1 s1] true
| detection_status2 (s1 s2 : Z) :
    Z.land s1 0xA8 = 0 -> Z.land s2 0x48 <> 0 ->
    detection_run a [EvSmbusRead a LM83_REG_R_STATUS1 s1;
                     EvSmbusRead a LM83_REG_R_STATUS2 s2] true
| detection_config (s1 s2 c : Z) :
    Z.land s1 0xA8 = 0 -> Z.land s2 0x48 = 0 ->
    detection_run a [EvSmbusRead a LM83_REG_R_STATUS1 s1;
                     EvSmbusRead a LM83_REG_R_STATUS2 s2;
                     EvSmbusRead a LM83_REG_R_CONFIG c]
                  (negb (Z.land c 0x41 =? 0)).

(** The detection step as [lm83_detect] runs it: only when [kind] is
    negative. *)
Inductive detection_step (a kind : Z) : list event -> bool -> Prop :=
| detection_done (evs : list event) (failed : bool) :
    kind < 0 -> detection_run a evs failed -> detection_step a kind evs failed
| detection_skipped :
    0 <= kind -> detection_step a kind [] false.

(** The calls of the identification step and the [kind] it leaves. *)
Inductive identification_run (k : kernel) (a kind : Z) : list event -> Z -> Prop :=
| identification_read (v : Z) :
    kind <= 0 ->
    identification_run k a kind [EvSmbusRead a LM83_REG_R_MAN_ID v]
      (if to_u8 v =? 0x01 then lm83 k else kind)
| identification_skipped :
    0 < kind -> identification_run k a kind [] kind.

(** The client as [lm83_detect] has filled it when it attaches it, from
    the block that [kmalloc] returned. *)
Definition filled_client (block : i2c_client) (adapter address n : Z) : i2c_client :=
  mk_i2c_client "LM83 chip" n 0 address adapter
    (set_update_lock 1 (set_valid 0 (data block))).

(** The calls that a run of [lm83_detect] makes, with what it leaves,
    one case for each place the function leaves from.  [n] is the
    value of [lm83_id] at entry. *)
Inductive detect_run (k : kernel) (adapter address kind n : Z)
  : list event -> detect_result -> Prop :=
| run_isa_adapter :
    DEBUG k = true -> i2c_is_isa_adapter k adapter <> 0 ->
    detect_run k adapter address kind n
      [EvPrintk "lm83.o: Called for an ISA bus adapter, aborting.\n"]
      (mk_detect_result 0 ExitIsaAdapter None)
| run_no_functionality :
    detect_run k adapter address kind n
      (EvCheckFunctionality adapter 0
       :: debug_events k "lm83.o: I2C bus doesn't support byte read mode, skipping.\n")
      (mk_detect_result 0 ExitNoFunctionality None)
| run_no_memory (func : Z) :
    func <> 0 ->
    detect_run k adapter address kind n
      [EvCheckFunctionality adapter func; EvKmalloc false;
       EvPrintk "lm83.o: Out of memory in lm83_detect (new_client).\n"]
      (mk_detect_result (- ENOMEM k) ExitNoMemory None)
| run_detection_failed (func : Z) (det : list event) :
    func <> 0 -> detection_step address kind det true ->
    detect_run k adapter address kind n
      ([EvCheckFunctionality adapter func; EvKmalloc true] ++ det
       ++ debug_events k "lm83.o: LM83 detection failed at 0x%02x.\n"
       ++ [EvKfree address])
      (mk_detect_result 0 ExitDetectionFailed None)
| run_unsupported (func : Z) (det ident : list event) (kind' : Z) :
    func <> 0 -> detection_step address kind det false ->
    identification_run k address kind ident kind' -> kind' <= 0 ->
    detect_run k adapter address kind n
      ([EvCheckFunctionality adapter func; EvKmalloc true] ++ det ++ ident
       ++ [EvPrintk "lm83.o: Unsupported chip.\n"; EvKfree address])
      (mk_detect_result 0 ExitUnsupported None)
| run_unknown_kind (func : Z) (det ident : list event) (kind' : Z) :
    func <> 0 -> detection_step address kind det false ->
    identification_run k address kind ident kind' -> 0 < kind' ->
    kind' <> lm83 k ->
    detect_run k adapter address kind n
      ([EvCheckFunctionality adapter func; EvKmalloc true] ++ det ++ ident
       ++ [EvPrintk "lm83.o: Unknown kind %d.\n"; EvKfree address])
      (mk_detect_result 0 ExitUnknownKind None)
| run_attach_failed (func : Z) (det ident : list event) (err : Z) :
    func <> 0 -> detection_step address kind det false ->
    identification_run k address kind ident (lm83 k) -> 0 < lm83 k ->
    err <> 0 ->
    detect_run k adapter address kind n
      ([EvCheckFunctionality adapter func; EvKmalloc true] ++ det ++ ident
       ++ [EvAttachClient address err]
       ++ debug_events k "lm83.o: Failed attaching client.\n"
       ++ [EvKfree address])
      (mk_detect_result err ExitAttachFailed None)
| run_register_failed (func : Z) (det ident : list event) (err res : Z) :
    func <> 0 -> detection_step address kind det false ->
    identification_run k address kind ident (lm83 k) -> 0 < lm83 k ->
    err < 0 ->
    detect_run k adapter address kind n
      ([EvCheckFunctionality adapter func; EvKmalloc true] ++ det ++ ident
       ++ [EvAttachClient address 0; EvRegisterEntry address err]
       ++ debug_events k "lm83.o: Failed registering directory entry.\n"
       ++ [EvDetachClient address res; EvKfree address])
      (mk_detect_result err ExitRegisterFailed None)
| run_attached (func : Z) (det ident : list event) (block : i2c_client)
    (sid r1 r2 r3 r4 : Z) :
    func <> 0 -> detection_step address kind det false ->
    identification_run k address kind ident (lm83 k) -> 0 < lm83 k ->
    0 <= sid ->
    detect_run k adapter address kind n
      ([EvCheckFunctionality adapter func; EvKmalloc true] ++ det ++ ident
       ++ [EvAttachClient address 0; EvRegisterEntry address sid;
           EvSmbusWrite address LM83_REG_W_LOCAL_HIGH 127 r1;
           EvSmbusWrite address LM83_REG_W_REMOTE1_HIGH 127 r2;
           EvSmbusWrite address LM83_REG_W_REMOTE2_HIGH 127 r3;
           EvSmbusWrite address LM83_REG_W_REMOTE3_HIGH 127 r4])
      (mk_detect_result 0 ExitAttached
         (Some (with_data (set_sysctl_id sid)
                  (filled_client block adapter address n)))).

(** ** The detection step against the bus *)

(** [lm83_detect], entered in world [w], gets as far as the chip: the
    adapter is neither refused as an ISA adapter nor for lack of the
    byte-data transfers, and the client block is allocated. *)
Definition reaches_chip (k : kernel) (adapter : Z) (w : world) : Prop :=
  DEBUG k && negb (i2c_is_isa_adapter k adapter =? 0) = false
  /\ i2c_check_functionality k (hist w) adapter <> 0
  /\ kmalloc k (hist w ++ [EvCheckFunctionality adapter
                             (i2c_check_functionality k (hist w) adapter)])
     <> None.

(** The calls it has made by then. *)
Definition probe_calls (k : kernel) (adapter : Z) (w : world) : list event :=
  [EvCheckFunctionality adapter (i2c_check_functionality k (hist w) adapter);
   EvKmalloc true].


(** ** Counting calls, and requests in sequence *)

(** The temperature register of a channel, as [lm83_update_client]
    reads it into the cached reading of the channel. *)
Definition LM83_REG_R_TEMP (ch : channel) : Z :=
  match ch with
  | local => LM83_REG_R_LOCAL_TEMP | remote1 => LM83_REG_R_REMOTE1_TEMP
  | remote2 => LM83_REG_R_REMOTE2_TEMP | remote3 => LM83_REG_R_REMOTE3_TEMP
  end.

(** The number of events of a history that satisfy [p]. *)
Fixpoint count_events (p : event -> bool) (evs : list event) : nat :=
  match evs with
  | [] => 0
  | e :: evs => ((if p e then 1 else 0) + count_events p evs)%nat
  end.

Definition is_kmalloc (e : event) : bool :=
  match e with EvKmalloc true => true | _ => false end.

Definition is_kfree (e : event) : bool :=
  match e with EvKfree _ => true | _ => false end.

Definition is_attach (e : event) : bool :=
  match e with EvAttachClient _ _ => true | _ => false end.

Definition is_down (e : event) : bool :=
  match e with EvDown _ => true | _ => false end.

Definition is_up (e : event) : bool :=
  match e with EvUp _ => true | _ => false end.

(** The eight cached registers hold bytes. *)
Definition cache_bytes (d : lm83_data) : Prop :=
  Forall (fun b => 0 <= b <= 255) (readings d ++ limits d).

(** One call of a callback by the sysctl layer: the channel whose
    entry is used, and the arguments passed. *)
Record request := mk_request {
  req_channel   : channel;
  req_op        : operation;
  req_ctl_name  : Z;
  req_nrels_mag : Z;
  req_results   : list Z
}.

(** The callbacks called one after the other on the same client, each
    on the client the one before left. *)
Fixpoint serve (k : kernel) (reqs : list request) (client : i2c_client)
  : K i2c_client :=
  match reqs with
  | [] => ret client
  | q :: reqs =>
    out <- callback k (req_channel q) client (req_op q) (req_ctl_name q)
             (req_nrels_mag q) (req_results q) ;;
    serve k reqs (out_client out)
  end.

(** The number of READ requests of a sequence. *)
Fixpoint reads_requested (reqs : list request) : nat :=
  match reqs with
  | [] => 0
  | q :: reqs =>
    ((match req_op q with SENSORS_PROC_REAL_READ => 1 | _ => 0 end)
     + reads_requested reqs)%nat
  end.

(** A semaphore taken and released [n] times in a row. *)
Fixpoint taken_and_released (a : Z) (n : nat) : list event :=
  match n with
  | O => []
  | S n => EvDown a :: EvUp a :: taken_and_released a n
  end.

(** The request is a WRITE that carries a value for channel [ch]. *)
Definition writes_limit (ch : channel) (q : request) : Prop :=
  req_channel q = ch /\ req_op q = SENSORS_PROC_REAL_WRITE /\ 1 <= req_nrels_mag q.

(** What the callbacks may do to the outside: take and release the
    semaphore of the client, read one of its four temperature
    registers, write one of its four limit registers, and print. *)
Definition callback_event (a : Z) (e : event) : Prop :=
  e = EvDown a \/ e = EvUp a
  \/ (exists ch v, e = EvSmbusRead a (LM83_REG_R_TEMP ch) v)
  \/ (exists ch b res, e = EvSmbusWrite a (LM83_REG_W_HIGH ch) b res
                       /\ 0 <= b <= 255)
  \/ (exists msg, e = EvPrintk msg).

(** ** A kernel to run the driver against *)

Module Stub.

(** A block as [kmalloc] may hand it out: every byte is 0x55. *)
Definition junk_data : lm83_data :=
  mk_lm83_data 0x55555555 0x55555555 0x55 0x55555555
               0x55 0x55 0x55 0x55 0x55 0x55 0x55 0x55.
Definition junk_client : i2c_client :=
  mk_i2c_client "UUUU" 0x55555555 0x5555 0x5555 0x55555555 junk_data.

(** An LM83 at rest: status and configuration clear, manufacturer
    0x01, the four temperatures 0x50, 0x9C, 0x19 and 0x1E. *)
Definition lm83_registers (reg : Z) : Z :=
  if reg =? LM83_REG_R_MAN_ID then 0x01
  else if reg =? LM83_REG_R_LOCAL_TEMP then 0x50
  else if reg =? LM83_REG_R_REMOTE1_TEMP then 0x9C
  else if reg =? LM83_REG_R_REMOTE2_TEMP then 0x19
  else if reg =? LM83_REG_R_REMOTE3_TEMP then 0x1E
  else 0.

(** A 32-bit kernel with [HZ] 100 whose clock ticks once per call,
    where everything succeeds; reads are answered by [read] and writes
    by [write]. *)
Definition kernel_with (read : list event -> Z -> Z -> Z)
    (write : list event -> Z -> Z -> Z -> Z) : kernel :=
  mk_kernel 100 32 12 1 false
    (fun h => Z.of_nat (length h))
    (fun _ => 0)
    (fun _ _ => 1)
    (fun _ => Some junk_client)
    read write
    (fun _ _ => 0) (fun _ _ => 0) (fun _ _ => 7).

Definition good : kernel :=
  kernel_with (fun _ _ reg => lm83_registers reg) (fun _ _ _ _ => 0).

(** The bus is dead: every transfer returns -1. *)
Definition dead_bus : kernel :=
  kernel_with (fun _ _ _ => -1) (fun _ _ _ _ => -1).

(** The chip answers reads, and every write fails. *)
Definition read_only : kernel :=
  kernel_with (fun _ _ reg => lm83_registers reg) (fun _ _ _ _ => -1).

(** An LM83 in which two bits of status 2 that the detection step
    wants clear are set. *)
Definition status2_set : kernel :=
  kernel_with (fun _ _ reg => if reg =? LM83_REG_R_STATUS2 then 0x48
                              else lm83_registers reg)
              (fun _ _ _ _ => 0).

(** Some other device: it answers 0xFF to every read. *)
Definition other_device : kernel :=
  kernel_with (fun _ _ _ => 0xFF) (fun _ _ _ _ => 0).

(** The sysctl registry refuses the entry; the I2C core then fails to
    detach the client. *)
Definition no_sysctl : kernel :=
  mk_kernel 100 32 12 1 true
    (fun h => Z.of_nat (length h))
    (fun _ => 0)
    (fun _ _ => 1)
    (fun _ => Some junk_client)
    (fun _ _ reg => lm83_registers reg) (fun _ _ _ _ => 0)
    (fun _ _ => 0) (fun _ _ => -16) (fun _ _ => -12).

(** The I2C core refuses to detach a client. *)
Definition busy_core : kernel :=
  mk_kernel 100 32 12 1 false
    (fun h => Z.of_nat (length h))
    (fun _ => 0)
    (fun _ _ => 1)
    (fun _ => Some junk_client)
    (fun _ _ reg => lm83_registers reg) (fun _ _ _ _ => 0)
    (fun _ _ => 0) (fun _ _ => -16) (fun _ _ => 7).

(** The I2C core refuses to attach a client. *)
Definition attach_refused : kernel :=
  mk_kernel 100 32 12 1 false
    (fun h => Z.of_nat (length h))
    (fun _ => 0)
    (fun _ _ => 1)
    (fun _ => Some junk_client)
    (fun _ _ reg => lm83_registers reg) (fun _ _ _ _ => 0)
    (fun _ _ => -16) (fun _ _ => 0) (fun _ _ => 7).

(** No memory is left. *)
Definition no_memory : kernel :=
  mk_kernel 100 32 12 1 false
    (fun h => Z.of_nat (length h))
    (fun _ => 0)
    (fun _ _ => 1)
    (fun _ => None)
    (fun _ _ reg => lm83_registers reg) (fun _ _ _ _ => 0)
    (fun _ _ => 0) (fun _ _ => 0) (fun _ _ => 7).

Definition boot : world := mk_world [] 0.

(** A client with a filled cache, last updated at tick 0. *)
Definition cached_client : i2c_client :=
  mk_i2c_client "LM83 chip" 0 0 0x4c 0
    (mk_lm83_data 7 1 1 0 0x50 0x7F 0x9C 0x7F 0x19 0x7F 0x1E 0x7F).

(** The same client before its first update. *)
Definition fresh_client : i2c_client :=
  mk_i2c_client "LM83 chip" 0 0 0x4c 0
    (mk_lm83_data 7 1 0 0 0x11 0x7F 0x22 0x7F 0x33 0x7F 0x44 0x7F).

End Stub.

(** * Properties *)

(** ** The conversions *)

Lemma to_u8_small (v : Z) : 0 <= v <= 255 -> to_u8 v = v.
Proof. intros H. unfold to_u8. apply Z.mod_small. lia. Qed.

Lemma to_u8_range (v : Z) : 0 <= to_u8 v <= 255.
Proof. unfold to_u8. pose proof (Z.mod_pos_bound v 256). lia. Qed.

Lemma TEMP_TO_REG_range (x : Z) : -128 <= x <= 127 -> 0 <= TEMP_TO_REG x <= 255.
Proof. intros H. unfold TEMP_TO_REG. destruct (Z.ltb_spec x 0); lia. Qed.

Lemma TEMP_FROM_REG_range (b : Z) : 0 <= b <= 255 -> -128 <= TEMP_FROM_REG b <= 127.
Proof. intros H. unfold TEMP_FROM_REG. destruct (Z.gtb_spec b 127); lia. Qed.

Lemma TEMP_FROM_TO_REG (x : Z) : -128 <= x <= 127 -> TEMP_FROM_REG (TEMP_TO_REG x) = x.
Proof.
  intros H. unfold TEMP_FROM_REG, TEMP_TO_REG.
  destruct (Z.ltb_spec x 0); [destruct (Z.gtb_spec (x + 256) 127) | destruct (Z.gtb_spec x 127)]; lia.
Qed.

Lemma TEMP_TO_FROM_REG (b : Z) : 0 <= b <= 255 -> TEMP_TO_REG (TEMP_FROM_REG b) = b.
Proof.
  intros H. unfold TEMP_FROM_REG, TEMP_TO_REG.
  destruct (Z.gtb_spec b 127); [destruct (Z.ltb_spec (b - 256) 0) | destruct (Z.ltb_spec b 0)]; lia.
Qed.

Example TEMP_FROM_REG_values :
  TEMP_FROM_REG 0 = 0 /\ TEMP_FROM_REG 127 = 127
  /\ TEMP_FROM_REG 128 = -128 /\ TEMP_FROM_REG 255 = -1
  /\ TEMP_FROM_REG 0x50 = 80 /\ TEMP_FROM_REG 0x9C = -100.
Proof. repeat split. Qed.

(** C9.  For every degree value [x] in -128..127, [TEMP_TO_REG x] is a
    byte and [TEMP_FROM_REG] takes it back to [x]; for every byte [b],
    [TEMP_FROM_REG b] is in -128..127 and [TEMP_TO_REG] takes it back to
    [b]: the two macros are inverse bijections between the 256 bytes and
    the signed range.  Storing the encoded byte in a [u8] does not change
    it. *)
Theorem temp_codec_bijection (x b : Z) :
  -128 <= x <= 127 -> 0 <= b <= 255 ->
  (0 <= TEMP_TO_REG x <= 255 /\ TEMP_FROM_REG (TEMP_TO_REG x) = x
   /\ to_u8 (TEMP_TO_REG x) = TEMP_TO_REG x)
  /\ (-128 <= TEMP_FROM_REG b <= 127 /\ TEMP_TO_REG (TEMP_FROM_REG b) = b).
Proof.
  intros Hx Hb. pose proof (TEMP_TO_REG_range x Hx) as Hr.
  repeat split;
    auto using TEMP_FROM_TO_REG, TEMP_TO_FROM_REG, to_u8_small;
    try apply TEMP_FROM_REG_range; lia.
Qed.

Lemma temp_codec_bijection_witness :
  (-128 <= -10 <= 127 /\ 0 <= 246 <= 255)
  /\ (0 <= TEMP_TO_REG (-10) <= 255 /\ TEMP_FROM_REG (TEMP_TO_REG (-10)) = -10
      /\ to_u8 (TEMP_TO_REG (-10)) = TEMP_TO_REG (-10))
  /\ (-128 <= TEMP_FROM_REG 246 <= 127 /\ TEMP_TO_REG (TEMP_FROM_REG 246) = 246).
Proof.
  assert (Hx : -128 <= -10 <= 127) by lia.
  assert (Hb : 0 <= 246 <= 255) by lia.
  split; [split; assumption |].
  exact (temp_codec_bijection (-10) 246 Hx Hb).
Defined.

(** ** The cached update *)

Lemma lm83_data_ext (d d' : lm83_data) :
  sysctl_id d = sysctl_id d' -> update_lock d = update_lock d' ->
  valid d = valid d' -> last_updated d = last_updated d' ->
  readings d = readings d' -> limits d = limits d' -> d = d'.
Proof.
  destruct d, d'. unfold readings, limits. simpl.
  intros -> -> -> -> [= -> -> -> ->] [= -> -> -> ->]. reflexivity.
Qed.

Lemma i2c_client_ext (c c' : i2c_client) :
  name c = name c' -> id c = id c' -> flags c = flags c' ->
  addr c = addr c' -> adapter c = adapter c' -> data c = data c' -> c = c'.
Proof. destruct c, c'. simpl. intros -> -> -> -> -> ->. reflexivity. Qed.


Lemma up_down_lock (client : i2c_client) :
  with_data (fun d => set_update_lock (update_lock d + 1) d)
    (with_data (fun d => set_update_lock (update_lock d - 1) d) client) = client.
Proof.
  destruct client as [? ? ? ? ? []]. unfold with_data, set_update_lock. simpl.
  do 2 f_equal. lia.
Qed.

Lemma update_needed_lock (k : kernel) (now v : Z) (d : lm83_data) :
  update_needed k now (set_update_lock v d) = update_needed k now d.
Proof. reflexivity. Qed.

(** With a fresh cache, [lm83_update_client] takes and releases the
    semaphore and does nothing else. *)
Lemma lm83_update_client_fresh (k : kernel) (client : i2c_client) (w : world) :
  update_needed k (now_at k client w) (data client) = false ->
  lm83_update_client k client w
  = (client, mk_world (hist w ++ [EvDown (addr client); EvUp (addr client)]) (lm83_id w)).
Proof.
  intros Hfresh. unfold lm83_update_client, down, up, bind, emit, call, read_jiffies, ret.
  simpl. unfold now_at in Hfresh.
  rewrite update_needed_lock, Hfresh. simpl.
  rewrite up_down_lock, <- app_assoc. reflexivity.
Qed.

(** With a stale cache, it reads the four temperature registers in
    turn, keeps the low byte of each answer, and dates the cache with
    the clock as it is after the last read. *)
Lemma lm83_update_client_stale (k : kernel) (client : i2c_client) (w : world) :
  update_needed k (now_at k client w) (data client) = true ->
  let a := addr client in
  let h0 := hist w ++ EvDown a :: debug_events k "lm83.o: Updating LM83 data.\n" in
  let r0 := i2c_smbus_read_byte_data k h0 a LM83_REG_R_LOCAL_TEMP in
  let h1 := h0 ++ [EvSmbusRead a LM83_REG_R_LOCAL_TEMP r0] in
  let r1 := i2c_smbus_read_byte_data k h1 a LM83_REG_R_REMOTE1_TEMP in
  let h2 := h1 ++ [EvSmbusRead a LM83_REG_R_REMOTE1_TEMP r1] in
  let r2 := i2c_smbus_read_byte_data k h2 a LM83_REG_R_REMOTE2_TEMP in
  let h3 := h2 ++ [EvSmbusRead a LM83_REG_R_REMOTE2_TEMP r2] in
  let r3 := i2c_smbus_read_byte_data k h3 a LM83_REG_R_REMOTE3_TEMP in
  let h4 := h3 ++ [EvSmbusRead a LM83_REG_R_REMOTE3_TEMP r3] in
  lm83_update_client k client w
  = (with_data (fun d =>
       set_valid 1 (set_last_updated (to_ulong k (jiffies k h4))
         (set_remote3_temp (to_u8 r3) (set_remote2_temp (to_u8 r2)
           (set_remote1_temp (to_u8 r1) (set_local_temp (to_u8 r0) d))))))
       client,
     mk_world (h4 ++ [EvUp a]) (lm83_id w)).
Proof.
  intros Hstale. unfold lm83_update_client, down, up, bind, emit, call, read_jiffies, ret.
  simpl. unfold now_at in Hstale.
  rewrite update_needed_lock, Hstale.
  unfold debug_printk, debug_events, printk, emit, call, lm83_read_value, call, ret.
  destruct (DEBUG k); simpl; rewrite <- !app_assoc; simpl;
    (apply f_equal2; [| reflexivity]);
    (apply i2c_client_ext; try reflexivity);
    (apply lm83_data_ext; try reflexivity);
    change (update_lock (data client) - 1 + 1 = update_lock (data client)); lia.
Qed.

Lemma to_ulong_range (k : kernel) (v : Z) :
  0 <= BITS_PER_LONG k -> 0 <= to_ulong k v < 2 ^ BITS_PER_LONG k.
Proof.
  intros HB. unfold to_ulong. apply Z.mod_pos_bound.
  apply Z.pow_pos_nonneg; lia.
Qed.

Lemma to_ulong_small (k : kernel) (v : Z) :
  0 <= v < 2 ^ BITS_PER_LONG k -> to_ulong k v = v.
Proof. intros H. unfold to_ulong. apply Z.mod_small. exact H. Qed.

(** The test of the code is the staleness predicate: on
    [unsigned long] values the wrapped difference is the difference
    whenever [now] is not before the date of the cache, and an integer
    exceeds [HZ + HZ / 2] exactly when twice it exceeds [3 * HZ]. *)
Lemma update_needed_stale (k : kernel) (now : Z) (d : lm83_data) :
  sane_clock k ->
  0 <= now < 2 ^ BITS_PER_LONG k ->
  0 <= last_updated d < 2 ^ BITS_PER_LONG k ->
  update_needed k now d = true <-> stale k now d.
Proof.
  intros (HB & HZ0 & HZfit) Hnow Hlu. unfold update_needed, stale.
  rewrite (to_ulong_small k (HZ k + HZ k ÷ 2)).
  2:{ split; [| exact HZfit]. pose proof (Z.quot_pos (HZ k) 2). lia. }
  rewrite Z.quot_div_nonneg by lia.
  rewrite !orb_true_iff, Z.gtb_gt, Z.ltb_lt, Z.eqb_eq.
  destruct (Z.lt_ge_cases now (last_updated d)) as [Hback | Hfwd].
  - split; intros _; [right; right | left; right]; exact Hback.
  - rewrite (to_ulong_small k (now - last_updated d)) by lia.
    assert (Hdm : HZ k = 2 * (HZ k / 2) + HZ k mod 2) by (apply Z.div_mod; lia).
    assert (Hm : 0 <= HZ k mod 2 < 2) by (apply Z.mod_pos_bound; lia).
    split.
    + intros [[H | H] | H]; [right; left; lia | lia | left; exact H].
    + intros [H | [H | H]]; [right; exact H | left; left; lia | lia].
Qed.

Lemma smbus_reads_app (l1 l2 : list event) :
  smbus_reads (l1 ++ l2) = smbus_reads l1 ++ smbus_reads l2.
Proof.
  induction l1 as [| e l1 IH]; [reflexivity |].
  destruct e; simpl; rewrite IH; reflexivity.
Qed.

Lemma smbus_reads_debug (k : kernel) (msg : string) :
  smbus_reads (debug_events k msg) = [].
Proof. unfold debug_events. destruct (DEBUG k); reflexivity. Qed.

Lemma events_since_app (w : world) (evs : list event) (n : Z) :
  events_since w (mk_world (hist w ++ evs) n) = evs.
Proof. unfold events_since. simpl. apply drop_app_length. Qed.

(** The bus traffic and the frame of an update, in both cases. *)
Lemma lm83_update_client_reads (k : kernel) (client : i2c_client) (w : world) :
  let r := lm83_update_client k client w in
  if update_needed k (now_at k client w) (data client)
  then smbus_reads (events_since w (snd r))
       = [LM83_REG_R_LOCAL_TEMP; LM83_REG_R_REMOTE1_TEMP;
          LM83_REG_R_REMOTE2_TEMP; LM83_REG_R_REMOTE3_TEMP]
       /\ valid (data (fst r)) = 1
  else smbus_reads (events_since w (snd r)) = [] /\ fst r = client.
Proof.
  intros r. subst r.
  destruct (update_needed k (now_at k client w) (data client)) eqn:E.
  - rewrite (lm83_update_client_stale k client w E). cbv zeta. simpl fst. simpl snd.
    rewrite <- !app_assoc, events_since_app. simpl.
    rewrite smbus_reads_app, smbus_reads_debug. split; reflexivity.
  - rewrite (lm83_update_client_fresh k client w E). simpl.
    rewrite events_since_app. split; reflexivity.
Qed.

Lemma lm83_update_client_last_updated (k : kernel) (client : i2c_client) (w : world) :
  0 <= BITS_PER_LONG k ->
  0 <= last_updated (data client) < 2 ^ BITS_PER_LONG k ->
  0 <= last_updated (data (fst (lm83_update_client k client w))) < 2 ^ BITS_PER_LONG k.
Proof.
  intros HB Hlu.
  destruct (update_needed k (now_at k client w) (data client)) eqn:E.
  - rewrite (lm83_update_client_stale k client w E). cbv zeta. simpl.
    apply to_ulong_range, HB.
  - rewrite (lm83_update_client_fresh k client w E). exact Hlu.
Qed.

(** The READ operation of a callback: an update, then the decoded
    reading and the decoded limit of the channel in [results[0]] and
    [results[1]]. *)
Lemma callback_read (k : kernel) (ch : channel) (client : i2c_client)
    (ctl_name nrels_mag : Z) (results : list Z) (w : world) :
  callback k ch client SENSORS_PROC_REAL_READ ctl_name nrels_mag results w
  = let r := lm83_update_client k client w in
    (mk_proc_out (fst r) 2
       (<[1%nat := TEMP_FROM_REG (cached_high ch (data (fst r)))]>
          (<[0%nat := TEMP_FROM_REG (cached_temp ch (data (fst r)))]> results)),
     snd r).
Proof.
  cbv zeta. destruct ch; simpl; unfold lm83_local_temp, lm83_remote1_temp,
    lm83_remote2_temp, lm83_remote3_temp, bind, ret;
    destruct (lm83_update_client k client w); reflexivity.
Qed.

Lemma results_get_read (results : list Z) (t h : Z) :
  (2 <= length results)%nat ->
  results_get (<[1%nat := h]> (<[0%nat := t]> results)) 0 = t
  /\ results_get (<[1%nat := h]> (<[0%nat := t]> results)) 1 = h.
Proof.
  intros Hlen. destruct results as [| x [| y rest]]; simpl in Hlen; try lia.
  split; reflexivity.
Qed.

(** C1.  [lm83_update_client], entered at any client state and at any
    time [now] (the value of [jiffies] it reads once it holds the
    semaphore), reads the four temperature registers if and only if
    the cache is stale: [valid] is zero, or [now - last_updated]
    exceeds one and a half seconds, or [now] is before [last_updated].
    When the cache is not stale it reads no register and leaves the
    client as it was; hence a second READ of a channel, made while the
    cache left by the first is not stale, reads no register and reports
    the same temperature and limit as the first. *)
Theorem update_reads_iff_stale (k : kernel) (client : i2c_client) (w : world)
    (ch : channel) (ctl_name n1 n2 : Z) (buf1 buf2 : list Z) :
  sane_clock k ->
  0 <= last_updated (data client) < 2 ^ BITS_PER_LONG k ->
  (2 <= length buf1)%nat -> (2 <= length buf2)%nat ->
  let r := lm83_update_client k client w in
  let first := callback k ch client SENSORS_PROC_REAL_READ ctl_name n1 buf1 w in
  let c1 := out_client (fst first) in
  let second :=
    callback k ch c1 SENSORS_PROC_REAL_READ ctl_name n2 buf2 (snd first) in
  (stale k (now_at k client w) (data client) <->
     smbus_reads (events_since w (snd r))
     = [LM83_REG_R_LOCAL_TEMP; LM83_REG_R_REMOTE1_TEMP;
        LM83_REG_R_REMOTE2_TEMP; LM83_REG_R_REMOTE3_TEMP])
  /\ (~ stale k (now_at k client w) (data client) ->
        smbus_reads (events_since w (snd r)) = [] /\ fst r = client)
  /\ (~ stale k (now_at k c1 (snd first)) (data c1) ->
        smbus_reads (events_since (snd first) (snd second)) = []
        /\ out_client (fst second) = c1
        /\ results_get (out_results (fst second)) 0
           = results_get (out_results (fst first)) 0
        /\ results_get (out_results (fst second)) 1
           = results_get (out_results (fst first)) 1).
Proof.
  intros Hk Hlu Hb1 Hb2 r first c1 second.
  assert (HB : 0 <= BITS_PER_LONG k) by (destruct Hk as [HB _]; exact HB).
  assert (Hequiv : forall c w0, 0 <= last_updated (data c) < 2 ^ BITS_PER_LONG k ->
            update_needed k (now_at k c w0) (data c) = true
            <-> stale k (now_at k c w0) (data c)).
  { intros c w0 Hc. apply update_needed_stale; [exact Hk | | exact Hc].
    apply to_ulong_range, HB. }
  pose proof (lm83_update_client_reads k client w) as Hreads. cbv zeta in Hreads.
  fold r in Hreads.
  split; [| split].
  - rewrite <- (Hequiv client w Hlu).
    destruct (update_needed k (now_at k client w) (data client)).
    + destruct Hreads as [Hreads _]. split; intros _; [exact Hreads | reflexivity].
    + destruct Hreads as [Hreads _]. rewrite Hreads.
      split; intros Habs; discriminate Habs.
  - intros Hfresh. rewrite <- (Hequiv client w Hlu) in Hfresh.
    destruct (update_needed k (now_at k client w) (data client));
      [exfalso; apply Hfresh; reflexivity | exact Hreads].
  - subst second c1 first. rewrite !callback_read. cbv zeta. simpl.
    set (c1 := fst (lm83_update_client k client w)).
    set (w1 := snd (lm83_update_client k client w)).
    intros Hfresh.
    assert (Hc1 : 0 <= last_updated (data c1) < 2 ^ BITS_PER_LONG k)
      by (apply lm83_update_client_last_updated; assumption).
    rewrite <- (Hequiv c1 w1 Hc1) in Hfresh.
    pose proof (lm83_update_client_reads k c1 w1) as Hsecond. cbv zeta in Hsecond.
    destruct (update_needed k (now_at k c1 w1) (data c1));
      [exfalso; apply Hfresh; reflexivity |].
    destruct Hsecond as [Hnone Hsame]. rewrite Hsame.
    split; [exact Hnone | split; [reflexivity |]].
    destruct (results_get_read buf1 (TEMP_FROM_REG (cached_temp ch (data c1)))
                (TEMP_FROM_REG (cached_high ch (data c1))) Hb1) as [-> ->].
    destruct (results_get_read buf2 (TEMP_FROM_REG (cached_temp ch (data c1)))
                (TEMP_FROM_REG (cached_high ch (data c1))) Hb2) as [-> ->].
    split; reflexivity.
Qed.

Lemma update_reads_iff_stale_witness :
  let first :=
    callback Stub.good local Stub.fresh_client SENSORS_PROC_REAL_READ 1200 0
      [0; 0] Stub.boot in
  let second :=
    callback Stub.good local (out_client (fst first)) SENSORS_PROC_REAL_READ 1200 0
      [0; 0] (snd first) in
  (sane_clock Stub.good
   /\ 0 <= last_updated (data Stub.fresh_client) < 2 ^ BITS_PER_LONG Stub.good
   /\ (2 <= length [0; 0])%nat)
  /\ smbus_reads
       (events_since Stub.boot
          (snd (lm83_update_client Stub.good Stub.fresh_client Stub.boot)))
     = [0x00; 0x30; 0x01; 0x31]
  /\ smbus_reads (events_since (snd first) (snd second)) = []
  /\ results_get (out_results (fst second)) 0 = results_get (out_results (fst first)) 0
  /\ results_get (out_results (fst second)) 1 = results_get (out_results (fst first)) 1.
Proof.
  intros first second.
  assert (Hk : sane_clock Stub.good)
    by (repeat split; vm_compute; (reflexivity || discriminate)).
  assert (Hlu : 0 <= last_updated (data Stub.fresh_client)
                < 2 ^ BITS_PER_LONG Stub.good)
    by (split; vm_compute; (reflexivity || discriminate)).
  assert (Hb : (2 <= length [0; 0])%nat) by (simpl; lia).
  split; [exact (conj Hk (conj Hlu Hb)) |].
  destruct (update_reads_iff_stale Stub.good Stub.fresh_client Stub.boot local
              1200 0 0 [0; 0] [0; 0] Hk Hlu Hb Hb) as (Hiff & _ & Hsecond).
  split.
  - apply Hiff. left. reflexivity.
  - assert (Hfresh : ~ stale Stub.good
                       (now_at Stub.good (out_client (fst first)) (snd first))
                       (data (out_client (fst first)))).
    { intros [H | [H | H]]; vm_compute in H; discriminate H. }
    destruct (Hsecond Hfresh) as (Hnone & _ & H0 & H1).
    repeat split; assumption.
Defined.

Lemma smbus_writes_app (l1 l2 : list event) :
  smbus_writes (l1 ++ l2) = smbus_writes l1 ++ smbus_writes l2.
Proof.
  induction l1 as [| e l1 IH]; [reflexivity |].
  destruct e; simpl; rewrite IH; reflexivity.
Qed.

Lemma semaphore_calls_app (l1 l2 : list event) :
  semaphore_calls (l1 ++ l2) = semaphore_calls l1 ++ semaphore_calls l2.
Proof.
  induction l1 as [| e l1 IH]; [reflexivity |].
  destruct e; simpl; rewrite IH; reflexivity.
Qed.

Lemma smbus_writes_debug (k : kernel) (msg : string) :
  smbus_writes (debug_events k msg) = [].
Proof. unfold debug_events. destruct (DEBUG k); reflexivity. Qed.

Lemma semaphore_calls_debug (k : kernel) (msg : string) :
  semaphore_calls (debug_events k msg) = [].
Proof. unfold debug_events. destruct (DEBUG k); reflexivity. Qed.

(** What an update never touches: everything in the client but the
    four readings, [valid] and [last_updated]; and it writes nothing to
    the chip. *)
Lemma lm83_update_client_frame (k : kernel) (client : i2c_client) (w : world) :
  let r := lm83_update_client k client w in
  limits (data (fst r)) = limits (data client)
  /\ sysctl_id (data (fst r)) = sysctl_id (data client)
  /\ update_lock (data (fst r)) = update_lock (data client)
  /\ (name (fst r), id (fst r), flags (fst r), addr (fst r), adapter (fst r))
     = (name client, id client, flags client, addr client, adapter client)
  /\ lm83_id (snd r) = lm83_id w
  /\ smbus_writes (events_since w (snd r)) = []
  /\ semaphore_calls (events_since w (snd r))
     = [EvDown (addr client); EvUp (addr client)]
  /\ last (hist (snd r)) = Some (EvUp (addr client)).
Proof.
  intros r. subst r.
  destruct (update_needed k (now_at k client w) (data client)) eqn:E.
  - rewrite (lm83_update_client_stale k client w E). cbv zeta. simpl fst. simpl snd.
    repeat (split; [reflexivity |]).
    split; [| split].
    + rewrite <- !app_assoc, events_since_app. simpl.
      rewrite smbus_writes_app, smbus_writes_debug. reflexivity.
    + rewrite <- !app_assoc, events_since_app. simpl.
      rewrite semaphore_calls_app, semaphore_calls_debug. reflexivity.
    + simpl hist. apply last_snoc.
  - rewrite (lm83_update_client_fresh k client w E). simpl fst. simpl snd.
    repeat (split; [reflexivity |]).
    rewrite events_since_app. repeat (split; [reflexivity |]).
    simpl hist. change [EvDown (addr client); EvUp (addr client)]
      with ([EvDown (addr client)] ++ [EvUp (addr client)]).
    rewrite app_assoc. apply last_snoc.
Qed.

(** A callback stores into the cached limits only when it is asked to
    WRITE. *)
Lemma callback_keeps_limits (k : kernel) (ch : channel) (client : i2c_client)
    (op : operation) (ctl_name nrels_mag : Z) (results : list Z) (w : world) :
  match op with
  | SENSORS_PROC_REAL_WRITE => True
  | _ => limits (data (out_client (fst (callback k ch client op ctl_name nrels_mag results w))))
         = limits (data client)
  end.
Proof.
  destruct op; try exact I.
  - destruct ch; reflexivity.
  - rewrite callback_read. cbv zeta. simpl.
    apply (lm83_update_client_frame k client w).
  - destruct ch; reflexivity.
Qed.

(** C10.  Whatever the client state, [lm83_update_client] leaves the
    four cached limits [local_high], [remote1_high], [remote2_high] and
    [remote3_high] as they were: the registers it reads are the four
    temperature registers or none, it writes no register, and apart
    from the four readings, [valid] and [last_updated] the client comes
    back unchanged.  A callback leaves the limits alone as well unless
    the operation is WRITE. *)
Theorem update_keeps_limits (k : kernel) (client : i2c_client) (w : world)
    (ch : channel) (op : operation) (ctl_name nrels_mag : Z) (results : list Z) :
  let r := lm83_update_client k client w in
  limits (data (fst r)) = limits (data client)
  /\ (smbus_reads (events_since w (snd r)) = []
      \/ smbus_reads (events_since w (snd r))
         = [LM83_REG_R_LOCAL_TEMP; LM83_REG_R_REMOTE1_TEMP;
            LM83_REG_R_REMOTE2_TEMP; LM83_REG_R_REMOTE3_TEMP])
  /\ smbus_writes (events_since w (snd r)) = []
  /\ sysctl_id (data (fst r)) = sysctl_id (data client)
  /\ update_lock (data (fst r)) = update_lock (data client)
  /\ (name (fst r), id (fst r), flags (fst r), addr (fst r), adapter (fst r))
     = (name client, id client, flags client, addr client, adapter client)
  /\ match op with
     | SENSORS_PROC_REAL_WRITE => True
     | _ => limits (data (out_client
                      (fst (callback k ch client op ctl_name nrels_mag results w))))
            = limits (data client)
     end.
Proof.
  intros r.
  destruct (lm83_update_client_frame k client w)
    as (Hlim & Hid & Hlock & Hrest & _ & Hwrites & _ & _).
  pose proof (lm83_update_client_reads k client w) as Hreads. cbv zeta in Hreads.
  fold r in Hlim, Hid, Hlock, Hrest, Hwrites, Hreads.
  split; [exact Hlim |]. split.
  - destruct (update_needed k (now_at k client w) (data client));
      destruct Hreads as [Hreads _]; [right | left]; exact Hreads.
  - repeat (split; [assumption |]). apply callback_keeps_limits.
Qed.

(** C2, as stated, fails.  On a dead bus (every transfer returns -1)
    the update of a client that has never been filled reads the local
    temperature and gets -1, and yet comes back with [valid] set, with
    a new [last_updated] and with 255 in the four cached readings.  A
    READ of the local channel then reports two values, -1 degree and
    the limit, as after any update. *)
Lemma failed_read_is_committed :
  let r := lm83_update_client Stub.dead_bus Stub.fresh_client Stub.boot in
  In (EvSmbusRead 0x4c LM83_REG_R_LOCAL_TEMP (-1)) (events_since Stub.boot (snd r))
  /\ (valid (data Stub.fresh_client) = 0 /\ valid (data (fst r)) = 1)
  /\ (last_updated (data Stub.fresh_client) = 0 /\ last_updated (data (fst r)) = 5)
  /\ (readings (data Stub.fresh_client) = [0x11; 0x22; 0x33; 0x44]
      /\ readings (data (fst r)) = [255; 255; 255; 255])
  /\ ~ (readings (data (fst r)) = readings (data Stub.fresh_client)
        /\ valid (data (fst r)) = valid (data Stub.fresh_client)
        /\ last_updated (data (fst r)) = last_updated (data Stub.fresh_client))
  /\ (let read :=
        callback Stub.dead_bus local Stub.fresh_client SENSORS_PROC_REAL_READ 1200 0
          [0; 0] Stub.boot in
      out_nrels_mag (fst read) = 2 /\ out_results (fst read) = [-1; 127]).
Proof.
  cbv zeta. split; [vm_compute; right; left; reflexivity |].
  do 3 (split; [split; reflexivity |]).
  split; [| split; reflexivity].
  intros (_ & Hvalid & _). vm_compute in Hvalid. discriminate Hvalid.
Qed.

(** C2, amended.  The answers of the four reads are not checked.  When
    an update reads the chip, whatever the reads return (a byte, or a
    negative value from a failed transfer), each cached reading takes
    the low byte of the answer to its read, [valid] becomes 1 and
    [last_updated] the value of [jiffies]; nothing is reported to the
    caller, whose READ comes back with two values.  On this path as on
    the other, the semaphore is taken once and released once, the
    release being the last call made. *)
Theorem update_commits_unchecked (k : kernel) (client : i2c_client) (w : world)
    (ch : channel) (ctl_name nrels_mag : Z) (results : list Z) :
  let a := addr client in
  let h0 := hist w ++ EvDown a :: debug_events k "lm83.o: Updating LM83 data.\n" in
  let r0 := i2c_smbus_read_byte_data k h0 a LM83_REG_R_LOCAL_TEMP in
  let h1 := h0 ++ [EvSmbusRead a LM83_REG_R_LOCAL_TEMP r0] in
  let r1 := i2c_smbus_read_byte_data k h1 a LM83_REG_R_REMOTE1_TEMP in
  let h2 := h1 ++ [EvSmbusRead a LM83_REG_R_REMOTE1_TEMP r1] in
  let r2 := i2c_smbus_read_byte_data k h2 a LM83_REG_R_REMOTE2_TEMP in
  let h3 := h2 ++ [EvSmbusRead a LM83_REG_R_REMOTE2_TEMP r2] in
  let r3 := i2c_smbus_read_byte_data k h3 a LM83_REG_R_REMOTE3_TEMP in
  let h4 := h3 ++ [EvSmbusRead a LM83_REG_R_REMOTE3_TEMP r3] in
  let r := lm83_update_client k client w in
  let read := callback k ch client SENSORS_PROC_REAL_READ ctl_name nrels_mag results w in
  (if update_needed k (now_at k client w) (data client)
   then hist (snd r) = h4 ++ [EvUp a]
        /\ readings (data (fst r)) = [to_u8 r0; to_u8 r1; to_u8 r2; to_u8 r3]
        /\ valid (data (fst r)) = 1
        /\ last_updated (data (fst r)) = to_ulong k (jiffies k h4)
   else fst r = client)
  /\ to_u8 (-1) = 255
  /\ (out_client (fst read) = fst r /\ snd read = snd r
      /\ out_nrels_mag (fst read) = 2)
  /\ semaphore_calls (events_since w (snd r)) = [EvDown a; EvUp a]
  /\ last (hist (snd r)) = Some (EvUp a)
  /\ update_lock (data (fst r)) = update_lock (data client).
Proof.
  intros a h0 r0 h1 r1 h2 r2 h3 r3 h4 r read.
  destruct (lm83_update_client_frame k client w)
    as (_ & _ & Hlock & _ & _ & _ & Hsem & Hlast).
  fold r in Hlock, Hsem, Hlast.
  split; [| split; [reflexivity | split; [| auto]]].
  - destruct (update_needed k (now_at k client w) (data client)) eqn:E; subst r.
    + rewrite (lm83_update_client_stale k client w E). cbv zeta.
      repeat split; reflexivity.
    + rewrite (lm83_update_client_fresh k client w E). reflexivity.
  - subst read. rewrite callback_read. cbv zeta. repeat split; reflexivity.
Qed.

(** ** Detection and attachment *)

Lemma bind_run {A B} (m : K A) (g : A -> K B) (w w' : world) (a : A) :
  m w = (a, w') -> bind m g w = g a w'.
Proof. intros E. unfold bind. rewrite E. reflexivity. Qed.

Lemma bind_call {A B} (answer : list event -> A) (ev : A -> event)
    (g : A -> K B) (w : world) :
  bind (call answer ev) g w
  = g (answer (hist w)) (mk_world (hist w ++ [ev (answer (hist w))]) (lm83_id w)).
Proof. reflexivity. Qed.

Ltac call_step := rewrite bind_call; cbv beta; cbn [hist lm83_id].

Lemma debug_printk_run (k : kernel) (msg : string) (w : world) :
  debug_printk k msg w
  = (tt, mk_world (hist w ++ debug_events k msg) (lm83_id w)).
Proof.
  unfold debug_printk, debug_events. destruct (DEBUG k); [reflexivity |].
  rewrite app_nil_r. destruct w. reflexivity.
Qed.

Lemma detection_failed_run (k : kernel) (client : i2c_client) (w : world) :
  exists evs,
    snd (detection_failed k client w) = mk_world (hist w ++ evs) (lm83_id w)
    /\ detection_run (addr client) evs (fst (detection_failed k client w)).
Proof.
  destruct (detection_failed k client w) as [failed w'] eqn:E. simpl. revert E.
  unfold detection_failed, lm83_read_value.
  call_step.
  set (s1 := i2c_smbus_read_byte_data k (hist w) (addr client) LM83_REG_R_STATUS1).
  destruct (Z.eqb_spec (Z.land s1 0xA8) 0x00) as [H1 | H1]; cbv beta iota delta [negb].
  2:{ intros [= <- <-]. eexists. split; [reflexivity | constructor; exact H1]. }
  call_step.
  set (s2 := i2c_smbus_read_byte_data k _ (addr client) LM83_REG_R_STATUS2).
  destruct (Z.eqb_spec (Z.land s2 0x48) 0x00) as [H2 | H2]; cbv beta iota delta [negb].
  2:{ intros [= <- <-]. eexists. split.
      - rewrite <- app_assoc. reflexivity.
      - constructor; assumption. }
  call_step.
  set (c := i2c_smbus_read_byte_data k _ (addr client) LM83_REG_R_CONFIG).
  intros [= <- <-]. eexists. split.
  - rewrite <- !app_assoc. reflexivity.
  - constructor; assumption.
Qed.

Lemma identification_runs (k : kernel) (client : i2c_client) (kind : Z) (w : world) :
  exists evs,
    snd (identification k client kind w) = mk_world (hist w ++ evs) (lm83_id w)
    /\ identification_run k (addr client) kind evs
         (fst (identification k client kind w)).
Proof.
  destruct (identification k client kind w) as [kind' w'] eqn:E. simpl. revert E.
  unfold identification, lm83_read_value.
  destruct (Z.leb_spec kind 0) as [Hk | Hk].
  - call_step. intros [= <- <-].
    eexists. split; [reflexivity | constructor; exact Hk].
  - intros [= <- <-]. exists []. split; [| constructor; exact Hk].
    rewrite app_nil_r. destruct w. reflexivity.
Qed.

Lemma lm83_init_client_run (k : kernel) (client : i2c_client) (w : world) :
  exists r1 r2 r3 r4,
    lm83_init_client k client w
    = (tt, mk_world
             (hist w ++
              [EvSmbusWrite (addr client) LM83_REG_W_LOCAL_HIGH 127 r1;
               EvSmbusWrite (addr client) LM83_REG_W_REMOTE1_HIGH 127 r2;
               EvSmbusWrite (addr client) LM83_REG_W_REMOTE2_HIGH 127 r3;
               EvSmbusWrite (addr client) LM83_REG_W_REMOTE3_HIGH 127 r4])
             (lm83_id w)).
Proof.
  eexists _, _, _, _.
  unfold lm83_init_client, lm83_write_value.
  change (to_u8 (TEMP_TO_REG LM83_INIT_HIGH)) with 127.
  do 4 call_step.
  unfold ret. rewrite <- !app_assoc. simpl app. reflexivity.
Qed.

Lemma bind_printk {B} (msg : string) (g : unit -> K B) (w : world) :
  bind (printk msg) g w = g tt (mk_world (hist w ++ [EvPrintk msg]) (lm83_id w)).
Proof. reflexivity. Qed.

Lemma bind_debug_printk {B} (k : kernel) (msg : string) (g : unit -> K B) (w : world) :
  bind (debug_printk k msg) g w
  = g tt (mk_world (hist w ++ debug_events k msg) (lm83_id w)).
Proof. apply bind_run, debug_printk_run. Qed.

Lemma bind_next_lm83_id {B} (g : Z -> K B) (w : world) :
  bind next_lm83_id g w
  = g (lm83_id w) (mk_world (hist w) (to_int (lm83_id w + 1))).
Proof. reflexivity. Qed.

Lemma ERROR1_run (client : i2c_client) (err : Z) (e : exit_path) (w : world) :
  ERROR1 client err e w
  = (mk_detect_result err e None,
     mk_world (hist w ++ [EvKfree (addr client)]) (lm83_id w)).
Proof. reflexivity. Qed.

Lemma ERROR2_run (k : kernel) (client : i2c_client) (err : Z) (e : exit_path)
    (w : world) :
  ERROR2 k client err e w
  = (mk_detect_result err e None,
     mk_world
       (hist w ++ [EvDetachClient (addr client)
                     (i2c_detach_client k (hist w) (addr client));
                   EvKfree (addr client)])
       (lm83_id w)).
Proof.
  unfold ERROR2. call_step. rewrite ERROR1_run. simpl.
  rewrite <- app_assoc. reflexivity.
Qed.

Lemma detection_step_runs (k : kernel) (client : i2c_client) (kind : Z) (w : world) :
  let m := if kind <? 0 then detection_failed k client else ret false in
  exists det,
    snd (m w) = mk_world (hist w ++ det) (lm83_id w)
    /\ detection_step (addr client) kind det (fst (m w)).
Proof.
  cbv zeta. destruct (Z.ltb_spec kind 0) as [Hk | Hk].
  - destruct (detection_failed_run k client w) as (det & Hw & Hrun).
    exists det. split; [exact Hw | constructor; assumption].
  - exists []. split; [| constructor; exact Hk].
    simpl. rewrite app_nil_r. destruct w. reflexivity.
Qed.

(** Every run of [lm83_detect] is one of the runs of [detect_run]. *)
Lemma lm83_detect_run (k : kernel) (adapter address flags kind : Z) (w : world) :
  exists evs,
    hist (snd (lm83_detect k adapter address flags kind w)) = hist w ++ evs
    /\ detect_run k adapter address kind (lm83_id w) evs
         (fst (lm83_detect k adapter address flags kind w)).
Proof.
  destruct (lm83_detect k adapter address flags kind w) as [res w'] eqn:E.
  simpl. revert E. unfold lm83_detect.
  destruct (DEBUG k && negb (i2c_is_isa_adapter k adapter =? 0)) eqn:Hisa.
  { rewrite bind_printk. intros [= <- <-]. eexists. split; [reflexivity |].
    apply andb_true_iff in Hisa as [Hdebug Hisa].
    apply run_isa_adapter; [exact Hdebug |].
    destruct (Z.eqb_spec (i2c_is_isa_adapter k adapter) 0); [discriminate | assumption]. }
  clear Hisa. call_step.
  set (func := i2c_check_functionality k (hist w) adapter).
  destruct (Z.eqb_spec func 0) as [Hfunc | Hfunc].
  { rewrite bind_debug_printk. intros [= <- <-]. eexists. split.
    - simpl. rewrite <- app_assoc. reflexivity.
    - rewrite Hfunc. apply run_no_functionality. }
  call_step.
  destruct (kmalloc k _) as [block |].
  2:{ rewrite bind_printk. intros [= <- <-]. eexists. split.
      - simpl. rewrite <- !app_assoc. reflexivity.
      - apply run_no_memory. exact Hfunc. }
  cbv zeta.
  set (c0 := mk_i2c_client (name block) (id block) 0 address adapter (data block)).
  match goal with |- context [bind _ _ ?w0] => set (w1 := w0) end.
  destruct (detection_step_runs k c0 kind w1) as (det & Hw2 & Hdet).
  cbv zeta in Hw2, Hdet.
  destruct ((if kind <? 0 then detection_failed k c0 else ret false) w1)
    as [failed w2] eqn:E1.
  simpl in Hw2, Hdet. rewrite (bind_run _ _ _ _ _ E1). subst w2. clear E1.
  destruct failed.
  { rewrite bind_debug_printk, ERROR1_run. intros [= <- <-]. eexists.
    split; cycle 1.
    - apply (run_detection_failed k adapter address kind (lm83_id w) func det);
        assumption.
    - simpl. rewrite <- !app_assoc. reflexivity. }
  match goal with |- context [bind _ _ ?w0] => set (w2 := w0) end.
  destruct (identification_runs k c0 kind w2) as (ident & Hw3 & Hident).
  destruct (identification k c0 kind w2) as [kind' w3] eqn:E2.
  simpl in Hw3, Hident. rewrite (bind_run _ _ _ _ _ E2). subst w3. clear E2.
  destruct (Z.leb_spec kind' 0) as [Hkind' | Hkind'].
  { rewrite bind_printk, ERROR1_run. intros [= <- <-]. eexists.
    split; cycle 1.
    - apply (run_unsupported k adapter address kind (lm83_id w) func det ident kind');
        assumption.
    - simpl. rewrite <- !app_assoc. reflexivity. }
  destruct (Z.eqb_spec kind' (lm83 k)) as [Hlm83 | Hlm83]; cbv beta iota delta [negb].
  2:{ rewrite bind_printk, ERROR1_run. intros [= <- <-]. eexists.
      split; cycle 1.
      - apply (run_unknown_kind k adapter address kind (lm83_id w) func det ident kind');
          assumption.
      - simpl. rewrite <- !app_assoc. reflexivity. }
  subst kind'. rewrite bind_next_lm83_id. cbv beta. cbn [hist lm83_id]. call_step.
  cbn [addr with_data set_id set_name]. change (addr c0) with address.
  match goal with |- context [i2c_attach_client k ?h address] =>
    generalize (i2c_attach_client k h address); intros err end.
  destruct (Z.eqb_spec err 0) as [Herr | Herr]; cbv beta iota delta [negb].
  2:{ rewrite bind_debug_printk, ERROR1_run. intros [= <- <-]. eexists.
      split; cycle 1.
      - apply (run_attach_failed k adapter address kind (lm83_id w) func det ident err);
          assumption.
      - simpl. rewrite <- !app_assoc. reflexivity. }
  subst err. call_step.
  match goal with |- context [i2c_register_entry k ?h address] =>
    generalize (i2c_register_entry k h address); intros sid end.
  destruct (Z.ltb_spec sid 0) as [Hsid | Hsid].
  { rewrite bind_debug_printk, ERROR2_run. intros [= <- <-]. eexists.
    split; cycle 1.
    - eapply (run_register_failed k adapter address kind (lm83_id w) func det ident sid);
        assumption.
    - simpl. rewrite <- !app_assoc. reflexivity. }
  match goal with |- context [bind (lm83_init_client k ?c) _ ?w0] =>
    destruct (lm83_init_client_run k c w0) as (r1 & r2 & r3 & r4 & Hinit);
    rewrite (bind_run _ _ _ _ _ Hinit)
  end.
  intros [= <- <-]. eexists. split; cycle 1.
  - apply (run_attached k adapter address kind (lm83_id w) func det ident block
             sid r1 r2 r3 r4); assumption.
  - simpl. rewrite <- !app_assoc. reflexivity.
Qed.

Ltac in_split H :=
  repeat match type of H with
         | In _ (_ ++ _) => apply in_app_or in H; destruct H as [H | H]
         | In _ (_ :: _) => destruct H as [H | H]; [try discriminate H |]
         | In _ [] => destruct H
         end.

Lemma debug_events_in (k : kernel) (msg : string) (e : event) :
  In e (debug_events k msg) -> e = EvPrintk msg.
Proof.
  unfold debug_events. destruct (DEBUG k); intros H; in_split H.
  symmetry. exact H.
Qed.

(** When the detection step passes, every register it read passed its
    mask. *)
Lemma detection_step_passed (a kind : Z) (det : list event) (e : event) :
  detection_step a kind det false -> In e det ->
  exists v,
    (e = EvSmbusRead a LM83_REG_R_STATUS1 v /\ Z.land v 0xA8 = 0)
    \/ (e = EvSmbusRead a LM83_REG_R_STATUS2 v /\ Z.land v 0x48 = 0)
    \/ (e = EvSmbusRead a LM83_REG_R_CONFIG v /\ Z.land v 0x41 = 0).
Proof.
  intros Hstep Hin. inversion Hstep as [evs failed Hkind Hrun | Hkind]; subst.
  2:{ destruct Hin. }
  inversion Hrun as [| | s1 s2 c H1 H2 Hevs Hc]; subst.
  destruct (Z.eqb_spec (Z.land c 0x41) 0) as [H3 | H3]; [| discriminate Hc].
  in_split Hin; subst e; eauto 6.
Qed.

(** When it fails, some register it read did not pass its mask, and
    [kind] was negative. *)
Lemma detection_step_failed (a kind : Z) (det : list event) :
  detection_step a kind det true ->
  kind < 0
  /\ ((exists v, In (EvSmbusRead a LM83_REG_R_STATUS1 v) det /\ Z.land v 0xA8 <> 0)
      \/ (exists v, In (EvSmbusRead a LM83_REG_R_STATUS2 v) det /\ Z.land v 0x48 <> 0)
      \/ (exists v, In (EvSmbusRead a LM83_REG_R_CONFIG v) det /\ Z.land v 0x41 <> 0)).
Proof.
  intros Hstep. inversion Hstep as [evs failed Hkind Hrun |]; subst.
  split; [exact Hkind |].
  inversion Hrun as [s1 H1 | s1 s2 H1 H2 | s1 s2 c H1 H2 Hevs Hc]; subst.
  - left. exists s1. split; [left; reflexivity | exact H1].
  - right; left. exists s2. split; [right; left; reflexivity | exact H2].
  - right; right. exists c. split; [do 2 right; left; reflexivity |].
    destruct (Z.eqb_spec (Z.land c 0x41) 0) as [H3 | H3]; [discriminate Hc | exact H3].
Qed.

Lemma identification_run_in (k : kernel) (a kind kind' : Z) (ident : list event)
    (e : event) :
  identification_run k a kind ident kind' -> In e ident ->
  exists v, e = EvSmbusRead a LM83_REG_R_MAN_ID v
            /\ kind <= 0
            /\ kind' = (if to_u8 v =? 0x01 then lm83 k else kind).
Proof.
  intros Hrun Hin. inversion Hrun as [v Hkind |]; subst; in_split Hin.
  exists v. auto.
Qed.

(** The events of a run, taken from the history. *)
Lemma lm83_detect_events (k : kernel) (adapter address flags kind : Z) (w : world) :
  let r := lm83_detect k adapter address flags kind w in
  detect_run k adapter address kind (lm83_id w) (events_since w (snd r)) (fst r).
Proof.
  cbv zeta. destruct (lm83_detect_run k adapter address flags kind w) as (evs & Hh & Hrun).
  unfold events_since. rewrite Hh, drop_app_length. exact Hrun.
Qed.

Lemma detection_step_reads (a kind : Z) (det : list event) (failed : bool)
    (e : event) :
  detection_step a kind det failed -> In e det ->
  exists reg v, e = EvSmbusRead a reg v
                /\ (reg = LM83_REG_R_STATUS1 \/ reg = LM83_REG_R_STATUS2
                    \/ reg = LM83_REG_R_CONFIG).
Proof.
  intros Hstep Hin. inversion Hstep as [evs b Hkind Hrun | Hkind]; subst.
  2:{ destruct Hin. }
  inversion Hrun; subst; in_split Hin; subst e; eauto 7.
Qed.

(** Closing a case where an event is said to be in a part of a run
    that cannot hold it. *)
Ltac not_in_run :=
  match goal with
  | Hs : detection_step _ _ ?det false, H : In _ ?det |- _ =>
      let He := fresh "He" in
      destruct (detection_step_passed _ _ _ _ Hs H)
        as (? & [[He ?] | [[He ?] | [He ?]]]);
      inversion He; subst; try contradiction; try discriminate
  | Hs : detection_step _ _ ?det _, H : In _ ?det |- _ =>
      let He := fresh "He" in
      destruct (detection_step_reads _ _ _ _ _ Hs H) as (? & ? & He & _);
      discriminate He
  | Hi : identification_run _ _ _ ?ident _, H : In _ ?ident |- _ =>
      let He := fresh "He" in
      destruct (identification_run_in _ _ _ _ _ _ Hi H) as (? & He & ? & ?);
      inversion He; subst; try discriminate
  | H : In _ (debug_events _ _) |- _ =>
      apply debug_events_in in H; discriminate H
  | H : _ = _ |- _ => discriminate H
  end.

(** The detection step, computed: a register is read when the ones
    before it passed their masks, and each read is answered at the
    history that the reads before it have left. *)
Lemma detection_failed_answers (k : kernel) (client : i2c_client) (w : world) :
  let a := addr client in
  let s1 := i2c_smbus_read_byte_data k (hist w) a LM83_REG_R_STATUS1 in
  let h1 := hist w ++ [EvSmbusRead a LM83_REG_R_STATUS1 s1] in
  let s2 := i2c_smbus_read_byte_data k h1 a LM83_REG_R_STATUS2 in
  let h2 := h1 ++ [EvSmbusRead a LM83_REG_R_STATUS2 s2] in
  let c := i2c_smbus_read_byte_data k h2 a LM83_REG_R_CONFIG in
  detection_failed k client w
  = if negb (Z.land s1 0xA8 =? 0) then (true, mk_world h1 (lm83_id w))
    else if negb (Z.land s2 0x48 =? 0) then (true, mk_world h2 (lm83_id w))
    else (negb (Z.land c 0x41 =? 0),
          mk_world (h2 ++ [EvSmbusRead a LM83_REG_R_CONFIG c]) (lm83_id w)).
Proof.
  cbv zeta. unfold detection_failed, lm83_read_value.
  call_step. destruct (negb _); [reflexivity |].
  call_step. destruct (negb _); [reflexivity |].
  call_step. reflexivity.
Qed.

(** Closing an exit of [lm83_detect] that lies behind the detection
    step: the calls made since are what is left of the history, and
    none of them reads a register of the detection step. *)
Ltac behind_detection Hident Hpassed :=
  intros [= <- <-]; cbn [exit hist addr]; eexists; split; [| split];
  [ rewrite <- ?app_assoc; cbn [app]; reflexivity
  | let Hin := fresh "Hin" in
    intros ? ? ? Hin; in_split Hin;
    try (apply debug_events_in in Hin; discriminate Hin);
    eapply Hident; exact Hin
  | split; [discriminate | intros ?; contradiction] ].

Lemma lm83_detect_probe (k : kernel) (adapter address flags kind : Z) (w : world) :
  kind < 0 ->
  let r := lm83_detect k adapter address flags kind w in
  let h0 := hist w ++ probe_calls k adapter w in
  let s1 := i2c_smbus_read_byte_data k h0 address LM83_REG_R_STATUS1 in
  let h1 := h0 ++ [EvSmbusRead address LM83_REG_R_STATUS1 s1] in
  let s2 := i2c_smbus_read_byte_data k h1 address LM83_REG_R_STATUS2 in
  let h2 := h1 ++ [EvSmbusRead address LM83_REG_R_STATUS2 s2] in
  let c := i2c_smbus_read_byte_data k h2 address LM83_REG_R_CONFIG in
  (~ reaches_chip k adapter w /\ exit (fst r) <> ExitDetectionFailed)
  \/ (reaches_chip k adapter w
      /\ exists rest,
           hist (snd r)
           = h0 ++ EvSmbusRead address LM83_REG_R_STATUS1 s1
                   :: (if Z.land s1 0xA8 =? 0
                       then EvSmbusRead address LM83_REG_R_STATUS2 s2
                              :: (if Z.land s2 0x48 =? 0
                                  then [EvSmbusRead address LM83_REG_R_CONFIG c]
                                  else [])
                       else [])
                   ++ rest
           /\ (forall a reg v, In (EvSmbusRead a reg v) rest
                               -> reg = LM83_REG_R_MAN_ID)
           /\ (exit (fst r) = ExitDetectionFailed
               <-> Z.land s1 0xA8 <> 0 \/ Z.land s2 0x48 <> 0
                   \/ Z.land c 0x41 <> 0)).
Proof.
  intros Hkind. cbv zeta. unfold reaches_chip, probe_calls.
  destruct (lm83_detect k adapter address flags kind w) as [res w'] eqn:E.
  cbn [fst snd]. revert E. unfold lm83_detect.
  destruct (DEBUG k && negb (i2c_is_isa_adapter k adapter =? 0)) eqn:Hisa.
  { rewrite bind_printk. intros [= <- <-]. left.
    split; [intros [H _]; discriminate H | discriminate]. }
  call_step.
  set (func := i2c_check_functionality k (hist w) adapter).
  destruct (Z.eqb_spec func 0) as [Hfunc | Hfunc].
  { rewrite bind_debug_printk. intros [= <- <-]. left.
    split; [intros (_ & H & _); contradiction | discriminate]. }
  call_step.
  destruct (kmalloc k _) as [block |] eqn:Hblock.
  2:{ rewrite bind_printk. intros [= <- <-]. left.
      split; [intros (_ & _ & H); apply H; reflexivity | discriminate]. }
  intros E. right. split; [split; [reflexivity | split; [exact Hfunc | discriminate]] |].
  revert E. cbv zeta.
  destruct (Z.ltb_spec kind 0) as [_ | Hk]; [| lia].
  set (c0 := mk_i2c_client (name block) (id block) 0 address adapter (data block)).
  match goal with |- context [bind _ _ ?w0] => set (w1 := w0) end.
  pose proof (detection_failed_answers k c0 w1) as HA. cbv zeta in HA.
  subst w1. cbn [hist lm83_id addr c0] in HA.
  repeat (progress (rewrite <- ?app_assoc in HA |- *; cbn [app] in HA |- * )).
  set (h0 := hist w ++ [EvCheckFunctionality adapter func; EvKmalloc true]) in *.
  set (s1 := i2c_smbus_read_byte_data k h0 address LM83_REG_R_STATUS1) in *.
  set (s2 := i2c_smbus_read_byte_data k _ address LM83_REG_R_STATUS2) in *.
  set (c := i2c_smbus_read_byte_data k _ address LM83_REG_R_CONFIG) in *.
  destruct (Z.eqb_spec (Z.land s1 0xA8) 0) as [H1 | H1];
    cbv beta iota delta [negb] in HA |- *.
  2:{ rewrite (bind_run _ _ _ _ _ HA), bind_debug_printk, ERROR1_run.
      intros [= <- <-]. cbn [exit hist addr c0]. eexists. split; [| split].
      - subst h0. rewrite <- ?app_assoc. cbn [app]. reflexivity.
      - intros a reg v Hin. in_split Hin. apply debug_events_in in Hin. discriminate Hin.
      - split; [intros _; left; exact H1 | reflexivity]. }
  destruct (Z.eqb_spec (Z.land s2 0x48) 0) as [H2 | H2];
    cbv beta iota delta [negb] in HA |- *.
  2:{ rewrite (bind_run _ _ _ _ _ HA), bind_debug_printk, ERROR1_run.
      intros [= <- <-]. cbn [exit hist addr c0]. eexists. split; [| split].
      - subst h0. rewrite <- ?app_assoc. cbn [app]. reflexivity.
      - intros a reg v Hin. in_split Hin. apply debug_events_in in Hin. discriminate Hin.
      - split; [intros _; right; left; exact H2 | reflexivity]. }
  destruct (Z.eqb_spec (Z.land c 0x41) 0) as [H3 | H3];
    cbv beta iota delta [negb] in HA |- *.
  2:{ rewrite (bind_run _ _ _ _ _ HA), bind_debug_printk, ERROR1_run.
      intros [= <- <-]. cbn [exit hist addr c0]. eexists. split; [| split].
      - subst h0. rewrite <- ?app_assoc. cbn [app]. reflexivity.
      - intros a reg v Hin. in_split Hin. apply debug_events_in in Hin. discriminate Hin.
      - split; [intros _; right; right; exact H3 | reflexivity]. }
  rewrite (bind_run _ _ _ _ _ HA). clear HA.
  match goal with |- context [bind _ _ ?w0] => set (w2 := w0) end.
  destruct (identification_runs k c0 kind w2) as (ident & Hw3 & Hident).
  destruct (identification k c0 kind w2) as [kind' w3] eqn:E2.
  simpl in Hw3, Hident. rewrite (bind_run _ _ _ _ _ E2). subst w3. clear E2.
  assert (Hident' : forall a reg v, In (EvSmbusRead a reg v) ident
                                    -> reg = LM83_REG_R_MAN_ID).
  { intros a reg v Hin.
    destruct (identification_run_in _ _ _ _ _ _ Hident Hin) as (v' & He & _).
    injection He as _ -> _. reflexivity. }
  assert (Hpassed : ~ (Z.land s1 0xA8 <> 0 \/ Z.land s2 0x48 <> 0
                       \/ Z.land c 0x41 <> 0)) by tauto.
  subst w2 h0. cbn [hist lm83_id].
  destruct (Z.leb_spec kind' 0) as [Hkind' | Hkind'].
  { rewrite bind_printk, ERROR1_run. behind_detection Hident' Hpassed. }
  destruct (Z.eqb_spec kind' (lm83 k)) as [Hlm83 | Hlm83]; cbv beta iota delta [negb].
  2:{ rewrite bind_printk, ERROR1_run. behind_detection Hident' Hpassed. }
  subst kind'. rewrite bind_next_lm83_id. cbv beta. cbn [hist lm83_id]. call_step.
  cbn [addr with_data set_id set_name]. change (addr c0) with address.
  match goal with |- context [i2c_attach_client k ?h address] =>
    generalize (i2c_attach_client k h address); intros err end.
  destruct (Z.eqb_spec err 0) as [Herr | Herr]; cbv beta iota delta [negb].
  2:{ rewrite bind_debug_printk, ERROR1_run. behind_detection Hident' Hpassed. }
  subst err. call_step.
  match goal with |- context [i2c_register_entry k ?h address] =>
    generalize (i2c_register_entry k h address); intros sid end.
  destruct (Z.ltb_spec sid 0) as [Hsid | Hsid].
  { rewrite bind_debug_printk, ERROR2_run. behind_detection Hident' Hpassed. }
  match goal with |- context [bind (lm83_init_client k ?c) _ ?w0] =>
    destruct (lm83_init_client_run k c w0) as (r1 & r2 & r3 & r4 & Hinit);
    rewrite (bind_run _ _ _ _ _ Hinit)
  end.
  behind_detection Hident' Hpassed.
Qed.

(** The detection-failed exit in terms of the registers that the run
    read: it is taken exactly when one of them did not pass its mask,
    it returns 0 and keeps no client, and the block is freed by the
    last call with the client never attached. *)
Lemma detect_failed_reads (k : kernel) (adapter address flags kind : Z) (w : world) :
  kind < 0 ->
  let r := lm83_detect k adapter address flags kind w in
  let evs := events_since w (snd r) in
  (exit (fst r) = ExitDetectionFailed /\ new_client (fst r) = None
   <-> (exists v, In (EvSmbusRead address LM83_REG_R_STATUS1 v) evs
                  /\ Z.land v 0xA8 <> 0)
       \/ (exists v, In (EvSmbusRead address LM83_REG_R_STATUS2 v) evs
                     /\ Z.land v 0x48 <> 0)
       \/ (exists v, In (EvSmbusRead address LM83_REG_R_CONFIG v) evs
                     /\ Z.land v 0x41 <> 0))
  /\ (exit (fst r) = ExitDetectionFailed ->
        new_client (fst r) = None
        /\ ret_code (fst r) = 0
        /\ last evs = Some (EvKfree address)
        /\ forall res, ~ In (EvAttachClient address res) evs).
Proof.
  intros Hkind r evs.
  pose proof (lm83_detect_events k adapter address flags kind w) as Hrun.
  cbv zeta in Hrun. fold r in Hrun. fold evs in Hrun. clearbody evs.
  destruct r as [res w']. cbn [fst snd] in *. clear w'.
  inversion Hrun; subst; cbn [exit ret_code new_client].
  all: split; [split |].
  all: try (intros [Hexit _]; discriminate Hexit).
  all: try (intros Hexit; discriminate Hexit).
  all: try (intros [(v & Hin & Hmask) | [(v & Hin & Hmask) | (v & Hin & Hmask)]];
            in_split Hin; not_in_run).
  - intros _. destruct (detection_step_failed _ _ _ H0) as [_ Hbad].
    destruct Hbad as [(v & Hin & Hmask) | [(v & Hin & Hmask) | (v & Hin & Hmask)]];
      [left | right; left | right; right]; exists v; (split; [| exact Hmask]);
      apply in_or_app; right; apply in_or_app; left; exact Hin.
  - intros _. split; reflexivity.
  - intros _. split; [reflexivity | split; [reflexivity | split]].
    + rewrite !app_assoc. apply last_snoc.
    + intros res Hin. in_split Hin; not_in_run.
Qed.

(** C3.  On the autodetect path ([kind] negative), once [lm83_detect]
    has got as far as the chip, it reads status 1; if that passes its
    mask 0xA8 it reads status 2; if that passes its mask 0x48 it reads
    the configuration, whose mask is 0x41; none of the three is read
    again.  It leaves by the detection-failed exit, with no client
    kept, if and only if it got as far as the chip and one of the
    three registers, as the bus answers, has a bit of its mask set: a
    register behind one that failed is not read, and does not count.
    The same in terms of the registers read: the exit is taken if and
    only if one of them did not pass its mask.  On that exit
    [lm83_detect] returns 0, the client block has been freed by its
    last call, and the client was never attached. *)
Theorem detect_not_present_iff_masks (k : kernel) (adapter address flags kind : Z)
    (w : world) :
  kind < 0 ->
  let r := lm83_detect k adapter address flags kind w in
  let evs := events_since w (snd r) in
  let h0 := hist w ++ probe_calls k adapter w in
  let s1 := i2c_smbus_read_byte_data k h0 address LM83_REG_R_STATUS1 in
  let h1 := h0 ++ [EvSmbusRead address LM83_REG_R_STATUS1 s1] in
  let s2 := i2c_smbus_read_byte_data k h1 address LM83_REG_R_STATUS2 in
  let h2 := h1 ++ [EvSmbusRead address LM83_REG_R_STATUS2 s2] in
  let c := i2c_smbus_read_byte_data k h2 address LM83_REG_R_CONFIG in
  (exit (fst r) = ExitDetectionFailed /\ new_client (fst r) = None
   <-> reaches_chip k adapter w
       /\ (Z.land s1 0xA8 <> 0 \/ Z.land s2 0x48 <> 0 \/ Z.land c 0x41 <> 0))
  /\ (reaches_chip k adapter w ->
      exists rest,
        evs = probe_calls k adapter w
              ++ EvSmbusRead address LM83_REG_R_STATUS1 s1
                 :: (if Z.land s1 0xA8 =? 0
                     then EvSmbusRead address LM83_REG_R_STATUS2 s2
                            :: (if Z.land s2 0x48 =? 0
                                then [EvSmbusRead address LM83_REG_R_CONFIG c]
                                else [])
                     else [])
                 ++ rest
        /\ forall a reg v, In (EvSmbusRead a reg v) rest
                           -> reg = LM83_REG_R_MAN_ID)
  /\ (exit (fst r) = ExitDetectionFailed /\ new_client (fst r) = None
      <-> (exists v, In (EvSmbusRead address LM83_REG_R_STATUS1 v) evs
                     /\ Z.land v 0xA8 <> 0)
          \/ (exists v, In (EvSmbusRead address LM83_REG_R_STATUS2 v) evs
                        /\ Z.land v 0x48 <> 0)
          \/ (exists v, In (EvSmbusRead address LM83_REG_R_CONFIG v) evs
                        /\ Z.land v 0x41 <> 0))
  /\ (exit (fst r) = ExitDetectionFailed ->
        ret_code (fst r) = 0
        /\ last evs = Some (EvKfree address)
        /\ forall res, ~ In (EvAttachClient address res) evs).
Proof.
  intros Hkind r evs h0 s1 h1 s2 h2 c.
  destruct (detect_failed_reads k adapter address flags kind w Hkind)
    as [Hreads Hexit].
  cbv zeta in Hreads, Hexit. fold r in Hreads, Hexit. fold evs in Hreads, Hexit.
  pose proof (lm83_detect_probe k adapter address flags kind w Hkind) as Hprobe.
  cbv zeta in Hprobe. fold r h0 s1 h1 s2 h2 c in Hprobe.
  split; [| split; [| split; [exact Hreads |]]].
  - destruct Hprobe as [[Hno Hne] | (Hreach & rest & _ & _ & Hiff)].
    + split; [intros [He _]; contradiction | intros [Hreach _]; contradiction].
    + split.
      * intros [He _]. split; [exact Hreach | apply Hiff, He].
      * intros [_ Hmask]. apply Hiff in Hmask.
        split; [exact Hmask | apply (Hexit Hmask)].
  - intros Hreach.
    destruct Hprobe as [[Hno _] | (_ & rest & Hhist & Hrest & _)]; [contradiction |].
    exists rest. split; [| exact Hrest].
    subst evs. unfold events_since. rewrite Hhist. subst h0.
    rewrite <- app_assoc. apply drop_app_length.
  - intros He. destruct (Hexit He) as (_ & Hret & Hlast & Hatt). auto.
Qed.

Lemma detect_not_present_iff_masks_witness :
  let r := lm83_detect Stub.status2_set 0 0x4c 0 (-1) Stub.boot in
  (-1 < 0 /\ reaches_chip Stub.status2_set 0 Stub.boot)
  /\ (exit (fst r) = ExitDetectionFailed /\ new_client (fst r) = None)
  /\ ret_code (fst r) = 0
  /\ last (events_since Stub.boot (snd r)) = Some (EvKfree 0x4c).
Proof.
  intros r. assert (Hkind : -1 < 0) by lia.
  assert (Hreach : reaches_chip Stub.status2_set 0 Stub.boot)
    by (repeat split; vm_compute; discriminate).
  destruct (detect_not_present_iff_masks Stub.status2_set 0 0x4c 0 (-1) Stub.boot
              Hkind) as (Hiff & _ & _ & Hexit).
  fold r in Hiff, Hexit.
  assert (Hfailed : exit (fst r) = ExitDetectionFailed /\ new_client (fst r) = None).
  { apply Hiff. split; [exact Hreach |].
    right. left. vm_compute. discriminate. }
  split; [split; assumption |]. split; [exact Hfailed |].
  destruct (Hexit (proj1 Hfailed)) as (Hret & Hlast & _).
  split; assumption.
Defined.

(** C4, as stated, fails.  On a dead bus (every transfer returns -1)
    the read of status 1 fails during autodetection and [lm83_detect]
    leaves by the detection-failed exit; with detection skipped
    ([kind] zero) the read of the manufacturer ID fails and it leaves
    by the unsupported-chip exit.  Both times it returns 0, which is
    also what it returns after attaching a chip. *)
Lemma bus_failure_is_masked :
  let probe := lm83_detect Stub.dead_bus 0 0x4c 0 (-1) Stub.boot in
  let forced := lm83_detect Stub.dead_bus 0 0x4c 0 0 Stub.boot in
  let found := lm83_detect Stub.good 0 0x4c 0 (-1) Stub.boot in
  (In (EvSmbusRead 0x4c LM83_REG_R_STATUS1 (-1)) (events_since Stub.boot (snd probe))
   /\ exit (fst probe) = ExitDetectionFailed /\ ret_code (fst probe) = 0)
  /\ (In (EvSmbusRead 0x4c LM83_REG_R_MAN_ID (-1)) (events_since Stub.boot (snd forced))
      /\ exit (fst forced) = ExitUnsupported /\ ret_code (fst forced) = 0)
  /\ (exit (fst found) = ExitAttached /\ ret_code (fst found) = 0).
Proof.
  cbv zeta. split; [| split].
  - split; [vm_compute; do 2 right; left; reflexivity | split; reflexivity].
  - split; [vm_compute; do 2 right; left; reflexivity | split; reflexivity].
  - split; reflexivity.
Qed.

(** C4, amended.  [lm83_detect] has no exit for a failed transfer: it
    uses what a read returns without checking it.  At every candidate
    address, when a read of status 1, status 2 or configuration returns
    -1 it leaves by the detection-failed exit, and when the read of the
    manufacturer ID returns -1 it leaves by the unsupported-chip exit;
    either way the client block is freed by its last call and it
    returns 0. *)
Theorem failed_read_not_distinguished (k : kernel)
    (adapter address flags kind reg : Z) (w : world) :
  let r := lm83_detect k adapter address flags kind w in
  let evs := events_since w (snd r) in
  In (EvSmbusRead address reg (-1)) evs ->
  (if reg =? LM83_REG_R_MAN_ID
   then exit (fst r) = ExitUnsupported
   else exit (fst r) = ExitDetectionFailed)
  /\ ret_code (fst r) = 0
  /\ new_client (fst r) = None
  /\ last evs = Some (EvKfree address).
Proof.
  intros r evs.
  pose proof (lm83_detect_events k adapter address flags kind w) as Hrun.
  cbv zeta in Hrun. fold r in Hrun. fold evs in Hrun. clearbody evs.
  destruct r as [res w']. cbn [fst snd] in *. clear w'.
  intros Hin.
  inversion Hrun; subst; cbn [exit ret_code new_client]; in_split Hin;
    try solve [not_in_run].
  3-6: destruct (identification_run_in _ _ _ _ _ _ H1 Hin) as (v & He & Hk & Hk');
    inversion He; subst reg v; change (to_u8 (-1) =? 1) with false in Hk';
    cbv iota in Hk'; lia.
  - destruct (detection_step_reads _ _ _ _ _ H0 Hin) as (reg' & v & He & Hreg).
    inversion He; subst reg' v.
    destruct Hreg as [-> | [-> | ->]]; (split; [reflexivity |]);
      (do 2 (split; [reflexivity |])); rewrite !app_assoc; apply last_snoc.
  - destruct (identification_run_in _ _ _ _ _ _ H1 Hin) as (v & He & _ & _).
    inversion He; subst reg v. split; [reflexivity |].
    do 2 (split; [reflexivity |]).
    change [EvPrintk "lm83.o: Unsupported chip.\n"; EvKfree address]
      with ([EvPrintk "lm83.o: Unsupported chip.\n"] ++ [EvKfree address]).
    rewrite !app_assoc. apply last_snoc.
Qed.

Lemma failed_read_not_distinguished_witness :
  let r := lm83_detect Stub.dead_bus 0 0x4c 0 (-1) Stub.boot in
  In (EvSmbusRead 0x4c LM83_REG_R_STATUS1 (-1)) (events_since Stub.boot (snd r))
  /\ exit (fst r) = ExitDetectionFailed
  /\ ret_code (fst r) = 0
  /\ new_client (fst r) = None
  /\ last (events_since Stub.boot (snd r)) = Some (EvKfree 0x4c).
Proof.
  intros r.
  assert (Hin : In (EvSmbusRead 0x4c LM83_REG_R_STATUS1 (-1))
                  (events_since Stub.boot (snd r)))
    by (vm_compute; do 2 right; left; reflexivity).
  split; [exact Hin |].
  exact (failed_read_not_distinguished Stub.dead_bus 0 0x4c 0 (-1)
           LM83_REG_R_STATUS1 Stub.boot Hin).
Defined.

(** C5, as stated, fails.  With a chip whose registers cannot be
    written (every write returns -1), [lm83_detect] still attaches the
    client and returns 0: nothing is freed.  The cached limits of the
    attached client are the four bytes that [kmalloc] left in the block,
    here 0x55, not 127. *)
Lemma failed_limit_write_keeps_attach :
  let r := lm83_detect Stub.read_only 0 0x4c 0 (-1) Stub.boot in
  let evs := events_since Stub.boot (snd r) in
  In (EvSmbusWrite 0x4c LM83_REG_W_LOCAL_HIGH 127 (-1)) evs
  /\ exit (fst r) = ExitAttached
  /\ ret_code (fst r) = 0
  /\ ~ In (EvKfree 0x4c) evs
  /\ exists c, new_client (fst r) = Some c
               /\ limits (data c) = [0x55; 0x55; 0x55; 0x55].
Proof.
  cbv zeta. split; [vm_compute; do 8 right; left; reflexivity |].
  do 2 (split; [reflexivity |]). split.
  - vm_compute. intros H. repeat (destruct H as [H | H]; [discriminate H |]).
    exact H.
  - eexists. split; reflexivity.
Qed.


Lemma detection_step_writes (a kind : Z) (det : list event) (failed : bool) :
  detection_step a kind det failed -> smbus_writes det = [].
Proof.
  intros Hstep. inversion Hstep as [evs b Hkind Hrun |]; subst; [| reflexivity].
  inversion Hrun; reflexivity.
Qed.

Lemma identification_run_writes (k : kernel) (a kind kind' : Z) (ident : list event) :
  identification_run k a kind ident kind' -> smbus_writes ident = [].
Proof. intros Hrun. inversion Hrun; reflexivity. Qed.

(** The runs that end attached are the only ones that write to the
    chip. *)
Lemma detect_run_attached (k : kernel) (adapter address kind n : Z)
    (evs : list event) (res : detect_result) :
  detect_run k adapter address kind n evs res ->
  exit res = ExitAttached
  \/ (exists reg value r, In (EvSmbusWrite address reg value r) evs) ->
  exists func det ident block sid r1 r2 r3 r4,
    detection_step address kind det false
    /\ identification_run k address kind ident (lm83 k)
    /\ evs = [EvCheckFunctionality adapter func; EvKmalloc true] ++ det ++ ident
             ++ [EvAttachClient address 0; EvRegisterEntry address sid;
                 EvSmbusWrite address LM83_REG_W_LOCAL_HIGH 127 r1;
                 EvSmbusWrite address LM83_REG_W_REMOTE1_HIGH 127 r2;
                 EvSmbusWrite address LM83_REG_W_REMOTE2_HIGH 127 r3;
                 EvSmbusWrite address LM83_REG_W_REMOTE3_HIGH 127 r4]
    /\ res = mk_detect_result 0 ExitAttached
               (Some (with_data (set_sysctl_id sid)
                        (filled_client block adapter address n))).
Proof.
  intros Hrun Hattached.
  inversion Hrun; subst;
    try (destruct Hattached as [Hexit | (reg & value & r & Hin)];
         [discriminate Hexit | in_split Hin; not_in_run]).
  eexists _, _, _, _, _, _, _, _, _. repeat split; eassumption.
Qed.

(** C5, amended.  On every successful attach the default limit 127 is
    written to the four limit registers 0x0B, 0x50, 0x0D and 0x52, in
    that order, by the last four calls of [lm83_detect], and these are
    its only writes.  What the writes return is not examined: once a
    register has been written, whatever the write returned,
    [lm83_detect] returns 0 and leaves the client attached at its
    address, with an empty cache. *)
Theorem attach_writes_default_limits (k : kernel)
    (adapter address flags kind reg value res : Z) (w : world) :
  let r := lm83_detect k adapter address flags kind w in
  let evs := events_since w (snd r) in
  exit (fst r) = ExitAttached \/ In (EvSmbusWrite address reg value res) evs ->
  exit (fst r) = ExitAttached
  /\ ret_code (fst r) = 0
  /\ (exists c, new_client (fst r) = Some c
                /\ addr c = address /\ valid (data c) = 0)
  /\ (exists pre r1 r2 r3 r4,
         evs = pre ++ [EvSmbusWrite address LM83_REG_W_LOCAL_HIGH 127 r1;
                       EvSmbusWrite address LM83_REG_W_REMOTE1_HIGH 127 r2;
                       EvSmbusWrite address LM83_REG_W_REMOTE2_HIGH 127 r3;
                       EvSmbusWrite address LM83_REG_W_REMOTE3_HIGH 127 r4]
         /\ (forall e, In e pre -> forall a g v x, e <> EvSmbusWrite a g v x)
         /\ forall e, In e pre -> forall a, e <> EvKfree a)
  /\ smbus_writes evs = [(0x0B, 127); (0x50, 127); (0x0D, 127); (0x52, 127)].
Proof.
  intros r evs Hattached.
  pose proof (lm83_detect_events k adapter address flags kind w) as Hrun.
  cbv zeta in Hrun. fold r in Hrun. fold evs in Hrun. clearbody evs.
  destruct r as [res0 w']. cbn [fst snd] in *. clear w'.
  destruct (detect_run_attached _ _ _ _ _ _ _ Hrun) as
    (func & det & ident & block & sid & r1 & r2 & r3 & r4 & Hdet & Hident & -> & ->).
  { destruct Hattached as [Hexit | Hin]; [left; exact Hexit | right; eauto]. }
  cbn [exit ret_code new_client].
  do 2 (split; [reflexivity |]). split; [| split].
  - eexists. split; [reflexivity |]. split; reflexivity.
  - exists ([EvCheckFunctionality adapter func; EvKmalloc true] ++ det ++ ident
            ++ [EvAttachClient address 0; EvRegisterEntry address sid]),
      r1, r2, r3, r4.
    split; [rewrite <- !app_assoc; reflexivity |].
    split; intros e Hin; intros; intros He; subst e; in_split Hin; not_in_run.
  - rewrite !smbus_writes_app, (detection_step_writes _ _ _ _ Hdet),
      (identification_run_writes _ _ _ _ _ Hident). reflexivity.
Qed.

Lemma attach_writes_default_limits_witness :
  let r := lm83_detect Stub.read_only 0 0x4c 0 (-1) Stub.boot in
  let evs := events_since Stub.boot (snd r) in
  In (EvSmbusWrite 0x4c LM83_REG_W_REMOTE2_HIGH 127 (-1)) evs
  /\ exit (fst r) = ExitAttached
  /\ ret_code (fst r) = 0
  /\ smbus_writes evs = [(0x0B, 127); (0x50, 127); (0x0D, 127); (0x52, 127)].
Proof.
  intros r evs.
  assert (Hin : In (EvSmbusWrite 0x4c LM83_REG_W_REMOTE2_HIGH 127 (-1)) evs)
    by (vm_compute; do 10 right; left; reflexivity).
  split; [exact Hin |].
  destruct (attach_writes_default_limits Stub.read_only 0 0x4c 0 (-1)
              LM83_REG_W_REMOTE2_HIGH 127 (-1) Stub.boot (or_intror Hin))
    as (Hexit & Hret & _ & _ & Hwrites).
  repeat split; assumption.
Defined.

(** C6.  When, during an attach, the registration of the sysctl
    directory fails (a negative [err]) after [i2c_attach_client] has
    succeeded, [lm83_detect] calls [i2c_detach_client] on the client,
    then frees the client block, and returns [err]: the last calls are
    the attach, the failed registration, the detach and the [kfree], in
    that order, and nothing was detached or freed before. *)
Theorem register_failure_rolls_back (k : kernel)
    (adapter address flags kind err : Z) (w : world) :
  let r := lm83_detect k adapter address flags kind w in
  let evs := events_since w (snd r) in
  In (EvRegisterEntry address err) evs -> err < 0 ->
  exit (fst r) = ExitRegisterFailed
  /\ ret_code (fst r) = err
  /\ new_client (fst r) = None
  /\ exists pre res,
       evs = pre
             ++ [EvAttachClient address 0; EvRegisterEntry address err]
             ++ debug_events k "lm83.o: Failed registering directory entry.\n"
             ++ [EvDetachClient address res; EvKfree address]
       /\ forall e, In e pre ->
            (forall a x, e <> EvAttachClient a x)
            /\ (forall a x, e <> EvDetachClient a x)
            /\ (forall a, e <> EvKfree a).
Proof.
  intros r evs Hin Herr.
  pose proof (lm83_detect_events k adapter address flags kind w) as Hrun.
  cbv zeta in Hrun. fold r in Hrun. fold evs in Hrun. clearbody evs.
  destruct r as [res0 w']. cbn [fst snd] in *. clear w'.
  inversion Hrun; subst; cbn [exit ret_code new_client]; in_split Hin;
    try solve [not_in_run].
  - injection Hin as ->. do 3 (split; [reflexivity |]).
    exists ([EvCheckFunctionality adapter func; EvKmalloc true] ++ det ++ ident), res.
    split; [rewrite <- !app_assoc; reflexivity |].
    intros e He. repeat split; intros; intros Heq; subst e; in_split He; not_in_run.
  - injection Hin as ->. lia.
Qed.

Lemma register_failure_rolls_back_witness :
  let r := lm83_detect Stub.no_sysctl 0 0x4c 0 (-1) Stub.boot in
  (In (EvRegisterEntry 0x4c (-12)) (events_since Stub.boot (snd r)) /\ -12 < 0)
  /\ exit (fst r) = ExitRegisterFailed
  /\ ret_code (fst r) = -12
  /\ new_client (fst r) = None.
Proof.
  intros r.
  assert (Hin : In (EvRegisterEntry 0x4c (-12)) (events_since Stub.boot (snd r)))
    by (vm_compute; do 7 right; left; reflexivity).
  assert (Herr : -12 < 0) by lia.
  split; [split; assumption |].
  destruct (register_failure_rolls_back Stub.no_sysctl 0 0x4c 0 (-1) (-12)
              Stub.boot Hin Herr) as (Hexit & Hret & Hnone & _).
  repeat split; assumption.
Defined.

(** C7.  [lm83_detach_client] first removes the sysctl entry, then
    calls [i2c_detach_client].  When that call fails it returns its
    error and does not free the client, which is left as it was; the
    client block is freed, by the last call made, only when the call
    returned 0, and then 0 is returned. *)
Theorem detach_keeps_client_on_failure (k : kernel) (client : i2c_client) (w : world) :
  let r := lm83_detach_client k client w in
  let err :=
    i2c_detach_client k (hist w ++ [EvDeregisterEntry (sysctl_id (data client))])
      (addr client) in
  if err =? 0
  then fst r = (0, None)
       /\ events_since w (snd r)
          = [EvDeregisterEntry (sysctl_id (data client));
             EvDetachClient (addr client) 0;
             EvKfree (addr client)]
  else fst r = (err, Some client)
       /\ events_since w (snd r)
          = [EvDeregisterEntry (sysctl_id (data client));
             EvDetachClient (addr client) err;
             EvPrintk "lm83.o: Client deregistration failed, client not detached.\n"].
Proof.
  cbv zeta. unfold lm83_detach_client, emit. call_step. call_step.
  destruct (Z.eqb_spec
              (i2c_detach_client k
                 (hist w ++ [EvDeregisterEntry (sysctl_id (data client))])
                 (addr client)) 0) as [Herr | Herr];
    cbv beta iota delta [negb].
  - rewrite Herr. call_step. unfold ret. cbn [fst snd].
    rewrite <- !app_assoc, events_since_app. split; reflexivity.
  - rewrite bind_printk. unfold ret. cbv beta. cbn [fst snd hist lm83_id].
    rewrite <- !app_assoc, events_since_app. split; reflexivity.
Qed.

Example detach_refused :
  lm83_detach_client Stub.busy_core Stub.cached_client Stub.boot
  = ((-16, Some Stub.cached_client),
     mk_world
       [EvDeregisterEntry 7; EvDetachClient 0x4c (-16);
        EvPrintk "lm83.o: Client deregistration failed, client not detached.\n"]
       0).
Proof. reflexivity. Qed.

Example detach_done :
  lm83_detach_client Stub.good Stub.cached_client Stub.boot
  = ((0, None),
     mk_world [EvDeregisterEntry 7; EvDetachClient 0x4c 0; EvKfree 0x4c] 0).
Proof. reflexivity. Qed.

(** ** Writing a limit *)

(** The WRITE operation of a callback given at least one value: the
    byte for [results[0]] goes into the cached limit of the channel,
    and the cached limit is sent to the limit register of the
    channel. *)
Lemma callback_write (k : kernel) (ch : channel) (client : i2c_client)
    (ctl_name nrels_mag : Z) (results : list Z) (w : world) :
  1 <= nrels_mag ->
  let b := to_u8 (TEMP_TO_REG (results_get results 0)) in
  let client' :=
    with_data
      (match ch with
       | local => set_local_high b
       | remote1 => set_remote1_high b
       | remote2 => set_remote2_high b
       | remote3 => set_remote3_high b
       end) client in
  callback k ch client SENSORS_PROC_REAL_WRITE ctl_name nrels_mag results w
  = (mk_proc_out client' nrels_mag results,
     mk_world
       (hist w ++
        [EvSmbusWrite (addr client) (LM83_REG_W_HIGH ch)
           (to_u8 (cached_high ch (data client')))
           (i2c_smbus_write_byte_data k (hist w) (addr client) (LM83_REG_W_HIGH ch)
              (to_u8 (cached_high ch (data client'))))])
       (lm83_id w)).
Proof.
  intros Hn. cbv zeta.
  destruct ch; cbn [callback];
    unfold lm83_local_temp, lm83_remote1_temp, lm83_remote2_temp, lm83_remote3_temp;
    (destruct (Z.geb_spec nrels_mag 1) as [_ | Hlt]; [| lia]);
    unfold lm83_write_value; call_step; reflexivity.
Qed.

(** C8.  For every channel and every value [v] in -128..127, a WRITE
    of [v] stores the byte [TEMP_TO_REG v] in the cached limit of the
    channel and sends that cached byte to the limit register of the
    channel; the client it leaves does not depend on what the bus write
    returned, so the cache holds the byte even when the write failed.
    A READ of the channel made right after reports [v] as the limit,
    whether or not it updates the readings. *)
Theorem write_limit_then_read (k : kernel) (ch : channel) (client : i2c_client)
    (ctl_name nrels_mag n2 v : Z) (results buf2 : list Z) (w : world) :
  -128 <= v <= 127 ->
  1 <= nrels_mag ->
  results !! 0%nat = Some v ->
  (2 <= length buf2)%nat ->
  let wr := callback k ch client SENSORS_PROC_REAL_WRITE ctl_name nrels_mag results w in
  let c1 := out_client (fst wr) in
  let rd := callback k ch c1 SENSORS_PROC_REAL_READ ctl_name n2 buf2 (snd wr) in
  cached_high ch (data c1) = TEMP_TO_REG v
  /\ (exists res,
        events_since w (snd wr)
        = [EvSmbusWrite (addr client) (LM83_REG_W_HIGH ch) (TEMP_TO_REG v) res])
  /\ (forall k', out_client
                   (fst (callback k' ch client SENSORS_PROC_REAL_WRITE ctl_name
                           nrels_mag results w)) = c1)
  /\ results_get (out_results (fst rd)) 1 = v
  /\ out_nrels_mag (fst rd) = 2.
Proof.
  intros Hv Hn Hres Hbuf wr c1 rd.
  assert (Hget : results_get results 0 = v) by (unfold results_get; rewrite Hres; reflexivity).
  assert (Hbyte : to_u8 (TEMP_TO_REG v) = TEMP_TO_REG v)
    by (apply to_u8_small, TEMP_TO_REG_range, Hv).
  pose proof (callback_write k ch client ctl_name nrels_mag results w Hn) as Hwr.
  cbv zeta in Hwr. rewrite Hget, Hbyte in Hwr. fold wr in Hwr.
  assert (Hhigh : cached_high ch (data c1) = TEMP_TO_REG v).
  { subst c1. rewrite Hwr. destruct ch; reflexivity. }
  split; [exact Hhigh |]. split; [| split; [| split]].
  - rewrite Hwr. cbn [snd]. rewrite events_since_app. eexists.
    replace (cached_high ch _) with (TEMP_TO_REG v) by (destruct ch; reflexivity).
    rewrite Hbyte. reflexivity.
  - intros k'. subst c1.
    pose proof (callback_write k' ch client ctl_name nrels_mag results w Hn) as Hwr'.
    cbv zeta in Hwr'. rewrite Hget, Hbyte in Hwr'. rewrite Hwr', Hwr. reflexivity.
  - subst rd. rewrite callback_read. cbv zeta. cbn [fst out_results].
    destruct (results_get_read buf2
                (TEMP_FROM_REG (cached_temp ch
                   (data (fst (lm83_update_client k c1 (snd wr))))))
                (TEMP_FROM_REG (cached_high ch
                   (data (fst (lm83_update_client k c1 (snd wr)))))) Hbuf) as [_ ->].
    destruct (lm83_update_client_frame k c1 (snd wr)) as (Hlim & _).
    assert (Hsame : cached_high ch (data (fst (lm83_update_client k c1 (snd wr))))
                    = cached_high ch (data c1)).
    { unfold limits in Hlim. injection Hlim as H0 H1 H2 H3.
      destruct ch; assumption. }
    rewrite Hsame, Hhigh. apply TEMP_FROM_TO_REG, Hv.
  - subst rd. rewrite callback_read. reflexivity.
Qed.

Lemma write_limit_then_read_witness :
  let wr :=
    callback Stub.dead_bus remote2 Stub.cached_client SENSORS_PROC_REAL_WRITE 1202 1
      [-10] Stub.boot in
  let rd :=
    callback Stub.dead_bus remote2 (out_client (fst wr)) SENSORS_PROC_REAL_READ 1202 0
      [0; 0] (snd wr) in
  (-128 <= -10 <= 127 /\ 1 <= 1 /\ [-10] !! 0%nat = Some (-10)
   /\ (2 <= length [0; 0])%nat)
  /\ remote2_high (data (out_client (fst wr))) = 246
  /\ (exists res, events_since Stub.boot (snd wr) = [EvSmbusWrite 0x4c 0x0D 246 res])
  /\ results_get (out_results (fst rd)) 1 = -10.
Proof.
  intros wr rd.
  assert (Hv : -128 <= -10 <= 127) by lia.
  assert (Hn : 1 <= 1) by lia.
  assert (Hres : [-10] !! 0%nat = Some (-10)) by reflexivity.
  assert (Hbuf : (2 <= length [0; 0])%nat) by (simpl; lia).
  split; [exact (conj Hv (conj Hn (conj Hres Hbuf))) |].
  destruct (write_limit_then_read Stub.dead_bus remote2 Stub.cached_client 1202 1 0
              (-10) [-10] [0; 0] Stub.boot Hv Hn Hres Hbuf)
    as (Hhigh & Hev & _ & Hread & _).
  split; [exact Hhigh | split; [exact Hev | exact Hread]].
Defined.

(** * Further properties *)

(** ** What a run of [lm83_detect] leaves in the world *)

(** The world after [lm83_detect]: its calls are added to the history,
    [lm83_id] has advanced by one if the function got as far as
    attaching the client, and a client that is kept is the block of
    [kmalloc] with the fields that [lm83_detect] fills. *)
Lemma lm83_detect_world (k : kernel) (adapter address flags kind : Z) (w : world) :
  let r := lm83_detect k adapter address flags kind w in
  exists evs,
    snd r = mk_world (hist w ++ evs)
              (match exit (fst r) with
               | ExitAttachFailed | ExitRegisterFailed | ExitAttached =>
                 to_int (lm83_id w + 1)
               | _ => lm83_id w
               end)
    /\ detect_run k adapter address kind (lm83_id w) evs (fst r)
    /\ forall c, new_client (fst r) = Some c ->
         exists block sid,
           kmalloc k (hist w ++ [EvCheckFunctionality adapter
                                   (i2c_check_functionality k (hist w) adapter)])
           = Some block
           /\ c = with_data (set_sysctl_id sid)
                    (filled_client block adapter address (lm83_id w)).
Proof.
  cbv zeta.
  destruct (lm83_detect k adapter address flags kind w) as [res w'] eqn:E.
  cbn [fst snd]. revert E. unfold lm83_detect.
  destruct (DEBUG k && negb (i2c_is_isa_adapter k adapter =? 0)) eqn:Hisa.
  { rewrite bind_printk. intros [= <- <-]. eexists. split; [reflexivity |].
    split; [| intros c Hc; discriminate Hc].
    apply andb_true_iff in Hisa as [Hdebug Hisa].
    apply run_isa_adapter; [exact Hdebug |].
    destruct (Z.eqb_spec (i2c_is_isa_adapter k adapter) 0); [discriminate | assumption]. }
  clear Hisa. call_step.
  set (func := i2c_check_functionality k (hist w) adapter).
  destruct (Z.eqb_spec func 0) as [Hfunc | Hfunc].
  { rewrite bind_debug_printk. intros [= <- <-]. eexists. split; [| split].
    - simpl. rewrite <- app_assoc. reflexivity.
    - rewrite Hfunc. apply run_no_functionality.
    - intros c Hc; discriminate Hc. }
  call_step.
  destruct (kmalloc k _) as [block |] eqn:Hblock.
  2:{ rewrite bind_printk. intros [= <- <-]. eexists. split; [| split].
      - simpl. rewrite <- !app_assoc. reflexivity.
      - apply run_no_memory. exact Hfunc.
      - intros c Hc; discriminate Hc. }
  cbv zeta.
  set (c0 := mk_i2c_client (name block) (id block) 0 address adapter (data block)).
  match goal with |- context [bind _ _ ?w0] => set (w1 := w0) end.
  destruct (detection_step_runs k c0 kind w1) as (det & Hw2 & Hdet).
  cbv zeta in Hw2, Hdet.
  destruct ((if kind <? 0 then detection_failed k c0 else ret false) w1)
    as [failed w2] eqn:E1.
  simpl in Hw2, Hdet. rewrite (bind_run _ _ _ _ _ E1). subst w2. clear E1.
  destruct failed.
  { rewrite bind_debug_printk, ERROR1_run. intros [= <- <-]. eexists.
    split; [| split]; cycle 1.
    - apply (run_detection_failed k adapter address kind (lm83_id w) func det);
        assumption.
    - intros c Hc; discriminate Hc.
    - simpl. rewrite <- !app_assoc. reflexivity. }
  match goal with |- context [bind _ _ ?w0] => set (w2 := w0) end.
  destruct (identification_runs k c0 kind w2) as (ident & Hw3 & Hident).
  destruct (identification k c0 kind w2) as [kind' w3] eqn:E2.
  simpl in Hw3, Hident. rewrite (bind_run _ _ _ _ _ E2). subst w3. clear E2.
  destruct (Z.leb_spec kind' 0) as [Hkind' | Hkind'].
  { rewrite bind_printk, ERROR1_run. intros [= <- <-]. eexists.
    split; [| split]; cycle 1.
    - apply (run_unsupported k adapter address kind (lm83_id w) func det ident kind');
        assumption.
    - intros c Hc; discriminate Hc.
    - simpl. rewrite <- !app_assoc. reflexivity. }
  destruct (Z.eqb_spec kind' (lm83 k)) as [Hlm83 | Hlm83]; cbv beta iota delta [negb].
  2:{ rewrite bind_printk, ERROR1_run. intros [= <- <-]. eexists.
      split; [| split]; cycle 1.
      - apply (run_unknown_kind k adapter address kind (lm83_id w) func det ident kind');
          assumption.
      - intros c Hc; discriminate Hc.
      - simpl. rewrite <- !app_assoc. reflexivity. }
  subst kind'. rewrite bind_next_lm83_id. cbv beta. cbn [hist lm83_id]. call_step.
  cbn [addr with_data set_id set_name]. change (addr c0) with address.
  match goal with |- context [i2c_attach_client k ?h address] =>
    generalize (i2c_attach_client k h address); intros err end.
  destruct (Z.eqb_spec err 0) as [Herr | Herr]; cbv beta iota delta [negb].
  2:{ rewrite bind_debug_printk, ERROR1_run. intros [= <- <-]. eexists.
      split; [| split]; cycle 1.
      - apply (run_attach_failed k adapter address kind (lm83_id w) func det ident err);
          assumption.
      - intros c Hc; discriminate Hc.
      - simpl. rewrite <- !app_assoc. reflexivity. }
  subst err. call_step.
  match goal with |- context [i2c_register_entry k ?h address] =>
    generalize (i2c_register_entry k h address); intros sid end.
  destruct (Z.ltb_spec sid 0) as [Hsid | Hsid].
  { rewrite bind_debug_printk, ERROR2_run. intros [= <- <-]. eexists.
    split; [| split]; cycle 1.
    - eapply (run_register_failed k adapter address kind (lm83_id w) func det ident sid);
        assumption.
    - intros c Hc; discriminate Hc.
    - simpl. rewrite <- !app_assoc. reflexivity. }
  match goal with |- context [bind (lm83_init_client k ?c) _ ?w0] =>
    destruct (lm83_init_client_run k c w0) as (r1 & r2 & r3 & r4 & Hinit);
    rewrite (bind_run _ _ _ _ _ Hinit)
  end.
  intros [= <- <-]. eexists. split; [| split]; cycle 1.
  - apply (run_attached k adapter address kind (lm83_id w) func det ident block
             sid r1 r2 r3 r4); assumption.
  - intros c [= <-]. exists block, sid. split; reflexivity.
  - simpl. rewrite <- !app_assoc. reflexivity.
Qed.

Lemma lm83_detect_facts (k : kernel) (adapter address flags kind : Z) (w : world) :
  let r := lm83_detect k adapter address flags kind w in
  detect_run k adapter address kind (lm83_id w) (events_since w (snd r)) (fst r)
  /\ lm83_id (snd r)
     = (match exit (fst r) with
        | ExitAttachFailed | ExitRegisterFailed | ExitAttached =>
          to_int (lm83_id w + 1)
        | _ => lm83_id w
        end)
  /\ forall c, new_client (fst r) = Some c ->
       exists block sid,
         kmalloc k (hist w ++ [EvCheckFunctionality adapter
                                 (i2c_check_functionality k (hist w) adapter)])
         = Some block
         /\ c = with_data (set_sysctl_id sid)
                  (filled_client block adapter address (lm83_id w)).
Proof.
  cbv zeta.
  destruct (lm83_detect_world k adapter address flags kind w) as (evs & Hw & Hrun & Hc).
  cbv zeta in Hw, Hrun, Hc. rewrite Hw. rewrite events_since_app.
  split; [exact Hrun | split; [reflexivity | exact Hc]].
Qed.

Lemma count_events_app (p : event -> bool) (l1 l2 : list event) :
  count_events p (l1 ++ l2) = (count_events p l1 + count_events p l2)%nat.
Proof.
  induction l1 as [| e l1 IH]; [reflexivity |]. simpl. rewrite IH. lia.
Qed.

Lemma count_events_none (p : event -> bool) (evs : list event) :
  (forall e, In e evs -> p e = false) -> count_events p evs = 0%nat.
Proof.
  induction evs as [| e evs IH]; intros Hnone; [reflexivity |].
  simpl. rewrite (Hnone e) by (left; reflexivity).
  apply IH. intros e' He'. apply Hnone. right. exact He'.
Qed.

(** The detection and identification steps only read registers, and
    debugging only prints: they contribute to no count of other
    calls. *)
Lemma count_events_detection (p : event -> bool) (a kind : Z) (det : list event)
    (failed : bool) :
  (forall a reg v, p (EvSmbusRead a reg v) = false) ->
  detection_step a kind det failed -> count_events p det = 0%nat.
Proof.
  intros Hp Hstep. apply count_events_none. intros e He.
  destruct (detection_step_reads _ _ _ _ _ Hstep He) as (reg & v & -> & _).
  apply Hp.
Qed.

Lemma count_events_identification (p : event -> bool) (k : kernel) (a kind kind' : Z)
    (ident : list event) :
  (forall a reg v, p (EvSmbusRead a reg v) = false) ->
  identification_run k a kind ident kind' -> count_events p ident = 0%nat.
Proof.
  intros Hp Hrun. apply count_events_none. intros e He.
  destruct (identification_run_in _ _ _ _ _ _ Hrun He) as (v & -> & _).
  apply Hp.
Qed.

Lemma count_events_debug (p : event -> bool) (k : kernel) (msg : string) :
  (forall m, p (EvPrintk m) = false) -> count_events p (debug_events k msg) = 0%nat.
Proof.
  intros Hp. apply count_events_none. intros e He.
  apply debug_events_in in He. subst e. apply Hp.
Qed.

(** The registers read by the two steps. *)
Lemma detection_step_smbus_reads (a kind : Z) (det : list event) (failed : bool) :
  detection_step a kind det failed ->
  (kind < 0
   /\ (if failed
       then smbus_reads det = [LM83_REG_R_STATUS1]
            \/ smbus_reads det = [LM83_REG_R_STATUS1; LM83_REG_R_STATUS2]
            \/ smbus_reads det
               = [LM83_REG_R_STATUS1; LM83_REG_R_STATUS2; LM83_REG_R_CONFIG]
       else smbus_reads det
            = [LM83_REG_R_STATUS1; LM83_REG_R_STATUS2; LM83_REG_R_CONFIG]))
  \/ (0 <= kind /\ failed = false /\ det = []).
Proof.
  intros Hstep. inversion Hstep as [evs b Hkind Hrun | Hkind]; subst.
  2:{ right. auto. }
  left. split; [exact Hkind |].
  inversion Hrun as [| | s1 s2 c H1 H2 Hevs Hc]; subst; cbn [smbus_reads]; auto.
  destruct (negb (Z.land c 65 =? 0)); auto.
Qed.

Lemma identification_run_smbus_reads (k : kernel) (a kind kind' : Z)
    (ident : list event) :
  identification_run k a kind ident kind' ->
  (kind <= 0 /\ smbus_reads ident = [LM83_REG_R_MAN_ID])
  \/ (0 < kind /\ ident = [] /\ kind' = kind).
Proof. intros Hrun. inversion Hrun; subst; auto. Qed.










(** X2.  Identification rests on the low byte of what the read of
    the manufacturer ID returned.  When [lm83_detect] has read that
    register, it leaves by the unsupported-chip exit if and only if
    the byte is not 0x01; when the byte is 0x01 it goes on to attach
    the client.  The register is read only when no kind is forced. *)
Theorem manufacturer_id_decides (k : kernel) (adapter address flags kind v : Z)
    (w : world) :
  let r := lm83_detect k adapter address flags kind w in
  let evs := events_since w (snd r) in
  In (EvSmbusRead address LM83_REG_R_MAN_ID v) evs ->
  0 < lm83 k ->
  kind <= 0
  /\ (exit (fst r) = ExitUnsupported <-> to_u8 v <> 0x01)
  /\ (to_u8 v = 0x01 -> exists res, In (EvAttachClient address res) evs).
Proof.
  intros r evs Hin Hlm83.
  destruct (lm83_detect_facts k adapter address flags kind w) as (Hrun & _ & _).
  fold r in Hrun. fold evs in Hrun. clearbody evs.
  destruct r as [res w']. cbn [fst snd] in *. clear w'.
  inversion Hrun; subst; cbn [exit]; in_split Hin;
    try match goal with
        | Hs : detection_step _ _ ?det _, H : In _ ?det |- _ =>
            destruct (detection_step_reads _ _ _ _ _ Hs H)
              as (reg & v' & He & [Hreg | [Hreg | Hreg]]);
            injection He as Hreg' _; rewrite Hreg in Hreg'; discriminate Hreg'
        | H : In _ (debug_events _ _) |- _ =>
            apply debug_events_in in H; discriminate H
        end;
    match goal with
    | Hi : identification_run _ _ _ ?ident _, H : In _ ?ident |- _ =>
        destruct (identification_run_in _ _ _ _ _ _ Hi H) as (v' & He & Hk & Hk');
        injection He as <-
    end;
    (split; [exact Hk |]);
    destruct (Z.eqb_spec (to_u8 v) 1) as [Hv | Hv].
  all: split; [split; [try discriminate; try lia; intros _; try exact Hv
                      | try (intros Hne; contradiction); try reflexivity] |].
  all: try (intros Hv'; contradiction).
  all: try lia.
  all: intros _; eexists; rewrite !in_app_iff; cbn [In]; auto 12.
Qed.

Lemma manufacturer_id_decides_witness :
  let r := lm83_detect Stub.other_device 0 0x4c 0 0 Stub.boot in
  (In (EvSmbusRead 0x4c LM83_REG_R_MAN_ID 0xFF) (events_since Stub.boot (snd r))
   /\ 0 < lm83 Stub.other_device)
  /\ exit (fst r) = ExitUnsupported.
Proof.
  intros r.
  assert (Hin : In (EvSmbusRead 0x4c LM83_REG_R_MAN_ID 0xFF)
                  (events_since Stub.boot (snd r)))
    by (vm_compute; do 2 right; left; reflexivity).
  assert (Hlm83 : 0 < lm83 Stub.other_device) by (vm_compute; reflexivity).
  split; [split; assumption |].
  destruct (manufacturer_id_decides Stub.other_device 0 0x4c 0 0 0xFF Stub.boot
              Hin Hlm83) as (_ & Hiff & _).
  apply Hiff. vm_compute. discriminate.
Defined.

(** A tactic for the counts of a run: the counts of its parts add up,
    and the parts that only read or print count for nothing. *)
Ltac count_run :=
  repeat progress (
  rewrite ?count_events_app;
  repeat match goal with
         | H : detection_step _ _ ?det _ |- context [count_events ?p ?det] =>
             rewrite (count_events_detection p _ _ _ _ (fun _ _ _ => eq_refl) H)
         | H : identification_run _ _ _ ?ident _
           |- context [count_events ?p ?ident] =>
             rewrite (count_events_identification p _ _ _ _ _
                        (fun _ _ _ => eq_refl) H)
         | |- context [count_events ?p (debug_events ?k ?msg)] =>
             rewrite (count_events_debug p k msg (fun _ => eq_refl))
         end;
  cbn [count_events is_kmalloc is_kfree is_attach Nat.add app]).

Lemma last_skip_cons (a e : event) (l : list event) :
  last l = Some e -> last (a :: l) = Some e.
Proof. destruct l; [discriminate | intros H; exact H]. Qed.

Lemma last_skip_app (l1 l2 : list event) (e : event) :
  last l2 = Some e -> last (l1 ++ l2) = Some e.
Proof.
  intros H. induction l1 as [| a l1 IH]; [exact H |].
  apply last_skip_cons. exact IH.
Qed.

(** In a run that frees the block, [kfree] is the last call. *)
Ltac last_kfree :=
  first [ reflexivity
        | apply last_skip_cons; last_kfree
        | apply last_skip_app; last_kfree ].

(** X3.  A forced kind that is not the kind of the LM83 is refused
    without touching the bus: [lm83_detect] reads no register, never
    calls [i2c_attach_client], keeps no client, and returns 0 (or
    [-ENOMEM]); once it has the client block it leaves by the
    unknown-kind exit, the [kfree] of the block being its last call. *)
Theorem unknown_forced_kind_refused (k : kernel) (adapter address flags kind : Z)
    (w : world) :
  let r := lm83_detect k adapter address flags kind w in
  let evs := events_since w (snd r) in
  0 < kind -> kind <> lm83 k ->
  new_client (fst r) = None
  /\ smbus_reads evs = []
  /\ count_events is_attach evs = 0%nat
  /\ (ret_code (fst r) = 0 \/ ret_code (fst r) = - ENOMEM k)
  /\ match count_events is_kmalloc evs with
     | O => True
     | _ => exit (fst r) = ExitUnknownKind /\ last evs = Some (EvKfree address)
     end.
Proof.
  intros r evs Hforced Hother.
  destruct (lm83_detect_facts k adapter address flags kind w) as (Hrun & _ & _).
  fold r in Hrun. fold evs in Hrun. clearbody evs.
  destruct r as [res w']. cbn [fst snd] in *. clear w'.
  inversion Hrun; subst; cbn [exit ret_code new_client];
    repeat match goal with
           | H : detection_step _ _ _ _ |- _ =>
               apply detection_step_smbus_reads in H;
               destruct H as [[? _] | (_ & Hf & ->)]; [lia | try discriminate Hf]
           | H : identification_run _ _ _ _ _ |- _ =>
               apply identification_run_smbus_reads in H;
               destruct H as [[? _] | (_ & -> & ?)]; [lia |]
           end;
    try lia.
  all: repeat (progress (rewrite ?smbus_reads_app, ?smbus_reads_debug;
                         cbn [smbus_reads app])).
  all: count_run.
  all: repeat split; auto.
  all: last_kfree.
Qed.

Lemma unknown_forced_kind_refused_witness :
  let r := lm83_detect Stub.good 0 0x4c 0 2 Stub.boot in
  (0 < 2 /\ 2 <> lm83 Stub.good)
  /\ new_client (fst r) = None
  /\ smbus_reads (events_since Stub.boot (snd r)) = []
  /\ exit (fst r) = ExitUnknownKind.
Proof.
  intros r.
  assert (Hforced : 0 < 2) by lia.
  assert (Hother : 2 <> lm83 Stub.good) by (vm_compute; discriminate).
  split; [split; assumption |].
  destruct (unknown_forced_kind_refused Stub.good 0 0x4c 0 2 Stub.boot
              Hforced Hother) as (Hnone & Hreads & _ & _ & Hexit).
  split; [exact Hnone | split; [exact Hreads |]].
  exact (proj1 Hexit).
Defined.

(** X4.  [lm83_detect] neither leaks nor frees twice.  It allocates
    at most one block; when it returns, the block has been freed
    exactly once unless the client is kept, and it is never freed when
    the client is kept.  When the block is freed, [kfree] is the last
    call of the function, so that nothing uses the block afterwards. *)
Theorem detect_allocation_balanced (k : kernel) (adapter address flags kind : Z)
    (w : world) :
  let r := lm83_detect k adapter address flags kind w in
  let evs := events_since w (snd r) in
  (count_events is_kmalloc evs <= 1)%nat
  /\ (count_events is_kfree evs
      + (match new_client (fst r) with Some _ => 1 | None => 0 end)
      = count_events is_kmalloc evs)%nat
  /\ match count_events is_kfree evs with
     | O => True
     | _ => last evs = Some (EvKfree address)
     end.
Proof.
  intros r evs.
  destruct (lm83_detect_facts k adapter address flags kind w) as (Hrun & _ & _).
  fold r in Hrun. fold evs in Hrun. clearbody evs.
  destruct r as [res w']. cbn [fst snd] in *. clear w'.
  inversion Hrun; subst; cbn [new_client]; count_run;
    (split; [lia | split; [lia |]]); try exact I; last_kfree.
Qed.

(** X5.  A non-zero return of [lm83_detect] names its cause and means
    that nothing is kept: it is [-ENOMEM] when no block could be
    allocated, the error of [i2c_attach_client] when that call failed,
    or the negative value of [i2c_register_entry]; in no other case
    does [lm83_detect] return anything but 0. *)
Theorem detect_error_codes (k : kernel) (adapter address flags kind : Z)
    (w : world) :
  let r := lm83_detect k adapter address flags kind w in
  let evs := events_since w (snd r) in
  ret_code (fst r) <> 0 ->
  new_client (fst r) = None
  /\ ((exit (fst r) = ExitNoMemory /\ ret_code (fst r) = - ENOMEM k
       /\ In (EvKmalloc false) evs)
      \/ (exit (fst r) = ExitAttachFailed
          /\ In (EvAttachClient address (ret_code (fst r))) evs)
      \/ (exit (fst r) = ExitRegisterFailed /\ ret_code (fst r) < 0
          /\ In (EvRegisterEntry address (ret_code (fst r))) evs)).
Proof.
  intros r evs Hret.
  destruct (lm83_detect_facts k adapter address flags kind w) as (Hrun & _ & _).
  fold r in Hrun. fold evs in Hrun. clearbody evs.
  destruct r as [res w']. cbn [fst snd] in *. clear w'.
  inversion Hrun; subst; cbn [exit ret_code new_client] in *;
    try (exfalso; apply Hret; reflexivity);
    (split; [reflexivity |]).
  - left. repeat split. cbn [In]. auto.
  - right; left. split; [reflexivity |]. rewrite !in_app_iff. cbn [In]. auto 8.
  - right; right. split; [reflexivity | split; [assumption |]].
    rewrite !in_app_iff. cbn [In]. auto 8.
Qed.

Lemma detect_error_codes_witness :
  let r := lm83_detect Stub.no_memory 0 0x4c 0 (-1) Stub.boot in
  ret_code (fst r) <> 0
  /\ new_client (fst r) = None
  /\ ret_code (fst r) = -12
  /\ exit (fst r) = ExitNoMemory.
Proof.
  intros r.
  assert (Hret : ret_code (fst r) <> 0) by (vm_compute; discriminate).
  split; [exact Hret |].
  destruct (detect_error_codes Stub.no_memory 0 0x4c 0 (-1) Stub.boot Hret)
    as (Hnone & Hcause).
  split; [exact Hnone |].
  split; reflexivity.
Defined.

(** X6.  When [i2c_attach_client] fails, [lm83_detect] frees the
    client block and returns the error of that call, and does nothing
    else: it does not register the sysctl directory, does not call
    [i2c_detach_client] on the client that was not attached, and writes
    nothing to the chip. *)
Theorem attach_failure_only_frees (k : kernel) (adapter address flags kind err : Z)
    (w : world) :
  let r := lm83_detect k adapter address flags kind w in
  let evs := events_since w (snd r) in
  In (EvAttachClient address err) evs -> err <> 0 ->
  exit (fst r) = ExitAttachFailed
  /\ ret_code (fst r) = err
  /\ new_client (fst r) = None
  /\ last evs = Some (EvKfree address)
  /\ count_events is_kfree evs = 1%nat
  /\ smbus_writes evs = []
  /\ forall e, In e evs ->
       (forall a x, e <> EvRegisterEntry a x)
       /\ (forall a x, e <> EvDetachClient a x).
Proof.
  intros r evs Hin Herr.
  destruct (lm83_detect_facts k adapter address flags kind w) as (Hrun & _ & _).
  fold r in Hrun. fold evs in Hrun. clearbody evs.
  destruct r as [res w']. cbn [fst snd] in *. clear w'.
  inversion Hrun; subst; cbn [exit ret_code new_client]; in_split Hin;
    try solve [not_in_run];
    try (injection Hin as Heq; congruence).
  injection Hin as ->.
  do 3 (split; [reflexivity |]). split; [last_kfree |].
  split; [count_run; reflexivity |]. split.
  - rewrite !smbus_writes_app, (detection_step_writes _ _ _ _ H0),
      (identification_run_writes _ _ _ _ _ H1), smbus_writes_debug. reflexivity.
  - intros e He. split; intros; intros Heq; subst e; in_split He; not_in_run.
Qed.

Lemma attach_failure_only_frees_witness :
  let r := lm83_detect Stub.attach_refused 0 0x4c 0 (-1) Stub.boot in
  (In (EvAttachClient 0x4c (-16)) (events_since Stub.boot (snd r)) /\ -16 <> 0)
  /\ exit (fst r) = ExitAttachFailed
  /\ ret_code (fst r) = -16
  /\ new_client (fst r) = None.
Proof.
  intros r.
  assert (Hin : In (EvAttachClient 0x4c (-16)) (events_since Stub.boot (snd r)))
    by (vm_compute; do 6 right; left; reflexivity).
  assert (Herr : -16 <> 0) by lia.
  split; [split; assumption |].
  destruct (attach_failure_only_frees Stub.attach_refused 0 0x4c 0 (-1) (-16)
              Stub.boot Hin Herr) as (Hexit & Hret & Hnone & _).
  repeat split; assumption.
Defined.

(** A client is kept exactly by the runs that end attached. *)
Lemma detect_run_kept (k : kernel) (adapter address kind n : Z) (evs : list event)
    (res : detect_result) :
  detect_run k adapter address kind n evs res ->
  (exists c, new_client res = Some c) <-> exit res = ExitAttached.
Proof.
  intros Hrun. inversion Hrun; subst; cbn [new_client exit];
    (split; [intros [c Hc]; try discriminate Hc; reflexivity
            | intros He; try discriminate He; eauto]).
Qed.

Lemma to_int_small (v : Z) : INT_MIN <= v <= INT_MAX -> to_int v = v.
Proof.
  unfold INT_MIN, INT_MAX, to_int. intros Hv.
  rewrite Z.mod_small by lia. lia.
Qed.

Lemma to_int_range (v : Z) : INT_MIN <= to_int v <= INT_MAX.
Proof.
  unfold INT_MIN, INT_MAX, to_int.
  pose proof (Z.mod_pos_bound (v + 2 ^ 31) (2 ^ 32)). lia.
Qed.

(** Incrementing an [int] never gives the same value back. *)
Lemma to_int_succ_neq (v : Z) : to_int (v + 1) <> v.
Proof.
  unfold to_int. rewrite Z.mod_eq by lia.
  generalize ((v + 1 + 2 ^ 31) / 2 ^ 32). intros q.
  change (2 ^ 32) with 4294967296. change (2 ^ 31) with 2147483648. lia.
Qed.

(** X7.  The client that [lm83_detect] attaches gets as [id] the value
    of the counter [lm83_id] at entry, and the counter is incremented
    as the [int] it is.  Hence two chips attached one after the other
    get distinct ids: consecutive ones as long as the counter is below
    [INT_MAX], and [INT_MAX] followed by [INT_MIN] when the increment
    wraps around. *)
Theorem attached_ids_consecutive (k : kernel)
    (adapter1 address1 flags1 kind1 adapter2 address2 flags2 kind2 : Z)
    (w : world) (c1 c2 : i2c_client) :
  let r1 := lm83_detect k adapter1 address1 flags1 kind1 w in
  let r2 := lm83_detect k adapter2 address2 flags2 kind2 (snd r1) in
  new_client (fst r1) = Some c1 ->
  new_client (fst r2) = Some c2 ->
  id c1 = lm83_id w
  /\ lm83_id (snd r1) = to_int (lm83_id w + 1)
  /\ id c2 = to_int (id c1 + 1)
  /\ lm83_id (snd r2) = to_int (id c2 + 1)
  /\ id c2 <> id c1
  /\ INT_MIN <= id c2 <= INT_MAX
  /\ (INT_MIN <= lm83_id w < INT_MAX -> id c2 = id c1 + 1)
  /\ (lm83_id w = INT_MAX -> id c2 = INT_MIN).
Proof.
  intros r1 r2 H1 H2.
  destruct (lm83_detect_facts k adapter1 address1 flags1 kind1 w)
    as (Hrun1 & Hid1 & Hc1).
  destruct (lm83_detect_facts k adapter2 address2 flags2 kind2 (snd r1))
    as (Hrun2 & Hid2 & Hc2).
  fold r1 in Hrun1, Hid1, Hc1, Hrun2, Hid2, Hc2. fold r2 in Hrun2, Hid2, Hc2.
  destruct (Hc1 c1 H1) as (b1 & s1 & _ & Hshape1).
  destruct (Hc2 c2 H2) as (b2 & s2 & _ & Hshape2).
  assert (He1 : exit (fst r1) = ExitAttached)
    by (apply (detect_run_kept _ _ _ _ _ _ _ Hrun1); eauto).
  assert (He2 : exit (fst r2) = ExitAttached)
    by (apply (detect_run_kept _ _ _ _ _ _ _ Hrun2); eauto).
  rewrite He1 in Hid1. rewrite He2 in Hid2.
  subst c1 c2. cbn [id with_data filled_client]. rewrite Hid2, Hid1.
  split; [reflexivity |]. split; [reflexivity |]. split; [reflexivity |].
  split; [reflexivity |]. split; [apply to_int_succ_neq |].
  split; [apply to_int_range |]. split.
  - intros Hw. apply to_int_small. unfold INT_MIN, INT_MAX in *. lia.
  - intros ->. reflexivity.
Qed.

Lemma attached_ids_consecutive_witness :
  let r1 := lm83_detect Stub.good 0 0x4c 0 (-1) Stub.boot in
  let r2 := lm83_detect Stub.good 0 0x4e 0 (-1) (snd r1) in
  let r3 := lm83_detect Stub.good 0 0x4c 0 (-1) (mk_world [] INT_MAX) in
  let r4 := lm83_detect Stub.good 0 0x4e 0 (-1) (snd r3) in
  exists c1 c2 c3 c4,
    (new_client (fst r1) = Some c1 /\ new_client (fst r2) = Some c2)
    /\ (new_client (fst r3) = Some c3 /\ new_client (fst r4) = Some c4)
    /\ (id c1 = 0 /\ id c2 = 1)
    /\ (id c3 = 2147483647 /\ id c4 = -2147483648).
Proof.
  intros r1 r2 r3 r4.
  destruct (new_client (fst r1)) as [c1 |] eqn:H1; [| vm_compute in H1; discriminate H1].
  destruct (new_client (fst r2)) as [c2 |] eqn:H2; [| vm_compute in H2; discriminate H2].
  destruct (new_client (fst r3)) as [c3 |] eqn:H3; [| vm_compute in H3; discriminate H3].
  destruct (new_client (fst r4)) as [c4 |] eqn:H4; [| vm_compute in H4; discriminate H4].
  exists c1, c2, c3, c4. split; [split; reflexivity |]. split; [split; reflexivity |].
  destruct (attached_ids_consecutive Stub.good 0 0x4c 0 (-1) 0 0x4e 0 (-1)
              Stub.boot c1 c2 H1 H2) as (Hid1 & _ & _ & _ & _ & _ & Hid2 & _).
  destruct (attached_ids_consecutive Stub.good 0 0x4c 0 (-1) 0 0x4e 0 (-1)
              (mk_world [] INT_MAX) c3 c4 H3 H4) as (Hid3 & _ & _ & _ & _ & _ & _ & Hid4).
  cbn [lm83_id Stub.boot] in Hid1, Hid2, Hid3, Hid4.
  assert (Hboot : INT_MIN <= 0 < INT_MAX) by (unfold INT_MIN, INT_MAX; lia).
  specialize (Hid2 Hboot). specialize (Hid4 eq_refl).
  rewrite Hid2, Hid1, Hid3, Hid4. repeat split.
Defined.

Lemma update_needed_invalid (k : kernel) (now : Z) (d : lm83_data) :
  valid d = 0 -> update_needed k now d = true.
Proof.
  intros Hv. unfold update_needed. rewrite Hv. apply orb_true_r.
Qed.

(** X8.  A client comes out of [lm83_detect] with an empty cache
    ([valid] is 0), so the first READ of any of its channels, whenever
    it is made, reads the four temperature registers and leaves the
    cache valid. *)
Theorem first_read_after_attach_refreshes (k : kernel)
    (adapter address flags kind : Z) (w : world) (c : i2c_client)
    (ch : channel) (ctl_name nrels_mag : Z) (results : list Z) (w2 : world) :
  new_client (fst (lm83_detect k adapter address flags kind w)) = Some c ->
  let out := callback k ch c SENSORS_PROC_REAL_READ ctl_name nrels_mag results w2 in
  valid (data c) = 0
  /\ smbus_reads (events_since w2 (snd out))
     = [LM83_REG_R_LOCAL_TEMP; LM83_REG_R_REMOTE1_TEMP;
        LM83_REG_R_REMOTE2_TEMP; LM83_REG_R_REMOTE3_TEMP]
  /\ valid (data (out_client (fst out))) = 1.
Proof.
  intros Hc out.
  destruct (lm83_detect_facts k adapter address flags kind w) as (_ & _ & Hshape).
  destruct (Hshape c Hc) as (block & sid & _ & ->).
  split; [reflexivity |].
  subst out. rewrite callback_read. cbv zeta. cbn [fst snd out_client].
  pose proof (lm83_update_client_reads k
                (with_data (set_sysctl_id sid)
                   (filled_client block adapter address (lm83_id w))) w2) as Hreads.
  cbv zeta in Hreads. rewrite update_needed_invalid in Hreads by reflexivity.
  exact Hreads.
Qed.

Lemma first_read_after_attach_refreshes_witness :
  let r := lm83_detect Stub.good 0 0x4c 0 (-1) Stub.boot in
  exists c,
    new_client (fst r) = Some c
    /\ smbus_reads
         (events_since (snd r)
            (snd (callback Stub.good remote1 c SENSORS_PROC_REAL_READ 1201 0 [0; 0]
                    (snd r))))
       = [0x00; 0x30; 0x01; 0x31].
Proof.
  intros r.
  destruct (new_client (fst r)) as [c |] eqn:Hc; [| vm_compute in Hc; discriminate Hc].
  exists c. split; [reflexivity |].
  destruct (first_read_after_attach_refreshes Stub.good 0 0x4c 0 (-1) Stub.boot c
              remote1 1201 0 [0; 0] (snd r) Hc) as (_ & Hreads & _).
  exact Hreads.
Defined.

(** X9.  [lm83_detect] stores nothing into the eight cached registers
    nor into [last_updated]: in the client it attaches they are as
    [kmalloc] returned them.  The first READ of a channel therefore
    reports as limit the decoded byte that was in the block, whatever
    was written to the chip at the end of the attach. *)
Theorem attach_leaves_cache_as_allocated (k : kernel)
    (adapter address flags kind : Z) (w : world) (c : i2c_client)
    (ch : channel) (ctl_name nrels_mag : Z) (results : list Z) (w2 : world) :
  new_client (fst (lm83_detect k adapter address flags kind w)) = Some c ->
  (2 <= length results)%nat ->
  let out := callback k ch c SENSORS_PROC_REAL_READ ctl_name nrels_mag results w2 in
  exists block,
    kmalloc k (hist w ++ [EvCheckFunctionality adapter
                            (i2c_check_functionality k (hist w) adapter)])
    = Some block
    /\ limits (data c) = limits (data block)
    /\ readings (data c) = readings (data block)
    /\ last_updated (data c) = last_updated (data block)
    /\ results_get (out_results (fst out)) 1
       = TEMP_FROM_REG (cached_high ch (data block)).
Proof.
  intros Hc Hbuf out.
  destruct (lm83_detect_facts k adapter address flags kind w) as (_ & _ & Hshape).
  destruct (Hshape c Hc) as (block & sid & Hblock & ->).
  exists block. split; [exact Hblock |]. do 3 (split; [reflexivity |]).
  subst out. rewrite callback_read. cbv zeta. cbn [fst out_results].
  match goal with
  | |- results_get (<[1%nat := ?h]> (<[0%nat := ?t]> results)) 1 = _ =>
      destruct (results_get_read results t h Hbuf) as [_ ->]
  end.
  f_equal.
  match goal with
  | |- cached_high ch (data (fst (lm83_update_client k ?c0 w2))) = _ =>
      destruct (lm83_update_client_frame k c0 w2) as (Hlim & _)
  end.
  unfold limits in Hlim. injection Hlim as H0 H1 H2 H3.
  destruct ch; assumption.
Qed.

Lemma attach_leaves_cache_as_allocated_witness :
  let r := lm83_detect Stub.good 0 0x4c 0 (-1) Stub.boot in
  exists c,
    (new_client (fst r) = Some c /\ (2 <= length [0; 0])%nat)
    /\ limits (data c) = [0x55; 0x55; 0x55; 0x55]
    /\ results_get
         (out_results
            (fst (callback Stub.good local c SENSORS_PROC_REAL_READ 1200 0 [0; 0]
                    (snd r)))) 1
       = 0x55.
Proof.
  intros r.
  destruct (new_client (fst r)) as [c |] eqn:Hc; [| vm_compute in Hc; discriminate Hc].
  assert (Hbuf : (2 <= length [0; 0])%nat) by (simpl; lia).
  exists c. split; [split; [reflexivity | exact Hbuf] |].
  destruct (attach_leaves_cache_as_allocated Stub.good 0 0x4c 0 (-1) Stub.boot c
              local 1200 0 [0; 0] (snd r) Hc Hbuf)
    as (block & Hblock & Hlim & _ & _ & Hread).
  injection Hblock as <-. split; [exact Hlim | exact Hread].
Defined.

(** ** More on the callbacks *)

Lemma to_u8_TEMP_TO_REG (v : Z) : to_u8 (TEMP_TO_REG v) = v mod 256.
Proof.
  unfold to_u8, TEMP_TO_REG. destruct (v <? 0); [| reflexivity].
  replace (v + 256) with (v + 1 * 256) by lia. apply Z_mod_plus_full.
Qed.

Lemma TEMP_FROM_REG_congruent (b : Z) : (TEMP_FROM_REG b - b) mod 256 = 0.
Proof.
  unfold TEMP_FROM_REG. destruct (b >? 127).
  - replace (b - 256 - b) with (-1 * 256) by lia. apply Z_mod_mult.
  - replace (b - b) with (0 * 256) by lia. apply Z_mod_mult.
Qed.

(** X10.  A WRITE stores any value, in range or not, modulo 256: the
    byte sent to the limit register and kept in the cache is
    [v mod 256], and the limit that a READ then reports is the one
    value of -128..127 that is congruent to [v] modulo 256 (200 comes
    back as -56). *)
Theorem write_out_of_range_wraps (k : kernel) (ch : channel) (client : i2c_client)
    (ctl_name nrels_mag n2 v : Z) (results buf2 : list Z) (w : world) :
  1 <= nrels_mag ->
  results !! 0%nat = Some v ->
  (2 <= length buf2)%nat ->
  let wr := callback k ch client SENSORS_PROC_REAL_WRITE ctl_name nrels_mag results w in
  let c1 := out_client (fst wr) in
  let rd := callback k ch c1 SENSORS_PROC_REAL_READ ctl_name n2 buf2 (snd wr) in
  let limit := results_get (out_results (fst rd)) 1 in
  cached_high ch (data c1) = v mod 256
  /\ smbus_writes (events_since w (snd wr)) = [(LM83_REG_W_HIGH ch, v mod 256)]
  /\ -128 <= limit <= 127
  /\ (limit - v) mod 256 = 0.
Proof.
  intros Hn Hres Hbuf wr c1 rd limit.
  assert (Hget : results_get results 0 = v)
    by (unfold results_get; rewrite Hres; reflexivity).
  pose proof (callback_write k ch client ctl_name nrels_mag results w Hn) as Hwr.
  cbv zeta in Hwr. rewrite Hget, to_u8_TEMP_TO_REG in Hwr. fold wr in Hwr.
  assert (Hbyte : 0 <= v mod 256 <= 255)
    by (pose proof (Z.mod_pos_bound v 256); lia).
  assert (Hhigh : cached_high ch (data c1) = v mod 256).
  { subst c1. rewrite Hwr. destruct ch; reflexivity. }
  assert (Hlimit : limit = TEMP_FROM_REG (v mod 256)).
  { subst limit rd. rewrite callback_read. cbv zeta. cbn [fst out_results].
    match goal with
    | |- results_get (<[1%nat := ?h]> (<[0%nat := ?t]> buf2)) 1 = _ =>
        destruct (results_get_read buf2 t h Hbuf) as [_ ->]
    end.
    f_equal. rewrite <- Hhigh.
    destruct (lm83_update_client_frame k c1 (snd wr)) as (Hlim & _).
    unfold limits in Hlim. injection Hlim as H0 H1 H2 H3.
    destruct ch; assumption. }
  split; [exact Hhigh |]. split; [| split].
  - rewrite Hwr. cbn [snd]. rewrite events_since_app. cbn [smbus_writes].
    replace (cached_high ch _) with (v mod 256) by (destruct ch; reflexivity).
    rewrite (to_u8_small _ Hbyte). reflexivity.
  - rewrite Hlimit. apply TEMP_FROM_REG_range, Hbyte.
  - rewrite Hlimit.
    replace (TEMP_FROM_REG (v mod 256) - v)
      with ((TEMP_FROM_REG (v mod 256) - v mod 256) + (v mod 256 - v)) by lia.
    rewrite Z.add_mod, TEMP_FROM_REG_congruent by lia.
    replace (v mod 256 - v) with (- (v / 256) * 256)
      by (pose proof (Z.div_mod v 256); lia).
    rewrite Z_mod_mult. reflexivity.
Qed.

Lemma write_out_of_range_wraps_witness :
  let wr :=
    callback Stub.good local Stub.cached_client SENSORS_PROC_REAL_WRITE 1200 1
      [200] Stub.boot in
  let rd :=
    callback Stub.good local (out_client (fst wr)) SENSORS_PROC_REAL_READ 1200 0
      [0; 0] (snd wr) in
  (1 <= 1 /\ [200] !! 0%nat = Some 200 /\ (2 <= length [0; 0])%nat)
  /\ smbus_writes (events_since Stub.boot (snd wr)) = [(0x0B, 200)]
  /\ results_get (out_results (fst rd)) 1 = -56.
Proof.
  intros wr rd.
  assert (Hn : 1 <= 1) by lia.
  assert (Hres : [200] !! 0%nat = Some 200) by reflexivity.
  assert (Hbuf : (2 <= length [0; 0])%nat) by (simpl; lia).
  split; [exact (conj Hn (conj Hres Hbuf)) |].
  destruct (write_out_of_range_wraps Stub.good local Stub.cached_client 1200 1 0 200
              [200] [0; 0] Stub.boot Hn Hres Hbuf) as (_ & Hwrites & _ & _).
  split; [exact Hwrites | reflexivity].
Defined.

Lemma LM83_REG_W_HIGH_inj (ch ch' : channel) :
  LM83_REG_W_HIGH ch' = LM83_REG_W_HIGH ch -> ch' = ch.
Proof. destruct ch, ch'; intros H; try reflexivity; discriminate H. Qed.

Lemma LM83_REG_R_TEMP_inj (ch ch' : channel) :
  LM83_REG_R_TEMP ch' = LM83_REG_R_TEMP ch -> ch' = ch.
Proof. destruct ch, ch'; intros H; try reflexivity; discriminate H. Qed.

(** X11.  A WRITE on a channel touches that channel only.  It makes a
    single call, the write of the limit register of the channel, which
    is the limit register of no other channel; it does not read the
    chip and does not take the semaphore.  In the client it changes
    nothing but the cached limit of the channel: the limits of the
    other channels, the readings, [valid], [last_updated] and the rest
    stay as they were, and so do [*nrels_mag] and the buffer. *)
Theorem write_touches_one_channel (k : kernel) (ch : channel) (client : i2c_client)
    (ctl_name nrels_mag : Z) (results : list Z) (w : world) :
  1 <= nrels_mag ->
  let out := callback k ch client SENSORS_PROC_REAL_WRITE ctl_name nrels_mag results w in
  let c1 := out_client (fst out) in
  (exists b res,
      events_since w (snd out)
      = [EvSmbusWrite (addr client) (LM83_REG_W_HIGH ch) b res])
  /\ (forall ch', LM83_REG_W_HIGH ch' = LM83_REG_W_HIGH ch -> ch' = ch)
  /\ (forall ch', ch' <> ch ->
        cached_high ch' (data c1) = cached_high ch' (data client))
  /\ readings (data c1) = readings (data client)
  /\ (valid (data c1), last_updated (data c1), sysctl_id (data c1),
      update_lock (data c1))
     = (valid (data client), last_updated (data client), sysctl_id (data client),
        update_lock (data client))
  /\ (name c1, id c1, flags c1, addr c1, adapter c1)
     = (name client, id client, flags client, addr client, adapter client)
  /\ out_nrels_mag (fst out) = nrels_mag
  /\ out_results (fst out) = results
  /\ lm83_id (snd out) = lm83_id w.
Proof.
  intros Hn out c1.
  pose proof (callback_write k ch client ctl_name nrels_mag results w Hn) as Hwr.
  cbv zeta in Hwr. fold out in Hwr. subst c1. rewrite Hwr. cbn [fst snd out_client].
  split; [rewrite events_since_app; eauto |].
  split; [intros ch'; apply LM83_REG_W_HIGH_inj |].
  split; [intros ch' Hne; destruct ch, ch'; try reflexivity; contradiction |].
  destruct ch; repeat split.
Qed.

Lemma write_touches_one_channel_witness :
  let out :=
    callback Stub.good remote3 Stub.cached_client SENSORS_PROC_REAL_WRITE 1203 1
      [60] Stub.boot in
  1 <= 1
  /\ (exists b res, events_since Stub.boot (snd out) = [EvSmbusWrite 0x4c 0x52 b res])
  /\ readings (data (out_client (fst out))) = readings (data Stub.cached_client)
  /\ limits (data (out_client (fst out))) = [0x7F; 0x7F; 0x7F; 60].
Proof.
  intros out. assert (Hn : 1 <= 1) by lia. split; [exact Hn |].
  destruct (write_touches_one_channel Stub.good remote3 Stub.cached_client 1203 1
              [60] Stub.boot Hn) as (Hev & _ & _ & Hreadings & _).
  split; [exact Hev | split; [exact Hreadings | reflexivity]].
Defined.

(** X12.  A request that is neither a READ nor a WRITE with a value
    has no effect outside: INFO, an unknown operation code, and a
    WRITE that carries no value ([*nrels_mag] below 1) make no call at
    all and leave the client and the buffer as they were.  INFO
    answers 0 in [*nrels_mag]; the others leave it. *)
Theorem request_without_effect (k : kernel) (ch : channel) (client : i2c_client)
    (op : operation) (ctl_name nrels_mag : Z) (results : list Z) (w : world) :
  op = SENSORS_PROC_REAL_INFO
  \/ (exists code, op = SENSORS_PROC_OTHER code)
  \/ (op = SENSORS_PROC_REAL_WRITE /\ nrels_mag < 1) ->
  let out := callback k ch client op ctl_name nrels_mag results w in
  snd out = w
  /\ out_client (fst out) = client
  /\ out_results (fst out) = results
  /\ out_nrels_mag (fst out)
     = (match op with SENSORS_PROC_REAL_INFO => 0 | _ => nrels_mag end).
Proof.
  intros [-> | [[code ->] | [-> Hn]]] out; subst out.
  - destruct ch; repeat split.
  - destruct ch; repeat split.
  - destruct ch; cbn [callback];
      unfold lm83_local_temp, lm83_remote1_temp, lm83_remote2_temp, lm83_remote3_temp;
      (destruct (Z.geb_spec nrels_mag 1) as [Hge | _]; [lia |]);
      repeat split.
Qed.

Lemma request_without_effect_witness :
  let out :=
    callback Stub.dead_bus remote1 Stub.cached_client SENSORS_PROC_REAL_WRITE 1201 0
      [99] Stub.boot in
  (SENSORS_PROC_REAL_WRITE = SENSORS_PROC_REAL_WRITE /\ 0 < 1)
  /\ snd out = Stub.boot
  /\ out_client (fst out) = Stub.cached_client.
Proof.
  intros out.
  assert (Hop : SENSORS_PROC_REAL_WRITE = SENSORS_PROC_REAL_WRITE /\ 0 < 1)
    by (split; [reflexivity | lia]).
  split; [exact Hop |].
  destruct (request_without_effect Stub.dead_bus remote1 Stub.cached_client
              SENSORS_PROC_REAL_WRITE 1201 0 [99] Stub.boot
              (or_intror (or_intror Hop))) as (Hw & Hc & _).
  split; assumption.
Defined.

(** X13.  A READ that updates the cache reports what the bus returned
    for the temperature register of its own channel: if the register
    of the channel was read with answer [v], the temperature reported
    in [results[0]] is the low byte of [v] decoded, a value of
    -128..127.  The READ answers 2 in [*nrels_mag], and leaves the
    buffer beyond its first two cells, and its length, as they were. *)
Theorem read_reports_bus_value (k : kernel) (ch : channel) (client : i2c_client)
    (ctl_name nrels_mag v : Z) (results : list Z) (w : world) :
  (2 <= length results)%nat ->
  let out := callback k ch client SENSORS_PROC_REAL_READ ctl_name nrels_mag results w in
  In (EvSmbusRead (addr client) (LM83_REG_R_TEMP ch) v) (events_since w (snd out)) ->
  results_get (out_results (fst out)) 0 = TEMP_FROM_REG (to_u8 v)
  /\ -128 <= results_get (out_results (fst out)) 0 <= 127
  /\ cached_temp ch (data (out_client (fst out))) = to_u8 v
  /\ out_nrels_mag (fst out) = 2
  /\ length (out_results (fst out)) = length results
  /\ forall i, (2 <= i)%nat -> out_results (fst out) !! i = results !! i.
Proof.
  intros Hbuf out Hin. subst out. rewrite callback_read in Hin |- *.
  cbv zeta in Hin |- *. cbn [fst snd out_results out_client out_nrels_mag] in Hin |- *.
  assert (Htemp : cached_temp ch (data (fst (lm83_update_client k client w)))
                  = to_u8 v).
  { destruct (update_needed k (now_at k client w) (data client)) eqn:E.
    - rewrite (lm83_update_client_stale k client w E) in Hin |- *.
      cbv zeta in Hin |- *. cbn [fst snd] in Hin |- *.
      rewrite <- !app_assoc in Hin |- *. rewrite events_since_app in Hin.
      in_split Hin; try (apply debug_events_in in Hin; discriminate Hin).
      all: injection Hin as Hreg <-; destruct ch; try discriminate Hreg; reflexivity.
    - rewrite (lm83_update_client_fresh k client w E) in Hin.
      cbn [snd] in Hin. rewrite events_since_app in Hin. in_split Hin. }
  destruct (results_get_read results
              (TEMP_FROM_REG (cached_temp ch (data (fst (lm83_update_client k client w)))))
              (TEMP_FROM_REG (cached_high ch (data (fst (lm83_update_client k client w)))))
              Hbuf) as [-> _].
  rewrite Htemp. split; [reflexivity |].
  split; [apply TEMP_FROM_REG_range, to_u8_range |].
  do 2 (split; [reflexivity |]). split.
  - rewrite !length_insert. reflexivity.
  - intros i Hi. rewrite !list_lookup_insert_ne by lia. reflexivity.
Qed.

Lemma read_reports_bus_value_witness :
  let out :=
    callback Stub.good remote1 Stub.fresh_client SENSORS_PROC_REAL_READ 1201 0
      [0; 0; 42] Stub.boot in
  ((2 <= length [0; 0; 42])%nat
   /\ In (EvSmbusRead 0x4c 0x30 0x9C) (events_since Stub.boot (snd out)))
  /\ results_get (out_results (fst out)) 0 = -100
  /\ out_results (fst out) !! 2%nat = Some 42.
Proof.
  intros out.
  assert (Hbuf : (2 <= length [0; 0; 42])%nat) by (simpl; lia).
  assert (Hin : In (EvSmbusRead (addr Stub.fresh_client) (LM83_REG_R_TEMP remote1) 0x9C)
                  (events_since Stub.boot (snd out)))
    by (vm_compute; do 2 right; left; reflexivity).
  split; [split; [exact Hbuf | exact Hin] |].
  destruct (read_reports_bus_value Stub.good remote1 Stub.fresh_client 1201 0 0x9C
              [0; 0; 42] Stub.boot Hbuf Hin) as (Hval & _ & _ & _ & _ & Hrest).
  split; [exact Hval | exact (Hrest 2%nat (le_n 2))].
Defined.

(** ** Requests in sequence *)

Lemma serve_app (k : kernel) (reqs1 reqs2 : list request) (client : i2c_client)
    (w : world) :
  serve k (reqs1 ++ reqs2) client w
  = serve k reqs2 (fst (serve k reqs1 client w)) (snd (serve k reqs1 client w)).
Proof.
  revert client w. induction reqs1 as [| q reqs1 IH]; intros client w.
  - reflexivity.
  - cbn [serve app]. unfold bind.
    destruct (callback k (req_channel q) client (req_op q) (req_ctl_name q)
                (req_nrels_mag q) (req_results q) w) as [out w1].
    apply IH.
Qed.

Lemma serve_cons (k : kernel) (q : request) (reqs : list request)
    (client : i2c_client) (w : world) :
  let out := callback k (req_channel q) client (req_op q) (req_ctl_name q)
               (req_nrels_mag q) (req_results q) w in
  serve k (q :: reqs) client w = serve k reqs (out_client (fst out)) (snd out).
Proof.
  cbv zeta. cbn [serve]. unfold bind.
  destruct (callback k (req_channel q) client (req_op q) (req_ctl_name q)
              (req_nrels_mag q) (req_results q) w) as [out w1].
  reflexivity.
Qed.

(** What an update does to the outside and to the client, in the terms
    that carry over to sequences of requests. *)
Lemma lm83_update_client_effect (k : kernel) (client : i2c_client) (w : world) :
  let r := lm83_update_client k client w in
  exists evs,
    snd r = mk_world (hist w ++ evs) (lm83_id w)
    /\ Forall (callback_event (addr client)) evs
    /\ semaphore_calls evs = [EvDown (addr client); EvUp (addr client)]
    /\ (cache_bytes (data client) -> cache_bytes (data (fst r))).
Proof.
  cbv zeta.
  assert (Hdebug : forall msg, Forall (callback_event (addr client)) (debug_events k msg)).
  { intros msg. apply Forall_forall. intros e He. apply list_elem_of_In in He.
    apply debug_events_in in He. subst e. do 4 right. eauto. }
  destruct (update_needed k (now_at k client w) (data client)) eqn:E.
  - rewrite (lm83_update_client_stale k client w E). cbv zeta. cbn [fst snd].
    eexists. split; [rewrite <- !app_assoc; reflexivity |].
    split; [| split].
    + cbn [app]. apply Forall_cons. split; [left; reflexivity |].
      apply Forall_app. split; [apply Hdebug |].
      repeat (apply Forall_cons; split);
        try (apply Forall_nil; exact I);
        try (right; right; left; first [ exists local; eexists; reflexivity
                                        | exists remote1; eexists; reflexivity
                                        | exists remote2; eexists; reflexivity
                                        | exists remote3; eexists; reflexivity ]).
      right; left; reflexivity.
    + cbn [app semaphore_calls].
      rewrite semaphore_calls_app, semaphore_calls_debug. reflexivity.
    + unfold cache_bytes, readings, limits. cbn [data with_data app].
      intros Hb. cbn.
      repeat match goal with
             | H : Forall _ (_ :: _) |- _ => apply Forall_cons in H; destruct H
             end.
      repeat (apply Forall_cons; split); try (apply Forall_nil; exact I);
        try apply to_u8_range; assumption.
  - rewrite (lm83_update_client_fresh k client w E). cbn [fst snd].
    eexists. split; [reflexivity |]. split; [| split; [reflexivity | auto]].
    repeat (apply Forall_cons; split); try (apply Forall_nil; exact I);
      [left | right; left]; reflexivity.
Qed.

(** What one request does, whatever the operation. *)
Lemma callback_effect (k : kernel) (ch : channel) (client : i2c_client)
    (op : operation) (ctl_name nrels_mag : Z) (results : list Z) (w : world) :
  let out := callback k ch client op ctl_name nrels_mag results w in
  let c1 := out_client (fst out) in
  exists evs,
    snd out = mk_world (hist w ++ evs) (lm83_id w)
    /\ Forall (callback_event (addr client)) evs
    /\ semaphore_calls evs
       = (match op with
          | SENSORS_PROC_REAL_READ => [EvDown (addr client); EvUp (addr client)]
          | _ => []
          end)
    /\ (cache_bytes (data client) -> cache_bytes (data c1))
    /\ (name c1, id c1, flags c1, addr c1, adapter c1)
       = (name client, id client, flags client, addr client, adapter client)
    /\ (sysctl_id (data c1), update_lock (data c1))
       = (sysctl_id (data client), update_lock (data client)).
Proof.
  cbv zeta.
  assert (Hnone : forall n,
            exists evs, snd (mk_proc_out client n results, w)
                        = mk_world (hist w ++ evs) (lm83_id w)
              /\ Forall (callback_event (addr client)) evs
              /\ semaphore_calls evs = []
              /\ (cache_bytes (data client) -> cache_bytes (data client))
              /\ (name client, id client, flags client, addr client, adapter client)
                 = (name client, id client, flags client, addr client, adapter client)
              /\ (sysctl_id (data client), update_lock (data client))
                 = (sysctl_id (data client), update_lock (data client))).
  { intros n. exists []. cbn [snd]. rewrite app_nil_r. destruct w.
    repeat split; auto. }
  destruct op as [| | | code].
  - destruct ch; apply (Hnone 0).
  - rewrite callback_read. cbv zeta. cbn [fst snd out_client].
    destruct (lm83_update_client_effect k client w) as (evs & Hw & Hall & Hsem & Hb).
    cbv zeta in Hw, Hb.
    destruct (lm83_update_client_frame k client w)
      as (_ & Hsid & Hlock & Hrest & _).
    cbv zeta in Hsid, Hlock, Hrest.
    exists evs. repeat split; try assumption.
    rewrite Hsid, Hlock. reflexivity.
  - destruct (Z.geb_spec nrels_mag 1) as [Hge | Hlt].
    + rewrite (callback_write k ch client ctl_name nrels_mag results w Hge).
      cbn [fst snd out_client]. eexists. split; [reflexivity |].
      split; [| split; [reflexivity | split; [| destruct ch; split; reflexivity]]].
      * apply Forall_cons. split; [| apply Forall_nil; exact I].
        do 3 right. left. exists ch. eexists _, _. split; [reflexivity |].
        apply to_u8_range.
      * unfold cache_bytes, readings, limits. intros Hb.
        repeat match goal with
               | H : Forall _ (_ ++ _) |- _ => cbn [app] in H
               | H : Forall _ (_ :: _) |- _ => apply Forall_cons in H; destruct H
               end.
        destruct ch; cbn;
          repeat (apply Forall_cons; split); try (apply Forall_nil; exact I);
          try apply to_u8_range; assumption.
    + assert (Hsame : callback k ch client SENSORS_PROC_REAL_WRITE ctl_name nrels_mag
                        results w
                      = (mk_proc_out client nrels_mag results, w)).
      { destruct ch; cbn [callback];
          unfold lm83_local_temp, lm83_remote1_temp, lm83_remote2_temp,
            lm83_remote3_temp;
          (destruct (Z.geb_spec nrels_mag 1); [lia | reflexivity]). }
      rewrite Hsame. apply (Hnone nrels_mag).
  - destruct ch; apply (Hnone nrels_mag).
Qed.

Lemma serve_effect (k : kernel) (reqs : list request) (client : i2c_client)
    (w : world) :
  let r := serve k reqs client w in
  let c1 := fst r in
  exists evs,
    snd r = mk_world (hist w ++ evs) (lm83_id w)
    /\ Forall (callback_event (addr client)) evs
    /\ semaphore_calls evs = taken_and_released (addr client) (reads_requested reqs)
    /\ (cache_bytes (data client) -> cache_bytes (data c1))
    /\ (name c1, id c1, flags c1, addr c1, adapter c1)
       = (name client, id client, flags client, addr client, adapter client)
    /\ (sysctl_id (data c1), update_lock (data c1))
       = (sysctl_id (data client), update_lock (data client)).
Proof.
  cbv zeta. revert client w. induction reqs as [| q reqs IH]; intros client w.
  - exists []. cbn [serve fst snd]. unfold ret. cbn [fst snd].
    rewrite app_nil_r. destruct w. repeat split; auto.
  - rewrite serve_cons. cbv zeta.
    destruct (callback_effect k (req_channel q) client (req_op q) (req_ctl_name q)
                (req_nrels_mag q) (req_results q) w)
      as (evs1 & Hw1 & Hall1 & Hsem1 & Hb1 & Hid1 & Hsl1).
    cbv zeta in Hw1, Hb1, Hid1, Hsl1.
    set (out := callback k (req_channel q) client (req_op q) (req_ctl_name q)
                  (req_nrels_mag q) (req_results q) w) in *.
    destruct (IH (out_client (fst out)) (snd out))
      as (evs2 & Hw2 & Hall2 & Hsem2 & Hb2 & Hid2 & Hsl2).
    assert (Haddr : addr (out_client (fst out)) = addr client) by congruence.
    rewrite Haddr in Hall2, Hsem2.
    exists (evs1 ++ evs2).
    split; [rewrite Hw2, Hw1; cbn [hist lm83_id]; rewrite app_assoc; reflexivity |].
    split; [apply Forall_app; split; assumption |].
    split; [| split; [intros Hb; apply Hb2, Hb1, Hb | split; congruence]].
    rewrite semaphore_calls_app, Hsem1, Hsem2. cbn [reads_requested].
    destruct (req_op q); reflexivity.
Qed.

Lemma callback_event_counts (a : Z) (evs : list event) :
  Forall (callback_event a) evs ->
  count_events is_kmalloc evs = 0%nat
  /\ count_events is_kfree evs = 0%nat
  /\ count_events is_attach evs = 0%nat.
Proof.
  intros Hall.
  assert (Hp : forall p,
            (forall e, callback_event a e -> p e = false) ->
            count_events p evs = 0%nat).
  { intros p Hpe. apply count_events_none. intros e He.
    apply Hpe. rewrite Forall_forall in Hall. apply Hall.
    apply list_elem_of_In. exact He. }
  repeat split; apply Hp; intros e
    [-> | [-> | [(ch & v & ->) | [(ch & b & res & -> & _) | (msg & ->)]]]];
    reflexivity.
Qed.

(** X14.  The callbacks keep bytes in the cache: if the eight cached
    registers of a client hold bytes, they still do after any sequence
    of requests, and a READ made then reports a temperature and a limit
    that both lie in -128..127. *)
Theorem requests_keep_bytes (k : kernel) (reqs : list request) (client : i2c_client)
    (w : world) (ch : channel) (ctl_name nrels_mag : Z) (results : list Z) :
  cache_bytes (data client) ->
  (2 <= length results)%nat ->
  let r := serve k reqs client w in
  let out :=
    callback k ch (fst r) SENSORS_PROC_REAL_READ ctl_name nrels_mag results (snd r) in
  cache_bytes (data (fst r))
  /\ cache_bytes (data (out_client (fst out)))
  /\ -128 <= results_get (out_results (fst out)) 0 <= 127
  /\ -128 <= results_get (out_results (fst out)) 1 <= 127.
Proof.
  intros Hb Hbuf r out.
  destruct (serve_effect k reqs client w) as (_ & _ & _ & _ & Hb1 & _).
  cbv zeta in Hb1. fold r in Hb1. specialize (Hb1 Hb).
  destruct (callback_effect k ch (fst r) SENSORS_PROC_REAL_READ ctl_name nrels_mag
              results (snd r)) as (_ & _ & _ & _ & Hb2 & _).
  cbv zeta in Hb2. fold out in Hb2. specialize (Hb2 Hb1).
  split; [exact Hb1 | split; [exact Hb2 |]].
  subst out. rewrite callback_read in Hb2 |- *. cbv zeta in Hb2 |- *.
  cbn [fst out_results out_client] in Hb2 |- *.
  match goal with
  | |- context [results_get (<[1%nat := ?h]> (<[0%nat := ?t]> results)) _] =>
      destruct (results_get_read results t h Hbuf) as [-> ->]
  end.
  unfold cache_bytes, readings, limits in Hb2. cbn [app] in Hb2.
  repeat match goal with
         | H : Forall _ (_ :: _) |- _ => apply Forall_cons in H; destruct H
         end.
  split; apply TEMP_FROM_REG_range; destruct ch; assumption.
Qed.

Lemma requests_keep_bytes_witness :
  let reqs :=
    [mk_request local SENSORS_PROC_REAL_WRITE 1200 1 [300];
     mk_request remote2 SENSORS_PROC_REAL_READ 1202 0 [0; 0]] in
  let r := serve Stub.dead_bus reqs Stub.cached_client Stub.boot in
  let out :=
    callback Stub.dead_bus local (fst r) SENSORS_PROC_REAL_READ 1200 0 [0; 0] (snd r) in
  (cache_bytes (data Stub.cached_client) /\ (2 <= length [0; 0])%nat)
  /\ -128 <= results_get (out_results (fst out)) 1 <= 127.
Proof.
  intros reqs r out.
  assert (Hb : cache_bytes (data Stub.cached_client)).
  { unfold cache_bytes, readings, limits. cbn [app].
    repeat (apply Forall_cons; split); try (apply Forall_nil; exact I);
      split; vm_compute; discriminate. }
  assert (Hbuf : (2 <= length [0; 0])%nat) by (simpl; lia).
  split; [split; assumption |].
  destruct (requests_keep_bytes Stub.dead_bus reqs Stub.cached_client Stub.boot
              local 1200 0 [0; 0] Hb Hbuf) as (_ & _ & _ & Hlimit).
  exact Hlimit.
Defined.

(** X15.  Serving requests stays within the client.  Whatever the
    sequence of requests, the only calls made are on the semaphore of
    the client, reads of its four temperature registers, writes of a
    byte to its four limit registers, and debugging output: nothing is
    allocated or freed, attached or detached, and no other register of
    the chip is touched.  The name, id, flags, address, adapter and
    sysctl id of the client, and the counter [lm83_id], are left as
    they were. *)
Theorem requests_stay_within_client (k : kernel) (reqs : list request)
    (client : i2c_client) (w : world) :
  let r := serve k reqs client w in
  let evs := events_since w (snd r) in
  Forall (callback_event (addr client)) evs
  /\ count_events is_kmalloc evs = 0%nat
  /\ count_events is_kfree evs = 0%nat
  /\ count_events is_attach evs = 0%nat
  /\ (name (fst r), id (fst r), flags (fst r), addr (fst r), adapter (fst r))
     = (name client, id client, flags client, addr client, adapter client)
  /\ sysctl_id (data (fst r)) = sysctl_id (data client)
  /\ lm83_id (snd r) = lm83_id w.
Proof.
  intros r evs.
  destruct (serve_effect k reqs client w) as (evs' & Hw & Hall & _ & _ & Hid & Hsl).
  cbv zeta in Hw, Hid, Hsl. fold r in Hw, Hid, Hsl.
  subst evs. rewrite Hw, events_since_app. cbn [lm83_id].
  destruct (callback_event_counts _ _ Hall) as (H1 & H2 & H3).
  repeat split; try assumption. congruence.
Qed.

(** X16.  The semaphore is taken and released once for each READ
    request and for nothing else, a release following each taking
    before anything else is done with the semaphore; after any sequence
    of requests its count is what it was. *)
Theorem requests_balance_semaphore (k : kernel) (reqs : list request)
    (client : i2c_client) (w : world) :
  let r := serve k reqs client w in
  let evs := events_since w (snd r) in
  semaphore_calls evs = taken_and_released (addr client) (reads_requested reqs)
  /\ count_events is_down evs = reads_requested reqs
  /\ count_events is_up evs = reads_requested reqs
  /\ update_lock (data (fst r)) = update_lock (data client).
Proof.
  intros r evs.
  destruct (serve_effect k reqs client w) as (evs' & Hw & _ & Hsem & _ & _ & Hsl).
  cbv zeta in Hw, Hsl. fold r in Hw, Hsl.
  subst evs. rewrite Hw, events_since_app.
  assert (Hdown : forall l, count_events is_down l = count_events is_down (semaphore_calls l)).
  { induction l as [| e l IHl]; [reflexivity |]. destruct e; cbn; rewrite ?IHl; reflexivity. }
  assert (Hup : forall l, count_events is_up l = count_events is_up (semaphore_calls l)).
  { induction l as [| e l IHl]; [reflexivity |]. destruct e; cbn; rewrite ?IHl; reflexivity. }
  assert (Hrep : forall n,
            count_events is_down (taken_and_released (addr client) n) = n
            /\ count_events is_up (taken_and_released (addr client) n) = n).
  { induction n as [| n [IHd IHu]]; [split; reflexivity |].
    cbn. rewrite IHd, IHu. split; reflexivity. }
  split; [exact Hsem |].
  rewrite Hdown, Hup, Hsem.
  destruct (Hrep (reads_requested reqs)) as [Hd Hu].
  split; [exact Hd | split; [exact Hu | congruence]].
Qed.

(** A request that is not a WRITE with a value for a channel leaves
    the cached limit of that channel alone. *)
Lemma callback_keeps_limit (k : kernel) (ch : channel) (q : request)
    (client : i2c_client) (w : world) :
  ~ writes_limit ch q ->
  cached_high ch
    (data (out_client
             (fst (callback k (req_channel q) client (req_op q) (req_ctl_name q)
                     (req_nrels_mag q) (req_results q) w))))
  = cached_high ch (data client).
Proof.
  destruct q as [qch op ctl n results]. unfold writes_limit.
  cbn [req_channel req_op req_ctl_name req_nrels_mag req_results]. intros Hnot.
  pose proof (callback_keeps_limits k qch client op ctl n results w) as Hkeep.
  destruct op as [| | | code];
    try (unfold limits in Hkeep; injection Hkeep as H0 H1 H2 H3;
         destruct ch; assumption).
  destruct (Z.geb_spec n 1) as [Hge | Hlt].
  - rewrite (callback_write k qch client ctl n results w Hge). cbn [fst out_client].
    destruct qch, ch; try reflexivity; exfalso; apply Hnot; auto.
  - destruct qch; cbn [callback];
      unfold lm83_local_temp, lm83_remote1_temp, lm83_remote2_temp, lm83_remote3_temp;
      (destruct (Z.geb_spec n 1); [lia | reflexivity]).
Qed.

Lemma serve_keeps_limit (k : kernel) (ch : channel) (reqs : list request)
    (client : i2c_client) (w : world) :
  Forall (fun q => ~ writes_limit ch q) reqs ->
  cached_high ch (data (fst (serve k reqs client w))) = cached_high ch (data client).
Proof.
  revert client w. induction reqs as [| q reqs IH]; intros client w Hall.
  - reflexivity.
  - apply Forall_cons in Hall. destruct Hall as [Hq Hall].
    rewrite serve_cons. cbv zeta. rewrite (IH _ _ Hall).
    apply callback_keeps_limit, Hq.
Qed.

(** X17.  A limit that was written stays.  If a sequence of requests
    holds a WRITE of a value [v] of -128..127 for a channel, and no
    later request of the sequence is a WRITE with a value for the same
    channel, then after the sequence the cached limit of the channel is
    [TEMP_TO_REG v] and a READ of the channel reports [v]: neither the
    updates made by READ requests nor the writes to other channels
    disturb it. *)
Theorem written_limit_persists (k : kernel) (pre post : list request) (q : request)
    (client : i2c_client) (w : world) (ch : channel) (v ctl_name nrels_mag : Z)
    (results : list Z) :
  -128 <= v <= 127 ->
  writes_limit ch q ->
  req_results q !! 0%nat = Some v ->
  Forall (fun q' => ~ writes_limit ch q') post ->
  (2 <= length results)%nat ->
  let r := serve k (pre ++ q :: post) client w in
  let out :=
    callback k ch (fst r) SENSORS_PROC_REAL_READ ctl_name nrels_mag results (snd r) in
  cached_high ch (data (fst r)) = TEMP_TO_REG v
  /\ results_get (out_results (fst out)) 1 = v.
Proof.
  intros Hv (Hch & Hop & Hn) Hres Hpost Hbuf r out.
  assert (Hhigh : cached_high ch (data (fst r)) = TEMP_TO_REG v).
  { subst r. rewrite serve_app, serve_cons. cbv zeta.
    rewrite (serve_keeps_limit k ch post _ _ Hpost).
    destruct q as [qch op ctl n qres].
    cbn [req_channel req_op req_ctl_name req_nrels_mag req_results] in *.
    subst qch op.
    rewrite (callback_write k ch _ ctl n qres _ Hn). cbn [fst out_client].
    assert (Hget : results_get qres 0 = v)
      by (unfold results_get; rewrite Hres; reflexivity).
    rewrite Hget, (to_u8_small _ (TEMP_TO_REG_range v Hv)).
    destruct ch; reflexivity. }
  split; [exact Hhigh |].
  subst out. rewrite callback_read. cbv zeta. cbn [fst out_results].
  match goal with
  | |- results_get (<[1%nat := ?h]> (<[0%nat := ?t]> results)) 1 = _ =>
      destruct (results_get_read results t h Hbuf) as [_ ->]
  end.
  destruct (lm83_update_client_frame k (fst r) (snd r)) as (Hlim & _).
  assert (Hsame : cached_high ch (data (fst (lm83_update_client k (fst r) (snd r))))
                  = cached_high ch (data (fst r))).
  { unfold limits in Hlim. injection Hlim as H0 H1 H2 H3. destruct ch; assumption. }
  rewrite Hsame, Hhigh. apply TEMP_FROM_TO_REG, Hv.
Qed.

Lemma written_limit_persists_witness :
  let pre := [mk_request remote2 SENSORS_PROC_REAL_READ 1202 0 [0; 0]] in
  let q := mk_request remote2 SENSORS_PROC_REAL_WRITE 1202 1 [-10] in
  let post :=
    [mk_request remote2 SENSORS_PROC_REAL_READ 1202 0 [0; 0];
     mk_request local SENSORS_PROC_REAL_WRITE 1200 1 [70];
     mk_request remote2 SENSORS_PROC_REAL_WRITE 1202 0 [5]] in
  let r := serve Stub.good (pre ++ q :: post) Stub.fresh_client Stub.boot in
  let out :=
    callback Stub.good remote2 (fst r) SENSORS_PROC_REAL_READ 1202 0 [0; 0] (snd r) in
  (-128 <= -10 <= 127 /\ writes_limit remote2 q
   /\ req_results q !! 0%nat = Some (-10)
   /\ Forall (fun q' => ~ writes_limit remote2 q') post
   /\ (2 <= length [0; 0])%nat)
  /\ remote2_high (data (fst r)) = 246
  /\ results_get (out_results (fst out)) 1 = -10.
Proof.
  intros pre q post r out.
  assert (Hv : -128 <= -10 <= 127) by lia.
  assert (Hq : writes_limit remote2 q)
    by (split; [reflexivity | split; [reflexivity | simpl; lia]]).
  assert (Hres : req_results q !! 0%nat = Some (-10)) by reflexivity.
  assert (Hpost : Forall (fun q' => ~ writes_limit remote2 q') post).
  { repeat (apply Forall_cons; split); try (apply Forall_nil; exact I);
      intros (Hc & Ho & Hn); cbn in Hc, Ho, Hn;
      first [discriminate Hc | discriminate Ho | lia]. }
  assert (Hbuf : (2 <= length [0; 0])%nat) by (simpl; lia).
  split; [exact (conj Hv (conj Hq (conj Hres (conj Hpost Hbuf)))) |].
  exact (written_limit_persists Stub.good pre post q Stub.fresh_client Stub.boot
           remote2 (-10) 1202 0 [0; 0] Hv Hq Hres Hpost Hbuf).
Defined.

(** The calls of [lm83_detach_client] and what it returns. *)
Lemma lm83_detach_client_run (k : kernel) (client : i2c_client) (w : world) :
  let d := lm83_detach_client k client w in
  let err :=
    i2c_detach_client k (hist w ++ [EvDeregisterEntry (sysctl_id (data client))])
      (addr client) in
  events_since w (snd d)
  = EvDeregisterEntry (sysctl_id (data client))
    :: EvDetachClient (addr client) err
    :: (if err =? 0 then [EvKfree (addr client)]
        else [EvPrintk "lm83.o: Client deregistration failed, client not detached.\n"])
  /\ fst d = (err, if err =? 0 then None else Some client).
Proof.
  cbv zeta. unfold lm83_detach_client, emit. call_step. call_step.
  destruct (Z.eqb_spec
              (i2c_detach_client k
                 (hist w ++ [EvDeregisterEntry (sysctl_id (data client))])
                 (addr client)) 0) as [Herr | Herr];
    cbv beta iota delta [negb].
  - call_step. unfold ret. cbn [fst snd].
    rewrite <- !app_assoc, events_since_app. rewrite Herr. split; reflexivity.
  - rewrite bind_printk. unfold ret. cbv beta. cbn [fst snd hist lm83_id].
    rewrite <- !app_assoc, events_since_app. split; reflexivity.
Qed.

(** X18.  From attach to detach.  The sysctl id that
    [i2c_register_entry] returned when the chip was attached is the one
    that [lm83_detach_client] hands to [i2c_deregister_entry], whatever
    requests were served in between, and the client detached is the one
    at the address that was attached.  When [i2c_detach_client] returns
    0 the block allocated at attach is freed, once; otherwise it is
    not freed. *)
Theorem attach_serve_detach (k : kernel) (adapter address flags kind sid : Z)
    (w w2 w3 : world) (c : i2c_client) (reqs : list request) :
  let r := lm83_detect k adapter address flags kind w in
  new_client (fst r) = Some c ->
  In (EvRegisterEntry address sid) (events_since w (snd r)) ->
  let c' := fst (serve k reqs c w2) in
  let d := lm83_detach_client k c' w3 in
  exists err,
    events_since w3 (snd d)
    = EvDeregisterEntry sid
      :: EvDetachClient address err
      :: (if err =? 0 then [EvKfree address]
          else [EvPrintk
                  "lm83.o: Client deregistration failed, client not detached.\n"])
    /\ fst d = (err, if err =? 0 then None else Some c')
    /\ count_events is_kmalloc (events_since w (snd r)) = 1%nat
    /\ count_events is_kfree (events_since w (snd r)) = 0%nat
    /\ count_events is_kfree (events_since w3 (snd d))
       = (if err =? 0 then 1%nat else 0%nat).
Proof.
  intros r Hc Hin c' d.
  destruct (lm83_detect_facts k adapter address flags kind w) as (Hrun & _ & _).
  fold r in Hrun.
  assert (Hshape : sysctl_id (data c) = sid /\ addr c = address
                   /\ count_events is_kmalloc (events_since w (snd r)) = 1%nat
                   /\ count_events is_kfree (events_since w (snd r)) = 0%nat).
  { revert Hc Hin Hrun. generalize (events_since w (snd r)). generalize (fst r).
    intros res evs Hc Hin Hrun.
    inversion Hrun; subst; cbn [new_client] in Hc; try discriminate Hc.
    injection Hc as <-. in_split Hin; try solve [not_in_run].
    injection Hin as <-.
    split; [reflexivity | split; [reflexivity |]].
    split; count_run; reflexivity. }
  destruct Hshape as (Hsid & Haddr & Hallocs & Hfrees).
  destruct (serve_effect k reqs c w2) as (_ & _ & _ & _ & _ & Hid & Hsl).
  cbv zeta in Hid, Hsl. fold c' in Hid, Hsl.
  assert (Hsid' : sysctl_id (data c') = sid) by congruence.
  assert (Haddr' : addr c' = address) by congruence.
  destruct (lm83_detach_client_run k c' w3) as (Hev & Hret).
  cbv zeta in Hev, Hret. fold d in Hev, Hret.
  rewrite Hsid', Haddr' in Hev, Hret.
  eexists. split; [exact Hev |]. split; [exact Hret |].
  split; [exact Hallocs | split; [exact Hfrees |]].
  rewrite Hev. cbn [count_events is_kfree].
  match goal with |- context [if ?b then _ else _] => destruct b end; reflexivity.
Qed.

Lemma attach_serve_detach_witness :
  let r := lm83_detect Stub.good 0 0x4c 0 (-1) Stub.boot in
  let reqs :=
    [mk_request local SENSORS_PROC_REAL_READ 1200 0 [0; 0];
     mk_request remote1 SENSORS_PROC_REAL_WRITE 1201 1 [90]] in
  exists c,
    (new_client (fst r) = Some c
     /\ In (EvRegisterEntry 0x4c 7) (events_since Stub.boot (snd r)))
    /\ let c' := fst (serve Stub.good reqs c (snd r)) in
       let w3 := snd (serve Stub.good reqs c (snd r)) in
       exists err,
         events_since w3 (snd (lm83_detach_client Stub.good c' w3))
         = EvDeregisterEntry 7
           :: EvDetachClient 0x4c err
           :: (if err =? 0 then [EvKfree 0x4c]
               else [EvPrintk
                       "lm83.o: Client deregistration failed, client not detached.\n"]).
Proof.
  intros r reqs.
  destruct (new_client (fst r)) as [c |] eqn:Hc; [| vm_compute in Hc; discriminate Hc].
  assert (Hin : In (EvRegisterEntry 0x4c 7) (events_since Stub.boot (snd r)))
    by (vm_compute; do 7 right; left; reflexivity).
  exists c. split; [split; [reflexivity | exact Hin] |].
  cbv zeta.
  destruct (attach_serve_detach Stub.good 0 0x4c 0 (-1) 7 Stub.boot (snd r)
              (snd (serve Stub.good reqs c (snd r))) c reqs Hc Hin)
    as (err & Hev & _).
  exists err. exact Hev.
Defined.
